(** * QuizX: scoring, ranking and live-session core

    A shallow embedding of the scoring and leaderboard code of the QuizX
    application (Flask + SQLAlchemy + Socket.IO) and the proofs of the
    properties its specification states about it.

    Conventions of the embedding.
    - A database table is the list of its rows in storage order; every row
      carries its primary key.  A query is a [List.filter] over the table,
      an [ORDER BY] a stable sort of the filtered rows.
    - Python floats (question points, wall-clock timestamps) are exact
      rationals [Q]; [int(x)] is truncation towards zero.
    - Integer columns and counters are [Z].
    - The process-wide dictionary [quiz_state] is a [gmap] from quiz
      identifier to the session record.
    - The library calls [json.loads], [str], [str.strip], [str.lower],
      [re.sub] and [round] are operations of a [PyRuntime] the model is
      parametric in.
    - Requests are handled one at a time, each to completion. *)

From Stdlib Require Import ZArith QArith Qminmax Qround List Bool Lia Lqa Permutation Sorted.
From stdpp Require Import base gmap strings pretty.
Import ListNotations.

#[local] Set Warnings "-register-all".
#[local] Open Scope string_scope.
#[local] Open Scope Z_scope.

(** ** Python values *)

(** [int(x)] on a float: truncation towards zero. *)
Definition py_int (x : Q) : Z := Z.quot (Qnum x) (Zpos (Qden x)).

(** Truthiness of an optional integer column: [None] and [0] are falsy. *)
Definition truthy_int (x : option Z) : bool :=
  match x with
  | Some v => negb (v =? 0)
  | None => false
  end.

(** Truthiness of a nullable Boolean column. *)
Definition truthy_flag (x : option bool) : bool :=
  match x with
  | Some b => b
  | None => false
  end.

(** Truthiness of an optional string: [None] and the empty string are falsy. *)
Definition truthy_str (x : option string) : bool :=
  match x with
  | Some s => negb (String.eqb s "")
  | None => false
  end.

(** The values [json.loads] can return. *)
Inductive JValue : Type :=
| JNull
| JBool (b : bool)
| JInt (z : Z)
| JReal (repr : string)
| JStr (s : string)
| JList (items : list JValue)
| JDict (items : list (string * JValue)).

(** The library operations the code calls.  [json_loads] returns [None]
    where [json.loads] raises; [re_sub_tags] is [re.sub('<.*?>', '', s)];
    [py_round1] is [round(x, 1)]. *)
Class PyRuntime : Type := {
  json_loads : string -> option JValue;
  py_str : JValue -> string;
  py_strip : string -> string;
  py_lower : string -> string;
  re_sub_tags : string -> string;
  py_round1 : Q -> Q
}.

(** The characters of a string, each as a one-character string. *)
Fixpoint chars_of (s : string) : list JValue :=
  match s with
  | EmptyString => []
  | String c rest => JStr (String c EmptyString) :: chars_of rest
  end.

(** [for ans in v]: lists, strings and dictionaries are iterable, the other
    values raise [TypeError] ([None]). *)
Definition py_iter (v : JValue) : option (list JValue) :=
  match v with
  | JList items => Some items
  | JStr s => Some (chars_of s)
  | JDict items => Some (List.map (fun kv => JStr (fst kv)) items)
  | _ => None
  end.

(** [if not isinstance(v, list): v = [v]]. *)
Definition as_list (v : JValue) : list JValue :=
  match v with
  | JList items => items
  | other => [other]
  end.

(** [x in xs] on strings. *)
Definition str_in (x : string) (xs : list string) : bool :=
  existsb (String.eqb x) xs.

(** [set(xs) == set(ys)] on strings. *)
Definition set_eqb (xs ys : list string) : bool :=
  forallb (fun x => str_in x ys) xs && forallb (fun y => str_in y xs) ys.

(** ** Ordered queries *)

Section StableSort.
Context {A : Type} (leb : A -> A -> bool).

Fixpoint insert_by (x : A) (l : list A) : list A :=
  match l with
  | [] => [x]
  | y :: l' => if leb x y then x :: l else y :: insert_by x l'
  end.

(** A stable sort: of two rows with equal keys the one stored first stays
    first. *)
Definition sort_by (l : list A) : list A := fold_right insert_by [] l.

(** The order the Boolean comparison decides. *)
Definition le_of : A -> A -> Prop := fun x y => leb x y = true.
End StableSort.

(** [enumerate(xs, start)]. *)
Definition enumerate {A : Type} (start : nat) (xs : list A) : list (nat * A) :=
  combine (seq start (length xs)) xs.

(** ** Data model (app/models) *)

Module Quiz.
Record row : Type := {
  id : Z;
  has_timer : bool;
  overall_timer : option Z;            (* minutes, NULL = disabled *)
  show_leaderboard_global : option bool; (* NULL = disabled *)
  is_published : bool;
  is_active : bool;
  is_paused : bool;
  paused_seconds : Z
}.
End Quiz.

Module Question.
Record row : Type := {
  id : Z;
  quiz_id : Z;
  order : Z;
  question_type : string;
  correct_answers : option string;     (* JSON text *)
  points : option Q;
  time_limit : option Z;               (* seconds, 0 = no timer *)
  show_leaderboard : option bool;
  answer : option string               (* legacy single answer *)
}.
End Question.

Module PartialAnswer.
Record row : Type := {
  id : Z;
  quiz_id : Z;
  question_id : Z;
  student : string;
  is_correct : bool;
  time_taken : Z;
  points : Q;
  submitted_at : Z
}.

(** [answer.points += bonus]. *)
Definition add_bonus (bonus : Q) (a : row) : row :=
  {| id := id a; quiz_id := quiz_id a; question_id := question_id a;
     student := student a; is_correct := is_correct a;
     time_taken := time_taken a; points := (points a + bonus)%Q;
     submitted_at := submitted_at a |}.
End PartialAnswer.

Module Result.
Record row : Type := {
  id : Z;
  quiz_id : Z;
  student : string;
  score : Z;
  total : Z;
  time_taken : Z;
  total_points : Q
}.
End Result.

(** The persisted store. *)
Record DB : Type := {
  quizzes : list Quiz.row;
  questions : list Question.row;
  partial_answers : list PartialAnswer.row;
  results : list Result.row
}.

(** [Model.query.get(pk)]. *)
Definition get_quiz (db : DB) (quiz_id : Z) : option Quiz.row :=
  List.find (fun q => Quiz.id q =? quiz_id) (quizzes db).

Definition get_question (db : DB) (question_id : Z) : option Question.row :=
  List.find (fun q => Question.id q =? question_id) (questions db).

(** [Question.query.filter_by(quiz_id=quiz_id)]. *)
Definition questions_of (db : DB) (quiz_id : Z) : list Question.row :=
  List.filter (fun q => Question.quiz_id q =? quiz_id) (questions db).

(** A fresh primary key for a table whose keys are [ids]. *)
Definition next_id (ids : list Z) : Z := 1 + fold_right Z.max 0 ids.

Definition sum_Z (xs : list Z) : Z := fold_right Z.add 0 xs.
Definition sum_Q (xs : list Q) : Q := fold_right Qplus 0%Q xs.

(** The students of a list of answers, each once, in order of first
    appearance: the groups of [GROUP BY student]. *)
Fixpoint distinct (xs : list string) : list string :=
  match xs with
  | [] => []
  | x :: rest => x :: List.filter (fun y => negb (String.eqb x y)) (distinct rest)
  end.

(** ** Question model methods and the answer validator *)

Section Validator.
Context `{PyRuntime}.

(** [Question.get_correct_answers]: the parsed [correct_answers] column,
    or the legacy [answer] when the column is empty or does not parse. *)
Definition get_correct_answers (q : Question.row) : JValue :=
  let legacy :=
    match Question.answer q with
    | Some a => if truthy_str (Some a) then JList [JStr a] else JList []
    | None => JList []
    end in
  match Question.correct_answers q with
  | Some text =>
      if truthy_str (Some text) then
        match json_loads text with
        | Some v => v
        | None => legacy
        end
      else legacy
  | None => legacy
  end.

(** [strip_html_tags] of routes/student.py. *)
Definition strip_html_tags (html_text : string) : string :=
  if String.eqb html_text "" then "" else re_sub_tags html_text.

(** [str(question.answer)]. *)
Definition str_of_answer (a : option string) : string :=
  match a with
  | Some s => s
  | None => "None"
  end.

(** [check_answer_correctness] of routes/student.py.  [None] is an
    exception that leaves the function. *)
Definition check_answer_correctness (question : Question.row)
    (selected_answer : option string) : option bool :=
  match selected_answer with
  | None => Some false
  | Some sel =>
    if String.eqb sel "" || String.eqb sel "No Answer" then Some false
    else
      let question_type := Question.question_type question in
      if String.eqb question_type "multiple-choice" then
        match py_iter (get_correct_answers question) with
        | Some correct =>
            Some (str_in (py_strip sel)
                    (List.map (fun ans => py_strip (py_str ans)) correct))
        | None => None
        end
      else if String.eqb question_type "checkbox" then
        match json_loads sel with
        | Some parsed =>
            let student_answers := as_list parsed in
            match py_iter (get_correct_answers question) with
            | Some correct =>
                Some (set_eqb (List.map py_str student_answers)
                              (List.map py_str correct))
            | None => Some false
            end
        | None => Some false
        end
      else if String.eqb question_type "short-answer"
              || String.eqb question_type "paragraph" then
        let student_text := py_lower (py_strip (strip_html_tags sel)) in
        match py_iter (get_correct_answers question) with
        | Some correct =>
            let correct_answers :=
              List.map (fun ans => py_lower (py_strip (strip_html_tags (py_str ans))))
                       correct in
            Some (match correct_answers with
                  | [] => false
                  | _ => str_in student_text correct_answers
                  end)
        | None => None
        end
      else
        Some (String.eqb (py_strip sel)
                         (py_strip (str_of_answer (Question.answer question))))
  end.
End Validator.

(** ** Score calculation *)

(** The speed multiplier both calculators apply to [time_ratio]. *)
Definition speed_multiplier (time_ratio : Q) : Q :=
  if Qle_bool time_ratio 0.3 then 1.5%Q
  else if Qle_bool time_ratio 0.6 then 1.2%Q
  else if Qle_bool time_ratio 0.9 then 1.0%Q
  else 0.8%Q.

(** [has_timer and time_limit and time_limit > 0]. *)
Definition timed (has_timer : bool) (time_limit : option Z) : option Z :=
  match time_limit with
  | Some limit => if has_timer && truthy_int (Some limit) && (0 <? limit)
                  then Some limit else None
  | None => None
  end.

(** [question.points or 1.0]. *)
Definition base_points (question : Question.row) : Q :=
  match Question.points question with
  | Some p => if Qeq_bool p 0 then 1.0%Q else p
  | None => 1.0%Q
  end.

(** [calculate_question_points] of routes/student.py. *)
Definition calculate_question_points (question : Question.row)
    (is_correct : bool) (time_taken : Z) (quiz : Quiz.row) : Q :=
  if negb is_correct then 0%Q
  else
    match timed (Quiz.has_timer quiz) (Question.time_limit question) with
    | Some limit =>
        (base_points question
         * speed_multiplier (inject_Z time_taken / inject_Z limit))%Q
    | None => base_points question
    end.

(** [filter_by(quiz_id=quiz_id, question_id=question_id, is_correct=True)]. *)
Definition correct_for (quiz_id question_id : Z) (a : PartialAnswer.row) : bool :=
  (PartialAnswer.quiz_id a =? quiz_id)
  && (PartialAnswer.question_id a =? question_id)
  && PartialAnswer.is_correct a.

Module ScoringService.

(** The correct answers of a question in the order of the query:
    [filter_by(..., is_correct=True).order_by(time_taken)]. *)
Definition correct_answers_by_time (quiz_id question_id : Z)
    (table : list PartialAnswer.row) : list PartialAnswer.row :=
  sort_by (fun a b => PartialAnswer.time_taken a <=? PartialAnswer.time_taken b)
    (List.filter (correct_for quiz_id question_id) table).

Definition bonus_points : list Q := [3%Q; 2%Q; 1%Q].

(** The write-back of one mutated ORM object: the row with that primary
    key gets the bonus. *)
Definition award (table : list PartialAnswer.row) (ranked : nat * PartialAnswer.row)
    : list PartialAnswer.row :=
  let '(idx, answer) := ranked in
  List.map
    (fun a => if PartialAnswer.id a =? PartialAnswer.id answer
              then PartialAnswer.add_bonus (nth idx bonus_points 0%Q) a
              else a)
    table.

(** [ScoringService.update_question_rank_bonuses]. *)
Definition update_question_rank_bonuses (quiz_id question_id : Z)
    (table : list PartialAnswer.row) : list PartialAnswer.row :=
  fold_left award
    (enumerate 0 (firstn 3 (correct_answers_by_time quiz_id question_id table)))
    table.
End ScoringService.

(** ** The submission endpoint (routes/student.py, [attempt_quiz], POST) *)

Module Student.
(** The session and form fields the handler reads. *)
Record Submission : Type := {
  role : string;                 (* session['role'] *)
  student_name : string;         (* get_student_name() *)
  qindex : Z;
  question_id : Z;
  selected_answer : option string;
  time_taken : Z;
  now_utc : Z                    (* the clock read for submitted_at *)
}.

Inductive Response : Type :=
| NotFound
| RedirectAdminDashboard
| RedirectWaitingRoom
| QuizClosed (message : string)
| ServerError
| Json (is_correct : bool) (correct_answer : string) (student_complete : bool)
       (next_question : option Z) (show_leaderboard : option bool).

(** [Quiz.should_show_leaderboard(question)]. *)
Definition should_show_leaderboard (quiz : Quiz.row) (question : Question.row)
    : option bool :=
  if negb (truthy_flag (Quiz.show_leaderboard_global quiz)) then Some false
  else Question.show_leaderboard question.

Definition same_answer_key (quiz_id question_id : Z) (student : string)
    (a : PartialAnswer.row) : bool :=
  (PartialAnswer.quiz_id a =? quiz_id)
  && (PartialAnswer.question_id a =? question_id)
  && String.eqb (PartialAnswer.student a) student.

Definition same_participant (quiz_id : Z) (student : string)
    (a : PartialAnswer.row) : bool :=
  (PartialAnswer.quiz_id a =? quiz_id) && String.eqb (PartialAnswer.student a) student.

Definition same_result_key (quiz_id : Z) (student : string) (r : Result.row) : bool :=
  (Result.quiz_id r =? quiz_id) && String.eqb (Result.student r) student.

Definition with_partial_answers (db : DB) (table : list PartialAnswer.row) : DB :=
  {| quizzes := quizzes db; questions := questions db;
     partial_answers := table; results := results db |}.

Definition with_results (db : DB) (table : list Result.row) : DB :=
  {| quizzes := quizzes db; questions := questions db;
     partial_answers := partial_answers db; results := table |}.

(** The "quiz complete" block: aggregate the participant's answers and
    create the Result row unless one exists. *)
Definition complete_quiz (db : DB) (quiz_id : Z) (student : string)
    (total_questions : Z) : DB :=
  let partials := List.filter (same_participant quiz_id student) (partial_answers db) in
  let score := Z.of_nat (length (List.filter PartialAnswer.is_correct partials)) in
  let total_time := sum_Z (List.map PartialAnswer.time_taken partials) in
  let total_points := sum_Q (List.map PartialAnswer.points partials) in
  match List.find (same_result_key quiz_id student) (results db) with
  | Some existing => db
  | None =>
      with_results db
        (results db ++
           [ {| Result.id := next_id (List.map Result.id (results db));
                Result.quiz_id := quiz_id;
                Result.student := student;
                Result.score := score;
                Result.total := total_questions;
                Result.time_taken := total_time;
                Result.total_points := total_points |} ])
  end.

(** [PartialAnswer.query.filter_by(quiz_id, question_id, student).delete()]. *)
Definition delete_prior (db : DB) (quiz_id : Z) (form : Submission) : DB :=
  with_partial_answers db
    (List.filter
       (fun a => negb (same_answer_key quiz_id (question_id form) (student_name form) a))
       (partial_answers db)).

(** The row [PartialAnswer(...)] the handler adds, with a fresh key. *)
Definition new_partial (db : DB) (quiz_id : Z) (form : Submission)
    (is_correct : bool) (question_points : Q) : PartialAnswer.row :=
  {| PartialAnswer.id := next_id (List.map PartialAnswer.id (partial_answers db));
     PartialAnswer.quiz_id := quiz_id;
     PartialAnswer.question_id := question_id form;
     PartialAnswer.student := student_name form;
     PartialAnswer.is_correct := is_correct;
     PartialAnswer.time_taken := time_taken form;
     PartialAnswer.points := question_points;
     PartialAnswer.submitted_at := now_utc form |}.

Section Endpoint.
Context `{PyRuntime}.

(** [attempt_quiz(quiz_id)] for a POST request. *)
Definition attempt_quiz_post (db : DB) (quiz_id : Z) (form : Submission)
    : DB * Response :=
  if String.eqb (role form) "admin" then (db, RedirectAdminDashboard)
  else
    match get_quiz db quiz_id with
    | None => (db, NotFound)
    | Some quiz =>
      if negb (Quiz.is_active quiz) then (db, RedirectWaitingRoom)
      else if negb (Quiz.is_published quiz) then (db, QuizClosed "Quiz not available.")
      else if Quiz.is_paused quiz then (db, QuizClosed "Quiz is paused.")
      else
        let questions := questions_of db quiz_id in
        match questions with
        | [] => (db, QuizClosed "No questions added yet.")
        | _ =>
          match get_question db (question_id form) with
          | None => (db, NotFound)
          | Some current_question_obj =>
            (* Prevent duplicate submission *)
            let db1 := delete_prior db quiz_id form in
            match check_answer_correctness current_question_obj
                    (selected_answer form) with
            | None => (db1, ServerError)
            | Some is_correct =>
              let question_points :=
                calculate_question_points current_question_obj is_correct
                  (time_taken form) quiz in
              let partial := new_partial db1 quiz_id form is_correct question_points in
              let db2 := with_partial_answers db1 (partial_answers db1 ++ [partial]) in
              let db3 :=
                with_partial_answers db2
                  (ScoringService.update_question_rank_bonuses quiz_id
                     (question_id form) (partial_answers db2)) in
              let should_show := should_show_leaderboard quiz current_question_obj in
              let total_questions := Z.of_nat (length questions) in
              let is_last := total_questions - 1 <=? qindex form in
              let correct_answer := py_str (get_correct_answers current_question_obj) in
              if is_last then
                (complete_quiz db3 quiz_id (student_name form) total_questions,
                 Json is_correct correct_answer true None should_show)
              else
                (db3,
                 Json is_correct correct_answer false (Some (qindex form + 1))
                      should_show)
            end
          end
        end
    end.
End Endpoint.
End Student.

(** ** Leaderboards *)

(** The aggregates of one [GROUP BY student] group. *)
Definition group_of (student : string) (rows : list PartialAnswer.row)
    : list PartialAnswer.row :=
  List.filter (fun a => String.eqb (PartialAnswer.student a) student) rows.

Definition answers_of_quiz (db : DB) (quiz_id : Z) : list PartialAnswer.row :=
  List.filter (fun a => PartialAnswer.quiz_id a =? quiz_id) (partial_answers db).

Definition count_Z {A : Type} (p : A -> bool) (xs : list A) : Z :=
  Z.of_nat (length (List.filter p xs)).

(** app/services/leaderboard_service.py: the class [app.services] exports and
    the routes import. *)
Module LeaderboardService.
Record entry : Type := {
  student : string;
  points : Z;
  correct : Z;
  incorrect : Z;
  time : Z;
  total : Z
}.

(** [LeaderboardService.build_leaderboard_payload]. *)
Definition build_leaderboard_payload (db : DB) (quiz_id : Z) : list entry :=
  let total_questions := Z.of_nat (length (questions_of db quiz_id)) in
  let answers := answers_of_quiz db quiz_id in
  List.map
    (fun s =>
       let rows := group_of s answers in
       {| student := s;
          points := py_int (sum_Q (List.map PartialAnswer.points rows));
          correct := count_Z PartialAnswer.is_correct rows;
          incorrect := count_Z (fun a => negb (PartialAnswer.is_correct a)) rows;
          time := sum_Z (List.map PartialAnswer.time_taken rows);
          total := total_questions |})
    (distinct (List.map PartialAnswer.student answers)).

Record question_entry : Type := {
  rank : Z;
  q_student : string;
  q_time_taken : Z;
  q_points : Q
}.

Definition by_time_then_submitted (a b : PartialAnswer.row) : bool :=
  (PartialAnswer.time_taken a <? PartialAnswer.time_taken b)
  || ((PartialAnswer.time_taken a =? PartialAnswer.time_taken b)
      && (PartialAnswer.submitted_at a <=? PartialAnswer.submitted_at b)).

Definition by_submitted (a b : PartialAnswer.row) : bool :=
  PartialAnswer.submitted_at a <=? PartialAnswer.submitted_at b.

(** The rows the query of [get_question_leaderboard] returns. *)
Definition question_answers (quiz : Quiz.row) (db : DB) (quiz_id question_id : Z)
    : list PartialAnswer.row :=
  let correct := List.filter (correct_for quiz_id question_id) (partial_answers db) in
  if Quiz.has_timer quiz
  then firstn 10 (sort_by by_time_then_submitted correct)
  else firstn 10 (sort_by by_submitted correct).

Definition to_question_entry (ia : nat * PartialAnswer.row) : question_entry :=
  {| rank := Z.of_nat (fst ia) + 1;
     q_student := PartialAnswer.student (snd ia);
     q_time_taken := PartialAnswer.time_taken (snd ia);
     q_points := PartialAnswer.points (snd ia) |}.

(** [LeaderboardService.get_question_leaderboard]. *)
Definition get_question_leaderboard (db : DB) (quiz_id question_id : Z)
    : list question_entry :=
  match get_quiz db quiz_id with
  | None => []
  | Some quiz =>
      List.map to_question_entry
        (enumerate 0 (question_answers quiz db quiz_id question_id))
  end.
End LeaderboardService.

(** app/routes/leaderboard_service.py: a second class of the same name, which
    no module imports. *)
Module RoutesLeaderboardService.
Record entry : Type := {
  name : string;
  points : Q;
  correct : Z;
  avg_time : Z;
  time : Z;
  answered : Z;
  total_questions : Z
}.

Record ranked_entry : Type := {
  rank : Z;
  fields : entry
}.

(** The row one group contributes to the payload. *)
Definition aggregate (total : Z) (answers : list PartialAnswer.row) (s : string)
    : entry :=
  let rows := group_of s answers in
  let total_time := sum_Z (List.map PartialAnswer.time_taken rows) in
  {| name := s;
     points := sum_Q (List.map PartialAnswer.points rows);
     correct := count_Z PartialAnswer.is_correct rows;
     avg_time := py_int (inject_Z total_time / inject_Z (Z.of_nat (length rows)));
     time := total_time;
     answered := Z.of_nat (length rows);
     total_questions := total |}.

(** [key=lambda x: (-x['points'], -x['correct'], x['time'])], compared as
    Python compares tuples. *)
Definition key_leb (x y : entry) : bool :=
  match Qcompare (- points x) (- points y) with
  | Lt => true
  | Gt => false
  | Eq =>
      match Z.compare (- correct x) (- correct y) with
      | Lt => true
      | Gt => false
      | Eq => time x <=? time y
      end
  end.

Definition add_rank (ie : nat * entry) : ranked_entry :=
  {| rank := Z.of_nat (fst ie); fields := snd ie |}.

(** [LeaderboardService.build_leaderboard_payload] of the routes package. *)
Definition build_leaderboard_payload (db : DB) (quiz_id : Z) : list ranked_entry :=
  match get_quiz db quiz_id with
  | None => []
  | Some quiz =>
      if negb (truthy_flag (Quiz.show_leaderboard_global quiz)) then []
      else
        let answers := answers_of_quiz db quiz_id in
        let total := Z.of_nat (length (questions_of db quiz_id)) in
        let payload :=
          List.map (aggregate total answers)
                   (distinct (List.map PartialAnswer.student answers)) in
        List.map add_rank (enumerate 1 (sort_by key_leb payload))
  end.

Record question_entry : Type := {
  q_rank : Z;
  q_name : string;
  q_is_correct : bool;
  q_time_taken : Z;
  q_points : Q;
  q_submitted_at : Z
}.

(** [order_by(is_correct.desc(), time_taken.asc())]. *)
Definition correct_first_then_time (a b : PartialAnswer.row) : bool :=
  match PartialAnswer.is_correct a, PartialAnswer.is_correct b with
  | true, false => true
  | false, true => false
  | _, _ => PartialAnswer.time_taken a <=? PartialAnswer.time_taken b
  end.

(** [LeaderboardService.get_question_leaderboard] of the routes package. *)
Definition get_question_leaderboard (db : DB) (quiz_id question_id : Z)
    : list question_entry :=
  match get_quiz db quiz_id with
  | None => []
  | Some quiz =>
      if negb (truthy_flag (Quiz.show_leaderboard_global quiz)) then []
      else
        let hidden :=
          match get_question db question_id with
          | Some question => negb (truthy_flag (Question.show_leaderboard question))
          | None => false
          end in
        if hidden then []
        else
          List.map
            (fun ia : nat * PartialAnswer.row =>
               {| q_rank := Z.of_nat (fst ia);
                  q_name := PartialAnswer.student (snd ia);
                  q_is_correct := PartialAnswer.is_correct (snd ia);
                  q_time_taken := PartialAnswer.time_taken (snd ia);
                  q_points := PartialAnswer.points (snd ia);
                  q_submitted_at := PartialAnswer.submitted_at (snd ia) |})
            (enumerate 1
               (sort_by correct_first_then_time
                  (List.filter
                     (fun a => (PartialAnswer.quiz_id a =? quiz_id)
                               && (PartialAnswer.question_id a =? question_id))
                     (partial_answers db))))
  end.
End RoutesLeaderboardService.

(** The leaderboard API of routes/student.py. *)
Module StudentApi.
(** [api_leaderboard]: the payload's entries, each with the quiz id the
    endpoint adds. *)
Definition api_leaderboard (db : DB) (quiz_id : Z)
    : list (LeaderboardService.entry * Z) :=
  match get_quiz db quiz_id with
  | None => []
  | Some quiz =>
      if negb (truthy_flag (Quiz.show_leaderboard_global quiz)) then []
      else
        List.map (fun e => (e, quiz_id))
                 (LeaderboardService.build_leaderboard_payload db quiz_id)
  end.

(** [not quiz or not quiz.show_leaderboard_global or
     (question and not question.show_leaderboard)]. *)
Definition leaderboard_disabled (db : DB) (quiz_id question_id : Z) : bool :=
  match get_quiz db quiz_id with
  | None => true
  | Some quiz =>
      negb (truthy_flag (Quiz.show_leaderboard_global quiz))
      || match get_question db question_id with
         | Some question => negb (truthy_flag (Question.show_leaderboard question))
         | None => false
         end
  end.

(** [api_question_leaderboard]: the ['leaderboard'] list of the reply;
    ['participants'] is its length.  The quiz and question ids the
    endpoint copies into each entry are those of the request. *)
Definition api_question_leaderboard (db : DB) (quiz_id question_id : Z)
    : list LeaderboardService.question_entry :=
  if leaderboard_disabled db quiz_id question_id then []
  else LeaderboardService.get_question_leaderboard db quiz_id question_id.
End StudentApi.

(** ** Live session state (app/extensions.py, [quiz_state]) *)

Record Session : Type := {
  current_qindex : Z;
  started_at : option Q;
  overall_timer : option Z;          (* seconds *)
  overall_started_at : option Q
}.

Definition set_qindex (s : Session) (qindex : Z) : Session :=
  {| current_qindex := qindex; started_at := started_at s;
     overall_timer := overall_timer s;
     overall_started_at := overall_started_at s |}.

(** [{'current_qindex': 0}]. *)
Definition fresh_session : Session :=
  {| current_qindex := 0; started_at := None;
     overall_timer := None; overall_started_at := None |}.

(** [socketio.emit(event, payload, room=room)]. *)
Record Emit : Type := {
  event : string;
  payload : list (string * Z);
  room : string
}.

(** ** Remaining time of the overall timer *)

Module Timer.
(** routes/admin.py, [live_control]: [(elapsed_seconds, remaining_seconds)]
    at wall-clock time [now]. *)
Definition live_control (quiz : Quiz.row) (quiz_state : gmap Z Session) (now : Q)
    : Z * Z :=
  match quiz_state !! Quiz.id quiz, Quiz.overall_timer quiz with
  | Some session, Some minutes =>
      if Quiz.has_timer quiz && Quiz.is_active quiz
         && truthy_int (Some minutes) && (0 <? minutes)
      then
        match overall_started_at session with
        | Some started =>
            if Qeq_bool started 0 then (0, 0)
            else
              let elapsed_seconds :=
                py_int (now - started - inject_Z (Quiz.paused_seconds quiz))%Q in
              let total_seconds := minutes * 60 in
              (elapsed_seconds, Z.max 0 (total_seconds - elapsed_seconds))
        | None => (0, 0)
        end
      else (0, 0)
  | _, _ => (0, 0)
  end.

(** routes/student.py, [attempt_quiz] (GET): [remaining_seconds]. *)
Definition attempt_quiz (quiz : Quiz.row) (quiz_state : gmap Z Session) (now : Q)
    : option Z :=
  match Quiz.overall_timer quiz with
  | Some minutes =>
      if Quiz.has_timer quiz && truthy_int (Some minutes) then
        match quiz_state !! Quiz.id quiz with
        | Some session =>
            match overall_started_at session with
            | Some started =>
                let elapsed := py_int (now - started)%Q in
                let total_sec := minutes * 60 in
                Some (Z.max 0 (total_sec - elapsed))
            | None => None
            end
        | None => None
        end
      else None
  | None => None
  end.

(** The remaining time the specification asks for. *)
Definition expected_remaining (duration : Z) (now started : Q) (paused_seconds : Z)
    : Q :=
  Qmax 0 (inject_Z duration - (now - started - inject_Z paused_seconds))%Q.
End Timer.

(** ** Advancing the question (Socket.IO event [admin_next_question]) *)

(** app/sockets/quiz_events.py. *)
Module QuizEvents.
(** [admin_next_question(data)] with [quiz_id = int(data['quiz_id'])]. *)
Definition admin_next_question (db : DB) (quiz_id : Z) (quiz_state : gmap Z Session)
    : gmap Z Session * list Emit :=
  let '(quiz_state, session) :=
    match quiz_state !! quiz_id with
    | Some session => (quiz_state, session)
    | None => (<[quiz_id := fresh_session]> quiz_state, fresh_session)
    end in
  let total_questions := Z.of_nat (length (questions_of db quiz_id)) in
  let current_index := current_qindex session in
  if total_questions - 1 <=? current_index then
    (quiz_state,
     [ {| event := "quiz_finished"; payload := []; room := pretty quiz_id |} ])
  else
    let new_qindex := current_index + 1 in
    (<[quiz_id := set_qindex session new_qindex]> quiz_state,
     [ {| event := "load_next_question";
          payload := [("qindex", new_qindex); ("quiz_id", quiz_id)];
          room := pretty quiz_id |} ]).

(** The host presses "next" [presses] times. *)
Fixpoint advance_many (db : DB) (quiz_id : Z) (presses : nat)
    (quiz_state : gmap Z Session) : gmap Z Session * list Emit :=
  match presses with
  | O => (quiz_state, [])
  | S presses' =>
      let '(quiz_state1, emitted) := admin_next_question db quiz_id quiz_state in
      let '(quiz_state2, later) := advance_many db quiz_id presses' quiz_state1 in
      (quiz_state2, (emitted ++ later)%list)
  end.
End QuizEvents.

(** routes/admin.py registers a handler for the same event. *)
Module Admin.
(** [handle_admin_next_question(data)] with [quiz_id = data.get('quiz_id')]. *)
Definition handle_admin_next_question (quiz_id : Z) (quiz_state : gmap Z Session)
    : gmap Z Session * list Emit :=
  match quiz_state !! quiz_id with
  | Some session =>
      let qindex := current_qindex session + 1 in
      (<[quiz_id := set_qindex session qindex]> quiz_state,
       [ {| event := "next_question";
            payload := [("quiz_id", quiz_id); ("qindex", qindex)];
            room := ("quiz_" ++ pretty quiz_id)%string |} ])
  | None => (quiz_state, [])
  end.
End Admin.

(** The question index an emitted event announces. *)
Definition announced_qindex (e : Emit) : option Z :=
  if String.eqb (event e) "load_next_question" || String.eqb (event e) "next_question"
  then snd <$> List.find (fun kv => String.eqb (fst kv) "qindex") (payload e)
  else None.

(** ** Operations that delete session data *)

(** routes/admin.py, [clear_quiz_session_data]: start and reset call it. *)
Definition clear_quiz_session_data (db : DB) (quiz_id : Z) : DB :=
  Student.with_partial_answers db
    (List.filter (fun a => negb (PartialAnswer.quiz_id a =? quiz_id))
                 (partial_answers db)).


(** routes/admin.py, [delete_quiz]. *)
Definition delete_quiz (db : DB) (quiz_id : Z) : DB :=
  match get_quiz db quiz_id with
  | None => db
  | Some quiz =>
      {| quizzes := List.filter (fun q => negb (Quiz.id q =? quiz_id)) (quizzes db);
         questions :=
           List.filter (fun q => negb (Question.quiz_id q =? quiz_id)) (questions db);
         partial_answers :=
           List.filter (fun a => negb (PartialAnswer.quiz_id a =? quiz_id))
                       (partial_answers db);
         results :=
           List.filter (fun r => negb (Result.quiz_id r =? quiz_id)) (results db) |}
  end.

(** ** Reachable stores *)

Section Reachability.
Context `{PyRuntime}.


End Reachability.


(** The rows of a (quiz, question, participant) triple. *)
Definition answers_of (quiz_id question_id : Z) (student : string)
    (table : list PartialAnswer.row) : list PartialAnswer.row :=
  List.filter (Student.same_answer_key quiz_id question_id student) table.

(** ** Notions the statements use *)

(** The row of a table with a given primary key. *)
Definition row_by_id (pk : Z) (table : list PartialAnswer.row)
    : option PartialAnswer.row :=
  List.find (fun a => PartialAnswer.id a =? pk) table.

(** Primary keys are unique. *)
Definition unique_ids (table : list PartialAnswer.row) : Prop :=
  List.NoDup (List.map PartialAnswer.id table).

(** The position of the row with a given primary key in a query result. *)
Fixpoint rank_of (pk : Z) (rows : list PartialAnswer.row) : option nat :=
  match rows with
  | [] => None
  | a :: rest =>
      if PartialAnswer.id a =? pk then Some O
      else option_map S (rank_of pk rest)
  end.

(** What the write-backs of a list of ranked answers do to one row. *)
Definition awards_on (ranked : list (nat * PartialAnswer.row)) (a : PartialAnswer.row)
    : PartialAnswer.row :=
  fold_left
    (fun a' (r : nat * PartialAnswer.row) =>
       if PartialAnswer.id a' =? PartialAnswer.id (snd r)
       then PartialAnswer.add_bonus (nth (fst r) ScoringService.bonus_points 0%Q) a'
       else a')
    ranked a.

(** Two rows that differ at most in their points. *)
Definition same_but_points (a b : PartialAnswer.row) : Prop :=
  PartialAnswer.id a = PartialAnswer.id b
  /\ PartialAnswer.quiz_id a = PartialAnswer.quiz_id b
  /\ PartialAnswer.question_id a = PartialAnswer.question_id b
  /\ PartialAnswer.student a = PartialAnswer.student b
  /\ PartialAnswer.is_correct a = PartialAnswer.is_correct b
  /\ PartialAnswer.time_taken a = PartialAnswer.time_taken b
  /\ PartialAnswer.submitted_at a = PartialAnswer.submitted_at b.


(** The row a submission adds, once the handler has judged it. *)
Definition submitted_row (db : DB) (quiz_id : Z) (form : Student.Submission)
    (quiz : Quiz.row) (question : Question.row) (is_correct : bool)
    : PartialAnswer.row :=
  Student.new_partial (Student.delete_prior db quiz_id form) quiz_id form is_correct
    (calculate_question_points question is_correct (Student.time_taken form) quiz).

(** The answers table when the awarder is called: the prior row deleted, the
    new row added. *)
Definition answers_before_award (db : DB) (quiz_id : Z) (form : Student.Submission)
    (quiz : Quiz.row) (question : Question.row) (is_correct : bool)
    : list PartialAnswer.row :=
  partial_answers (Student.delete_prior db quiz_id form)
  ++ [submitted_row db quiz_id form quiz question is_correct].

(** The answers table after a submission that was answered with JSON. *)
Definition answers_after (db : DB) (quiz_id : Z) (form : Student.Submission)
    (quiz : Quiz.row) (question : Question.row) (is_correct : bool)
    : list PartialAnswer.row :=
  ScoringService.update_question_rank_bonuses quiz_id (Student.question_id form)
    (answers_before_award db quiz_id form quiz question is_correct).

(** The three fastest correct answers the awarder finds then. *)
Definition top_after (db : DB) (quiz_id : Z) (form : Student.Submission)
    (quiz : Quiz.row) (question : Question.row) (is_correct : bool)
    : list PartialAnswer.row :=
  firstn 3
    (ScoringService.correct_answers_by_time quiz_id (Student.question_id form)
       (answers_before_award db quiz_id form quiz question is_correct)).

(** The request passes the guards of [attempt_quiz]: the caller is no admin,
    the quiz exists, is active, published and not paused and has questions,
    and the question exists. *)
Definition passes_guards (db : DB) (quiz_id : Z) (form : Student.Submission)
    (quiz : Quiz.row) (question : Question.row) : Prop :=
  Student.role form <> "admin"
  /\ get_quiz db quiz_id = Some quiz
  /\ Quiz.is_active quiz = true
  /\ Quiz.is_published quiz = true
  /\ Quiz.is_paused quiz = false
  /\ questions_of db quiz_id <> []
  /\ get_question db (Student.question_id form) = Some question.



(** [quiz_state.get(quiz_id, {}).get('current_qindex', 0)]: the current
    question index as the views read it. *)
Definition qindex_of (quiz_id : Z) (quiz_state : gmap Z Session) : Z :=
  match quiz_state !! quiz_id with
  | Some session => current_qindex session
  | None => 0
  end.

(** ** The specification's wording, for comparison with the code *)

Module Spec.


(** "correctness requires exact set equality with the correct-answer set":
    the submitted text is a selection, and the set of its members (as
    [str] renders them) is the set of the correct-answer markers. *)
Definition checkbox_correct `{PyRuntime} (question : Question.row)
    (selected_answer : option string) : Prop :=
  exists sel parsed correct,
    selected_answer = Some sel
    /\ sel <> "" /\ sel <> "No Answer"
    /\ json_loads sel = Some parsed
    /\ py_iter (get_correct_answers question) = Some correct
    /\ forall x, In x (List.map py_str (as_list parsed))
                 <-> In x (List.map py_str correct).





(** "descending points, then descending correct count, then ascending
    total time": [x] may stand before [y]. *)
Definition ranks_before (x y : RoutesLeaderboardService.entry) : Prop :=
  (RoutesLeaderboardService.points y < RoutesLeaderboardService.points x)%Q
  \/ ((RoutesLeaderboardService.points x == RoutesLeaderboardService.points y)%Q
      /\ (RoutesLeaderboardService.correct y < RoutesLeaderboardService.correct x
          \/ (RoutesLeaderboardService.correct x = RoutesLeaderboardService.correct y
              /\ RoutesLeaderboardService.time x <= RoutesLeaderboardService.time y))).

(** "ordered by ascending time-taken then ascending submission timestamp". *)
Definition by_time_then_stamp (a b : PartialAnswer.row) : Prop :=
  PartialAnswer.time_taken a < PartialAnswer.time_taken b
  \/ (PartialAnswer.time_taken a = PartialAnswer.time_taken b
      /\ PartialAnswer.submitted_at a <= PartialAnswer.submitted_at b).

(** Ascending submission timestamp alone. *)
Definition by_stamp (a b : PartialAnswer.row) : Prop :=
  PartialAnswer.submitted_at a <= PartialAnswer.submitted_at b.

(** The order of the per-question leaderboard of a quiz. *)
Definition question_order (quiz : Quiz.row) : PartialAnswer.row -> PartialAnswer.row -> Prop :=
  if Quiz.has_timer quiz then by_time_then_stamp else by_stamp.
End Spec.

(** ** Example data *)

Module Examples.
(** A runtime that agrees with CPython on the values the examples use:
    the JSON texts below, [str] of integers, strings and lists of
    integers, and strings without surrounding blanks, capitals or tags. *)
Definition sample_json_loads (s : string) : option JValue :=
  if String.eqb s "[1, 3]" then Some (JList [JInt 1; JInt 3])
  else if String.eqb s "[3, 1]" then Some (JList [JInt 3; JInt 1])
  else if String.eqb s "[1]" then Some (JList [JInt 1])
  else if String.eqb s "[1, 2, 3]" then Some (JList [JInt 1; JInt 2; JInt 3])
  else if String.eqb s "2" then Some (JInt 2)
  else None.

Fixpoint join (sep : string) (xs : list string) : string :=
  match xs with
  | [] => ""
  | [x] => x
  | x :: rest => (x ++ sep ++ join sep rest)%string
  end.

Definition sample_str (v : JValue) : string :=
  let atom (v : JValue) : string :=
    match v with
    | JNull => "None"
    | JBool true => "True"
    | JBool false => "False"
    | JInt z => pretty z
    | JReal repr => repr
    | JStr s => s
    | JList _ => "[...]"
    | JDict _ => "{...}"
    end in
  match v with
  | JList items => ("[" ++ join ", " (List.map atom items) ++ "]")%string
  | other => atom other
  end.

Definition sample_round1 (x : Q) : Q :=
  let y := (x * 10)%Q in
  let f := Qfloor y in
  let d := (y - inject_Z f)%Q in
  let n := if Qle_bool d (1 # 2)
           then (if Qeq_bool d (1 # 2) && Z.odd f then f + 1 else f)
           else f + 1 in
  (n # 10)%Q.

#[local] Instance sample_runtime : PyRuntime := {|
  json_loads := sample_json_loads;
  py_str := sample_str;
  py_strip := fun s => s;
  py_lower := fun s => s;
  re_sub_tags := fun s => s;
  py_round1 := sample_round1
|}.

(** A quiz without timers whose leaderboard is switched on. *)
Definition open_quiz (show : option bool) : Quiz.row :=
  {| Quiz.id := 1; Quiz.has_timer := false; Quiz.overall_timer := None;
     Quiz.show_leaderboard_global := show; Quiz.is_published := true;
     Quiz.is_active := true; Quiz.is_paused := false; Quiz.paused_seconds := 0 |}.

Definition choice_question (pk : Z) : Question.row :=
  {| Question.id := pk; Question.quiz_id := 1; Question.order := pk;
     Question.question_type := "multiple-choice";
     Question.correct_answers := Some "[1]"; Question.points := Some 1.0%Q;
     Question.time_limit := Some 0; Question.show_leaderboard := Some true;
     Question.answer := Some "1" |}.

Definition answer (pk question_id : Z) (student : string) (is_correct : bool)
    (time_taken : Z) (points : Q) (submitted_at : Z) : PartialAnswer.row :=
  {| PartialAnswer.id := pk; PartialAnswer.quiz_id := 1;
     PartialAnswer.question_id := question_id; PartialAnswer.student := student;
     PartialAnswer.is_correct := is_correct; PartialAnswer.time_taken := time_taken;
     PartialAnswer.points := points; PartialAnswer.submitted_at := submitted_at |}.

(** The specification's scenario: A (alice) and B (bob) both have 10 points
    and 3 correct answers; A took 50 seconds, B took 40. *)
Definition tie_answers : list PartialAnswer.row :=
  [ answer 1 1 "alice" true 20 4 100;
    answer 2 2 "alice" true 20 3 200;
    answer 3 3 "alice" true 10 3 300;
    answer 4 1 "bob" true 10 4 101;
    answer 5 2 "bob" true 10 3 201;
    answer 6 3 "bob" true 20 3 301 ].

Definition tie_db (show : option bool) : DB :=
  {| quizzes := [open_quiz show];
     questions := [choice_question 1; choice_question 2; choice_question 3];
     partial_answers := tie_answers;
     results := [] |}.
(** The specification's timer scenario: an overall timer of one minute
    started at [t0 = 1000], 30 seconds of pause already accounted. *)
Definition timed_quiz : Quiz.row :=
  {| Quiz.id := 1; Quiz.has_timer := true; Quiz.overall_timer := Some 1;
     Quiz.show_leaderboard_global := Some true; Quiz.is_published := true;
     Quiz.is_active := true; Quiz.is_paused := false; Quiz.paused_seconds := 30 |}.

Definition timed_state : gmap Z Session :=
  {[ 1 := {| current_qindex := 0; started_at := Some 1000%Q;
             overall_timer := Some 60; overall_started_at := Some 1000%Q |} ]}.

(** A published quiz with one question, at its first question. *)
Definition one_question_db : DB :=
  {| quizzes := [open_quiz (Some true)]; questions := [choice_question 1];
     partial_answers := []; results := [] |}.



Definition submission (selected : string) (time_taken now : Z) : Student.Submission :=
  {| Student.role := "student"; Student.student_name := "alice";
     Student.qindex := 0; Student.question_id := 1;
     Student.selected_answer := Some selected;
     Student.time_taken := time_taken; Student.now_utc := now |}.

(** A question with a time limit of 10 seconds, worth 2 points. *)
Definition timed_question : Question.row :=
  {| Question.id := 1; Question.quiz_id := 1; Question.order := 1;
     Question.question_type := "multiple-choice";
     Question.correct_answers := Some "[1]"; Question.points := Some 2.0%Q;
     Question.time_limit := Some 10; Question.show_leaderboard := Some true;
     Question.answer := Some "1" |}.
End Examples.

(** * Further code of the application *)

(** ** Statistics over the answers (routes/student.py, services, quiz_data_utils) *)

Module StudentStats.
Record stats : Type := {
  student : string;
  total_points : Q;
  correct_count : Z;
  total_answered : Z;
  rank : Z
}.

(** [api_my_stats(quiz_id)] for the participant [student_name]. *)
Definition api_my_stats (db : DB) (quiz_id : Z) (student_name : string) : stats :=
  let partials :=
    List.filter (Student.same_participant quiz_id student_name) (partial_answers db) in
  {| student := student_name;
     total_points := sum_Q (List.map PartialAnswer.points partials);
     correct_count := count_Z PartialAnswer.is_correct partials;
     total_answered := Z.of_nat (length partials);
     rank := 0 |}.
End StudentStats.

Module LeaderboardData.
(** One group of the query of [get_leaderboard_data]: name and summed points. *)
Definition score_rows (db : DB) (quiz_id : Z) : list (string * Q) :=
  let answers := answers_of_quiz db quiz_id in
  List.map
    (fun s => (s, sum_Q (List.map PartialAnswer.points (group_of s answers))))
    (distinct (List.map PartialAnswer.student answers)).

(** [order_by(func.sum(PartialAnswer.points).desc())]. *)
Definition by_score_desc (x y : string * Q) : bool := Qle_bool (snd y) (snd x).

(** [LeaderboardService.get_leaderboard_data] of app/services: name and
    [int(score)], highest sum first. *)
Definition get_leaderboard_data (db : DB) (quiz_id : Z) : list (string * Z) :=
  List.map (fun r => (fst r, py_int (snd r)))
           (sort_by by_score_desc (score_rows db quiz_id)).
End LeaderboardData.

Module QuizDataUtils.



Record progress : Type := {
  answered : Z;
  total : Z;
  percentage : Q
}.

Record participation : Type := {
  total_students : Z;
  completed_students : Z;
  in_progress_students : Z;
  p_total_questions : Z;
  total_answers_submitted : Z;
  student_progress : list (string * progress)
}.

(** [get_quiz_participation_stats(quiz_id)]. *)
Definition get_quiz_participation_stats (db : DB) (quiz_id : Z) : participation :=
  let partials := answers_of_quiz db quiz_id in
  let students := distinct (List.map PartialAnswer.student partials) in
  let total_questions := Z.of_nat (length (questions_of db quiz_id)) in
  let student_progress :=
    List.map
      (fun s =>
         let n := Z.of_nat (length (group_of s partials)) in
         (s, {| answered := n;
                total := total_questions;
                percentage := if 0 <? total_questions
                              then (inject_Z n / inject_Z total_questions * 100)%Q
                              else 0%Q |}))
      students in
  let completed :=
    count_Z (fun sp => answered (snd sp) =? total_questions) student_progress in
  {| total_students := Z.of_nat (length students);
     completed_students := completed;
     in_progress_students := Z.of_nat (length students) - completed;
     p_total_questions := total_questions;
     total_answers_submitted := Z.of_nat (length partials);
     student_progress := student_progress |}.
End QuizDataUtils.

(** ** The quiz lifecycle (routes/admin.py) *)

Module QuizFull.
(** The quiz row with the columns the lifecycle routes write. *)
Record row : Type := {
  base : Quiz.row;
  title : string;
  published_at : option Q;
  publish_count : option Z;
  start_time : option Q;
  is_locked : bool;
  join_code : option string;
  paused_at : option Q
}.

Definition with_base (q : row) (b : Quiz.row) : row :=
  {| base := b; title := title q; published_at := published_at q;
     publish_count := publish_count q; start_time := start_time q;
     is_locked := is_locked q; join_code := join_code q; paused_at := paused_at q |}.

Definition with_paused_at (q : row) (t : option Q) : row :=
  {| base := base q; title := title q; published_at := published_at q;
     publish_count := publish_count q; start_time := start_time q;
     is_locked := is_locked q; join_code := join_code q; paused_at := t |}.

Definition with_locked (q : row) (locked : bool) : row :=
  {| base := base q; title := title q; published_at := published_at q;
     publish_count := publish_count q; start_time := start_time q;
     is_locked := locked; join_code := join_code q; paused_at := paused_at q |}.
End QuizFull.

(** The lifecycle columns of [Quiz.row], set together. *)
Definition set_lifecycle (q : Quiz.row) (published active paused : bool)
    (paused_seconds : Z) : Quiz.row :=
  {| Quiz.id := Quiz.id q; Quiz.has_timer := Quiz.has_timer q;
     Quiz.overall_timer := Quiz.overall_timer q;
     Quiz.show_leaderboard_global := Quiz.show_leaderboard_global q;
     Quiz.is_published := published; Quiz.is_active := active;
     Quiz.is_paused := paused; Quiz.paused_seconds := paused_seconds |}.

Module World.
(** The database with full quiz rows, and the process-wide [quiz_state]. *)
Record t : Type := {
  quizzes : list QuizFull.row;
  questions : list Question.row;
  partial_answers : list PartialAnswer.row;
  results : list Result.row;
  quiz_state : gmap Z Session
}.

(** The store the student routes see. *)
Definition db (w : t) : DB :=
  Build_DB (List.map QuizFull.base (quizzes w)) (questions w) (partial_answers w)
           (results w).

(** [Quiz.query.get(quiz_id)]. *)
Definition get_quiz (w : t) (quiz_id : Z) : option QuizFull.row :=
  List.find (fun q => Quiz.id (QuizFull.base q) =? quiz_id) (quizzes w).

(** The write-back of the mutated quiz object. *)
Fixpoint replace_quiz (q' : QuizFull.row) (rows : list QuizFull.row)
    : list QuizFull.row :=
  match rows with
  | [] => []
  | q :: rest =>
      if Quiz.id (QuizFull.base q) =? Quiz.id (QuizFull.base q')
      then q' :: rest
      else q :: replace_quiz q' rest
  end.

Definition with_quiz (w : t) (q' : QuizFull.row) : t :=
  {| quizzes := replace_quiz q' (quizzes w); questions := questions w;
     partial_answers := partial_answers w; results := results w;
     quiz_state := quiz_state w |}.

Definition with_quiz_state (w : t) (state : gmap Z Session) : t :=
  {| quizzes := quizzes w; questions := questions w;
     partial_answers := partial_answers w; results := results w;
     quiz_state := state |}.

Definition with_partial_answers (w : t) (table : list PartialAnswer.row) : t :=
  {| quizzes := quizzes w; questions := questions w;
     partial_answers := table; results := results w;
     quiz_state := quiz_state w |}.

(** [Question.query.filter_by(quiz_id=quiz_id).count()]. *)
Definition question_count (w : t) (quiz_id : Z) : Z :=
  Z.of_nat (length (List.filter (fun q => Question.quiz_id q =? quiz_id) (questions w))).
End World.

(** A value of an event payload. *)
Inductive PValue : Type :=
| PNone
| PBool (b : bool)
| PInt (z : Z)
| PFloat (x : Q)
| PStr (s : string).

(** [socketio.emit(event, payload, room=room)] with a payload of mixed values. *)
Record Broadcast : Type := {
  b_event : string;
  b_payload : list (string * PValue);
  b_room : string
}.

Module AdminRoutes.
(** What a route answers: a 404, or a redirect with the category of the
    flashed message, if any.  The text of the message is not modelled. *)
Inductive Reply : Type :=
| NotFound
| ServerError
| Redirect (flash : option string) (endpoint : string).

(** [require_admin]. *)
Definition require_admin (role : string) (w : World.t)
    (route : World.t * list Broadcast * Reply) : World.t * list Broadcast * Reply :=
  if String.eqb role "admin" then route
  else (w, [], Redirect (Some "danger") "auth.login").

(** [clear_quiz_session_data(quiz_id)]: the world without the answers of the
    quiz, and the number of answers deleted. *)
Definition clear_quiz_session_data (w : World.t) (quiz_id : Z) : World.t * Z :=
  let partial_count :=
    Z.of_nat (length (List.filter (fun a => PartialAnswer.quiz_id a =? quiz_id)
                                  (World.partial_answers w))) in
  (World.with_partial_answers w
     (List.filter (fun a => negb (PartialAnswer.quiz_id a =? quiz_id))
                  (World.partial_answers w)),
   partial_count).

(** [end_questions(quiz_id)]. *)
Definition end_questions (role : string) (w : World.t) (quiz_id : Z)
    : World.t * list Broadcast * Reply :=
  require_admin role w
    match World.get_quiz w quiz_id with
    | None => (w, [], NotFound)
    | Some quiz =>
        (World.with_quiz w (QuizFull.with_locked quiz true), [],
         Redirect (Some "info") "admin.quizzes")
    end.

(** [publish_quiz(quiz_id)]; [code] is what [generate_join_code()] returns,
    [now1] and [now2] are the two readings of the clock. *)
Definition publish_quiz (role : string) (code : string) (now1 now2 : Q)
    (w : World.t) (quiz_id : Z) : World.t * list Broadcast * Reply :=
  require_admin role w
    match World.get_quiz w quiz_id with
    | None => (w, [], NotFound)
    | Some quiz =>
        if negb (QuizFull.is_locked quiz) then
          (w, [], Redirect (Some "error") "admin.quizzes")
        else if World.question_count w quiz_id =? 0 then
          (w, [], Redirect (Some "error") "admin.add_question")
        else
          let count := match QuizFull.publish_count quiz with
                       | Some c => c
                       | None => 0
                       end in
          let quiz' :=
            {| QuizFull.base := set_lifecycle (QuizFull.base quiz) true false false 0;
               QuizFull.title := QuizFull.title quiz;
               QuizFull.published_at := Some now2;
               QuizFull.publish_count := Some (count + 1);
               QuizFull.start_time := Some now1;
               QuizFull.is_locked := QuizFull.is_locked quiz;
               QuizFull.join_code :=
                 if truthy_str (QuizFull.join_code quiz)
                 then QuizFull.join_code quiz else Some code;
               QuizFull.paused_at := QuizFull.paused_at quiz |} in
          (World.with_quiz_state (World.with_quiz w quiz')
             (<[Quiz.id (QuizFull.base quiz) := fresh_session]> (World.quiz_state w)),
           [], Redirect (Some "success") "admin.quizzes")
    end.

(** [pause_quiz(quiz_id)]. *)
Definition pause_quiz (role : string) (now : Q) (w : World.t) (quiz_id : Z)
    : World.t * list Broadcast * Reply :=
  require_admin role w
    match World.get_quiz w quiz_id with
    | None => (w, [], NotFound)
    | Some quiz =>
        let b := QuizFull.base quiz in
        if Quiz.is_active b && negb (Quiz.is_paused b) then
          (World.with_quiz w
             (QuizFull.with_paused_at
                (QuizFull.with_base quiz
                   (set_lifecycle b (Quiz.is_published b) (Quiz.is_active b) true
                      (Quiz.paused_seconds b)))
                (Some now)),
           [], Redirect (Some "info") "admin.quizzes")
        else (w, [], Redirect None "admin.quizzes")
    end.

(** [resume_quiz(quiz_id)]. *)
Definition resume_quiz (role : string) (now : Q) (w : World.t) (quiz_id : Z)
    : World.t * list Broadcast * Reply :=
  require_admin role w
    match World.get_quiz w quiz_id with
    | None => (w, [], NotFound)
    | Some quiz =>
        let b := QuizFull.base quiz in
        if Quiz.is_active b && Quiz.is_paused b then
          match QuizFull.paused_at quiz with
          | None => (w, [], ServerError)
          | Some paused_at =>
              let paused_time := (now - paused_at)%Q in
              (World.with_quiz w
                 (QuizFull.with_paused_at
                    (QuizFull.with_base quiz
                       (set_lifecycle b (Quiz.is_published b) (Quiz.is_active b) false
                          (Quiz.paused_seconds b + py_int paused_time)))
                    None),
               [], Redirect (Some "info") "admin.quizzes")
          end
        else (w, [], Redirect None "admin.quizzes")
    end.

(** [stop_quiz(quiz_id)]. *)
Definition stop_quiz (role : string) (w : World.t) (quiz_id : Z)
    : World.t * list Broadcast * Reply :=
  require_admin role w
    match World.get_quiz w quiz_id with
    | None => (w, [], NotFound)
    | Some quiz =>
        let quiz' :=
          QuizFull.with_paused_at
            (QuizFull.with_base quiz (set_lifecycle (QuizFull.base quiz) false false false 0))
            None in
        (World.with_quiz_state (World.with_quiz w quiz')
           (delete quiz_id (World.quiz_state w)),
         [ {| b_event := "quiz_stopped"; b_payload := [("quiz_id", PInt quiz_id)];
              b_room := pretty quiz_id |} ],
         Redirect (Some "info") "admin.quizzes")
    end.

(** The session [start_quiz] and [handle_admin_start_quiz] create. *)
Definition started_session (quiz : Quiz.row) (now1 now2 : Q) : Session :=
  match Quiz.overall_timer quiz with
  | Some minutes =>
      if truthy_int (Some minutes) && (0 <? minutes) then
        {| current_qindex := 0; started_at := Some now1;
           overall_timer := Some (minutes * 60); overall_started_at := Some now2 |}
      else
        {| current_qindex := 0; started_at := Some now1;
           overall_timer := None; overall_started_at := None |}
  | None =>
      {| current_qindex := 0; started_at := Some now1;
         overall_timer := None; overall_started_at := None |}
  end.

(** [quiz.overall_timer if quiz.overall_timer else None]. *)
Definition overall_timer_value (quiz : Quiz.row) : PValue :=
  match Quiz.overall_timer quiz with
  | Some minutes => if truthy_int (Some minutes) then PInt minutes else PNone
  | None => PNone
  end.

(** [quiz.show_leaderboard_global if quiz.show_leaderboard_global else False]. *)
Definition show_leaderboard_value (quiz : Quiz.row) : PValue :=
  PBool (truthy_flag (Quiz.show_leaderboard_global quiz)).

(** [start_quiz(quiz_id)]. *)
Definition start_quiz (role : string) (now1 now2 : Q) (w : World.t) (quiz_id : Z)
    : World.t * list Broadcast * Reply :=
  require_admin role w
    match World.get_quiz w quiz_id with
    | None => (w, [], NotFound)
    | Some quiz =>
        let b := QuizFull.base quiz in
        if negb (Quiz.is_published b) then
          (w, [], Redirect (Some "error") "admin.quizzes")
        else if World.question_count w quiz_id =? 0 then
          (w, [], Redirect (Some "error") "admin.add_question")
        else if Quiz.is_active b then
          (w, [], Redirect (Some "warning") "admin.live_control")
        else
          let w1 := fst (clear_quiz_session_data w quiz_id) in
          let quiz' :=
            QuizFull.with_base quiz
              (set_lifecycle b (Quiz.is_published b) true false (Quiz.paused_seconds b)) in
          let room := ("waiting_room_" ++ pretty quiz_id)%string in
          (World.with_quiz_state (World.with_quiz w1 quiz')
             (<[quiz_id := started_session b now1 now2]> (World.quiz_state w1)),
           [ {| b_event := "begin_quiz";
                b_payload := [("quiz_id", PInt quiz_id);
                              ("message", PStr "Quiz is starting now!");
                              ("has_timer", PBool (Quiz.has_timer b));
                              ("overall_timer", overall_timer_value b);
                              ("show_leaderboard", show_leaderboard_value b)];
                b_room := room |};
             {| b_event := "join_quiz_room"; b_payload := [("quiz_id", PInt quiz_id)];
                b_room := room |} ],
           Redirect (Some "success") "admin.live_control")
    end.

(** [reset_quiz(quiz_id)]. *)
Definition reset_quiz (role : string) (w : World.t) (quiz_id : Z)
    : World.t * list Broadcast * Reply :=
  require_admin role w
    match World.get_quiz w quiz_id with
    | None => (w, [], NotFound)
    | Some quiz =>
        let b := QuizFull.base quiz in
        let w1 := fst (clear_quiz_session_data w quiz_id) in
        let quiz' :=
          QuizFull.with_paused_at
            (QuizFull.with_base quiz (set_lifecycle b (Quiz.is_published b) false false 0))
            None in
        (World.with_quiz_state (World.with_quiz w1 quiz')
           (delete quiz_id (World.quiz_state w1)),
         [], Redirect (Some "info") "admin.quizzes")
    end.

(** [delete_quiz(quiz_id)]. *)
Definition delete_quiz (role : string) (w : World.t) (quiz_id : Z)
    : World.t * list Broadcast * Reply :=
  require_admin role w
    match World.get_quiz w quiz_id with
    | None => (w, [], NotFound)
    | Some quiz =>
        ({| World.quizzes :=
              List.filter (fun q => negb (Quiz.id (QuizFull.base q) =? quiz_id))
                          (World.quizzes w);
            World.questions :=
              List.filter (fun q => negb (Question.quiz_id q =? quiz_id))
                          (World.questions w);
            World.partial_answers :=
              List.filter (fun a => negb (PartialAnswer.quiz_id a =? quiz_id))
                          (World.partial_answers w);
            World.results :=
              List.filter (fun r => negb (Result.quiz_id r =? quiz_id))
                          (World.results w);
            World.quiz_state := delete quiz_id (World.quiz_state w) |},
         [], Redirect (Some "info") "admin.quizzes")
    end.

(** What a Socket.IO handler returns to the caller. *)
Inductive Ack : Type :=
| AckError (message : string)
| AckStarted (cleared : Z) (quiz_id : Z)
| AckSuccess.

(** [handle_admin_start_quiz(data)] with [quiz_id = data.get('quiz_id')];
    [now3] is the clock reading sent as timestamp. *)
Definition handle_admin_start_quiz (now1 now2 now3 : Q) (w : World.t) (quiz_id : Z)
    : World.t * list Broadcast * Ack :=
  if quiz_id =? 0 then (w, [], AckError "No quiz_id provided")
  else
    match World.get_quiz w quiz_id with
    | None => (w, [], AckError "Quiz not found")
    | Some quiz =>
        let b := QuizFull.base quiz in
        let '(w1, cleared) := clear_quiz_session_data w quiz_id in
        let quiz' :=
          QuizFull.with_base quiz
            (set_lifecycle b (Quiz.is_published b) true false (Quiz.paused_seconds b)) in
        (World.with_quiz_state (World.with_quiz w1 quiz')
           (<[quiz_id := started_session b now1 now2]> (World.quiz_state w1)),
         [ {| b_event := "quiz_started";
              b_payload := [("quiz_id", PInt quiz_id);
                            ("title", PStr (QuizFull.title quiz));
                            ("has_timer", PBool (Quiz.has_timer b));
                            ("overall_timer", overall_timer_value b);
                            ("show_leaderboard", show_leaderboard_value b);
                            ("timestamp", PFloat now3)];
              b_room := pretty quiz_id |} ],
         AckStarted cleared quiz_id)
    end.

(** [handle_admin_previous_question(data)]. *)
Definition handle_admin_previous_question (quiz_id : Z) (quiz_state : gmap Z Session)
    : gmap Z Session * list Emit :=
  match quiz_state !! quiz_id with
  | Some session =>
      let qindex := Z.max 0 (current_qindex session - 1) in
      (<[quiz_id := set_qindex session qindex]> quiz_state,
       [ {| event := "previous_question";
            payload := [("quiz_id", quiz_id); ("qindex", qindex)];
            room := ("quiz_" ++ pretty quiz_id)%string |} ])
  | None => (quiz_state, [])
  end.

(** [live_leaderboard(quiz_id)]: the [is_last] flag of the page. *)
Definition live_leaderboard_is_last (w : World.t) (quiz_id : Z) : bool :=
  let total_questions := World.question_count w quiz_id in
  let current_index := qindex_of quiz_id (World.quiz_state w) in
  if 0 <? total_questions then total_questions <=? current_index + 1 else true.
End AdminRoutes.

(** ** The waiting room (app/sockets/quiz_events.py) *)

Module WaitingRoom.
(** [waiting_rooms] maps the room key to the list of user names;
    [active_participants] maps it to the dictionary from socket id to user
    name, kept in insertion order. *)
Record state : Type := {
  waiting_rooms : gmap string (list string);
  active_participants : gmap string (list (string * string))
}.

(** The ['update_participants'] event. *)
Record update : Type := {
  users : list string;
  count : Z;
  to_room : string
}.

(** [d[key] = value] on an insertion-ordered dictionary. *)
Fixpoint dict_set (key value : string) (d : list (string * string))
    : list (string * string) :=
  match d with
  | [] => [(key, value)]
  | (k, v) :: rest =>
      if String.eqb k key then (k, value) :: rest
      else (k, v) :: dict_set key value rest
  end.

(** [xs.remove(x)] for a member [x]: the first occurrence goes. *)
Fixpoint remove_first (x : string) (xs : list string) : list string :=
  match xs with
  | [] => []
  | y :: rest => if String.eqb y x then rest else y :: remove_first x rest
  end.

(** The loop of [handle_leave_waiting_room] over the dictionary: the first
    socket id registered under the name is deleted. *)
Fixpoint drop_first_named (name : string) (d : list (string * string))
    : list (string * string) :=
  match d with
  | [] => []
  | (k, v) :: rest =>
      if String.eqb v name then rest else (k, v) :: drop_first_named name rest
  end.

Definition participants_update (quiz_id : string) (names : list string) : update :=
  {| users := names; count := Z.of_nat (length names);
     to_room := ("waiting_room_" ++ quiz_id)%string |}.

(** [handle_join_waiting_room(data)] for the resolved [username] and the
    socket id [sid] of the request. *)
Definition handle_join_waiting_room (quiz_id username sid : string) (st : state)
    : state * list update :=
  let room := default [] (waiting_rooms st !! quiz_id) in
  let room' := if str_in username room then room else (room ++ [username])%list in
  let sockets := default [] (active_participants st !! quiz_id) in
  ({| waiting_rooms := <[quiz_id := room']> (waiting_rooms st);
      active_participants :=
        <[quiz_id := dict_set sid username sockets]> (active_participants st) |},
   [participants_update quiz_id room']).

(** [handle_leave_waiting_room(data)]. *)
Definition handle_leave_waiting_room (quiz_id username : string) (st : state)
    : state * list update :=
  match waiting_rooms st !! quiz_id with
  | Some room =>
      if str_in username room then
        let room' := remove_first username room in
        ({| waiting_rooms := <[quiz_id := room']> (waiting_rooms st);
            active_participants :=
              match active_participants st !! quiz_id with
              | Some sockets =>
                  <[quiz_id := drop_first_named username sockets]>
                    (active_participants st)
              | None => active_participants st
              end |},
         [participants_update quiz_id room'])
      else (st, [])
  | None => (st, [])
  end.

(** The names waiting for a quiz. *)
Definition waiting (quiz_id : string) (st : state) : list string :=
  default [] (waiting_rooms st !! quiz_id).
End WaitingRoom.

(** ** Joining a quiz (routes/student.py, routes/public.py) *)

Module Joining.
(** What a joining route answers. *)
Inductive Page : Type :=
| RedirectAdminDashboard
| RedirectLogin (next_quiz : Z)
| RedirectWaitingRoom (quiz_id : Z)
| RedirectAttemptQuiz (quiz_id : Z)
| RenderJoinForm (flash : option string)
| RenderQuizClosed (message : string)
| RenderWaitingRoom (quiz_id : Z)
| NotFound.

Section Routes.
(** [str.upper]. *)
Variable py_upper : string -> string.
Context `{PyRuntime}.

Definition code_is (code : string) (q : QuizFull.row) : bool :=
  match QuizFull.join_code q with
  | Some c => String.eqb c code
  | None => false
  end.

(** [Quiz.query.filter_by(join_code=code, is_active=True,
    is_published=True).first()]. *)
Definition active_quiz_with_code (w : World.t) (code : string) : option QuizFull.row :=
  List.find
    (fun q => code_is code q && Quiz.is_active (QuizFull.base q)
              && Quiz.is_published (QuizFull.base q))
    (World.quizzes w).

(** [Quiz.query.filter_by(join_code=code, is_published=True).first()]. *)
Definition published_quiz_with_code (w : World.t) (code : string)
    : option QuizFull.row :=
  List.find (fun q => code_is code q && Quiz.is_published (QuizFull.base q))
            (World.quizzes w).

(** [join_by_code()] for a POST request with the form field [code]. *)
Definition join_by_code (role : string) (w : World.t) (code : string) : Page :=
  if String.eqb role "admin" then RedirectAdminDashboard
  else
    match active_quiz_with_code w (py_upper (py_strip code)) with
    | Some quiz => RedirectWaitingRoom (Quiz.id (QuizFull.base quiz))
    | None => RenderJoinForm (Some "error")
    end.

(** [join_by_link(code)]. *)
Definition join_by_link (role : string) (w : World.t) (code : string) : Page :=
  if String.eqb role "admin" then RedirectAdminDashboard
  else
    match active_quiz_with_code w (py_upper code) with
    | None => RenderQuizClosed "Quiz not found or not active."
    | Some quiz => RedirectWaitingRoom (Quiz.id (QuizFull.base quiz))
    end.

(** [join_quiz_public(code)] of routes/public.py; [logged_in] is
    ['user_id' in session]. *)
Definition join_quiz_public (role : string) (logged_in : bool) (w : World.t)
    (code : string) : Page :=
  match published_quiz_with_code w (py_upper code) with
  | None => NotFound
  | Some quiz =>
      if String.eqb role "admin" then RedirectAdminDashboard
      else if negb logged_in then RedirectLogin (Quiz.id (QuizFull.base quiz))
      else RedirectWaitingRoom (Quiz.id (QuizFull.base quiz))
  end.

(** [waiting_room(quiz_id)]. *)
Definition waiting_room (role : string) (w : World.t) (quiz_id : Z) : Page :=
  if String.eqb role "admin" then RedirectAdminDashboard
  else
    match World.get_quiz w quiz_id with
    | None => NotFound
    | Some quiz =>
        if Quiz.is_active (QuizFull.base quiz)
        then RedirectAttemptQuiz (Quiz.id (QuizFull.base quiz))
        else RenderWaitingRoom (Quiz.id (QuizFull.base quiz))
    end.
End Routes.
End Joining.

(** ** Reachable worlds of the lifecycle *)

(** One request of the host, or one Socket.IO event.  The requests of the
    participants write neither the quiz table nor [quiz_state]. *)
Inductive lifecycle_step : World.t -> World.t -> Prop :=
| step_end_questions (role : string) (w : World.t) (quiz_id : Z) :
    lifecycle_step w (fst (fst (AdminRoutes.end_questions role w quiz_id)))
| step_publish (role code : string) (now1 now2 : Q) (w : World.t) (quiz_id : Z) :
    lifecycle_step w (fst (fst (AdminRoutes.publish_quiz role code now1 now2 w quiz_id)))
| step_pause (role : string) (now : Q) (w : World.t) (quiz_id : Z) :
    lifecycle_step w (fst (fst (AdminRoutes.pause_quiz role now w quiz_id)))
| step_resume (role : string) (now : Q) (w : World.t) (quiz_id : Z) :
    lifecycle_step w (fst (fst (AdminRoutes.resume_quiz role now w quiz_id)))
| step_stop (role : string) (w : World.t) (quiz_id : Z) :
    lifecycle_step w (fst (fst (AdminRoutes.stop_quiz role w quiz_id)))
| step_start (role : string) (now1 now2 : Q) (w : World.t) (quiz_id : Z) :
    lifecycle_step w (fst (fst (AdminRoutes.start_quiz role now1 now2 w quiz_id)))
| step_reset (role : string) (w : World.t) (quiz_id : Z) :
    lifecycle_step w (fst (fst (AdminRoutes.reset_quiz role w quiz_id)))
| step_delete (role : string) (w : World.t) (quiz_id : Z) :
    lifecycle_step w (fst (fst (AdminRoutes.delete_quiz role w quiz_id)))
| step_socket_start (now1 now2 now3 : Q) (w : World.t) (quiz_id : Z) :
    lifecycle_step w
      (fst (fst (AdminRoutes.handle_admin_start_quiz now1 now2 now3 w quiz_id)))
| step_next_events (w : World.t) (quiz_id : Z) :
    lifecycle_step w
      (World.with_quiz_state w
         (fst (QuizEvents.admin_next_question (World.db w) quiz_id (World.quiz_state w))))
| step_next_admin (w : World.t) (quiz_id : Z) :
    lifecycle_step w
      (World.with_quiz_state w
         (fst (Admin.handle_admin_next_question quiz_id (World.quiz_state w))))
| step_previous (w : World.t) (quiz_id : Z) :
    lifecycle_step w
      (World.with_quiz_state w
         (fst (AdminRoutes.handle_admin_previous_question quiz_id (World.quiz_state w))))
| step_edit_catalogue (w w' : World.t) :
    (* quiz creation, renaming and question authoring: new quizzes are neither
       active nor paused, and the lifecycle columns of the others stay *)
    World.quiz_state w' = World.quiz_state w ->
    List.NoDup (List.map (fun q => Quiz.id (QuizFull.base q)) (World.quizzes w')) ->
    (forall q', In q' (World.quizzes w') ->
       (Quiz.is_active (QuizFull.base q') = false
        /\ Quiz.is_paused (QuizFull.base q') = false)
       \/ exists q, In q (World.quizzes w)
                    /\ Quiz.id (QuizFull.base q) = Quiz.id (QuizFull.base q')
                    /\ Quiz.is_active (QuizFull.base q) = Quiz.is_active (QuizFull.base q')
                    /\ Quiz.is_paused (QuizFull.base q) = Quiz.is_paused (QuizFull.base q')) ->
    lifecycle_step w w'.

(** Primary keys of the quiz table are unique. *)
Definition unique_quiz_ids (w : World.t) : Prop :=
  List.NoDup (List.map (fun q => Quiz.id (QuizFull.base q)) (World.quizzes w)).

(** The worlds of one run of the server: it comes up with no quiz active or
    paused and an empty [quiz_state]. *)
Inductive lifecycle_reachable : World.t -> Prop :=
| lifecycle_init (w : World.t) :
    unique_quiz_ids w ->
    (forall q, In q (World.quizzes w) ->
               Quiz.is_active (QuizFull.base q) = false
               /\ Quiz.is_paused (QuizFull.base q) = false) ->
    World.quiz_state w = ∅ ->
    lifecycle_reachable w
| lifecycle_next (w w' : World.t) :
    lifecycle_reachable w -> lifecycle_step w w' -> lifecycle_reachable w'.

(** A paused quiz is active, an active quiz has a live session, and no
    session is at a negative question index. *)
Definition lifecycle_invariant (w : World.t) : Prop :=
  unique_quiz_ids w
  /\ (forall q, In q (World.quizzes w) ->
        (Quiz.is_paused (QuizFull.base q) = true -> Quiz.is_active (QuizFull.base q) = true)
        /\ (Quiz.is_active (QuizFull.base q) = true ->
            is_Some (World.quiz_state w !! Quiz.id (QuizFull.base q))))
  /\ (forall quiz_id session,
        World.quiz_state w !! quiz_id = Some session -> 0 <= current_qindex session).

(** The bonus one invocation of the awarder hands out when [n] answers are
    correct. *)
Definition bonus_total (n : nat) : Q :=
  sum_Q (firstn n ScoringService.bonus_points).

(** The points of a table, summed. *)
Definition total_points_of (table : list PartialAnswer.row) : Q :=
  sum_Q (List.map PartialAnswer.points table).

(** ** Further example data *)

Module Scenarios.
(** A multiple-choice question whose correct answers were stored as the JSON
    number 2 instead of a list. *)
Definition scalar_question : Question.row :=
  {| Question.id := 1; Question.quiz_id := 1; Question.order := 1;
     Question.question_type := "multiple-choice";
     Question.correct_answers := Some "2"; Question.points := Some 1.0%Q;
     Question.time_limit := Some 0; Question.show_leaderboard := Some true;
     Question.answer := Some "2" |}.

(** The quiz with that question, which alice has answered before. *)
Definition scalar_db : DB :=
  {| quizzes := [Examples.open_quiz (Some true)]; questions := [scalar_question];
     partial_answers := [Examples.answer 1 1 "alice" true 5 1 50]; results := [] |}.

(** A quiz with two questions; bob has answered the first one correctly and
    the second one incorrectly. *)
Definition answered_db : DB :=
  {| quizzes := [Examples.open_quiz (Some true)];
     questions := [Examples.choice_question 1; Examples.choice_question 2];
     partial_answers := [Examples.answer 1 1 "bob" true 4 4 50;
                         Examples.answer 2 2 "bob" false 9 0 60];
     results := [] |}.




(** A locked draft of a quiz with an overall timer of one minute and one
    question; alice has an answer and a result from an earlier session. *)
Definition draft_quiz : QuizFull.row :=
  {| QuizFull.base :=
       {| Quiz.id := 1; Quiz.has_timer := true; Quiz.overall_timer := Some 1;
          Quiz.show_leaderboard_global := Some true; Quiz.is_published := false;
          Quiz.is_active := false; Quiz.is_paused := false; Quiz.paused_seconds := 0 |};
     QuizFull.title := "Demo"; QuizFull.published_at := None;
     QuizFull.publish_count := None; QuizFull.start_time := None;
     QuizFull.is_locked := true; QuizFull.join_code := None;
     QuizFull.paused_at := None |}.

Definition first_result : Result.row :=
  {| Result.id := 1; Result.quiz_id := 1; Result.student := "alice";
     Result.score := 1; Result.total := 1; Result.time_taken := 5;
     Result.total_points := 4 |}.

Definition draft_world : World.t :=
  {| World.quizzes := [draft_quiz];
     World.questions := [Examples.choice_question 1];
     World.partial_answers := [Examples.answer 1 1 "alice" true 5 4 50];
     World.results := [first_result];
     World.quiz_state := ∅ |}.

(** The draft, published and started. *)
Definition running_world : World.t :=
  fst (fst (AdminRoutes.start_quiz "admin" 1000 1000
              (fst (fst (AdminRoutes.publish_quiz "admin" "ABC123" 900 900 draft_world 1)))
              1)).

(** No waiting room yet. *)
Definition no_rooms : WaitingRoom.state :=
  {| WaitingRoom.waiting_rooms := ∅; WaitingRoom.active_participants := ∅ |}.
End Scenarios.

(** * Properties *)

(** ** Facts about the stable sort *)

Section StableSortFacts.
Context {A : Type} (leb : A -> A -> bool).

Hypothesis leb_total : forall x y, leb x y = true \/ leb y x = true.

Lemma insert_by_perm (x : A) (l : list A) :
  Permutation (insert_by leb x l) (x :: l).
Proof using Type.
  induction l as [|y l IH]; simpl; [reflexivity|].
  destruct (leb x y); [reflexivity|].
  rewrite IH. apply perm_swap.
Qed.

Lemma sort_by_perm (l : list A) : Permutation (sort_by leb l) l.
Proof using Type.
  induction l as [|x l IH]; simpl; [constructor|].
  rewrite insert_by_perm. now constructor.
Qed.

Lemma sort_by_In (l : list A) (x : A) : In x (sort_by leb l) <-> In x l.
Proof using Type.
  split; apply Permutation_in; [|symmetry]; apply sort_by_perm.
Qed.

Lemma sort_by_length (l : list A) : length (sort_by leb l) = length l.
Proof using Type. apply Permutation_length, sort_by_perm. Qed.

Lemma insert_by_sorted (x : A) (l : list A) :
  Sorted (le_of leb) l -> Sorted (le_of leb) (insert_by leb x l).
Proof using leb_total.
  induction l as [|y l IH]; simpl; intros Hs.
  - repeat constructor.
  - destruct (leb x y) eqn:Hxy.
    + constructor; [assumption|]. now constructor.
    + inversion Hs as [|? ? Hs' Hhd]; subst.
      constructor; [now apply IH|].
      assert (Hyx : leb y x = true)
        by (destruct (leb_total x y); congruence).
      destruct l as [|z l]; simpl.
      * now constructor.
      * destruct (leb x z); constructor; [assumption|].
        inversion Hhd; assumption.
Qed.

Lemma sort_by_sorted (l : list A) : Sorted (le_of leb) (sort_by leb l).
Proof using leb_total.
  induction l as [|x l IH]; simpl; [constructor|].
  now apply insert_by_sorted.
Qed.

Hypothesis leb_trans :
  forall x y z, leb x y = true -> leb y z = true -> leb x z = true.

Lemma sort_by_strongly_sorted (l : list A) : StronglySorted (le_of leb) (sort_by leb l).
Proof using leb_total leb_trans.
  apply Sorted_StronglySorted; [|apply sort_by_sorted].
  intros x y z; apply leb_trans.
Qed.
End StableSortFacts.


(** In a strongly sorted list an earlier element is below a later one. *)
Lemma strongly_sorted_nth {A : Type} (R : A -> A -> Prop) (l : list A) :
  StronglySorted R l ->
  forall (i j : nat) (x y : A),
    (i < j)%nat -> nth_error l i = Some x -> nth_error l j = Some y -> R x y.
Proof.
  induction 1 as [|a l Hs IH Hall]; intros i j x y Hij Hi Hj.
  - destruct i; discriminate.
  - destruct j as [|j]; [lia|]. simpl in Hj.
    destruct i as [|i]; simpl in Hi.
    + injection Hi as <-. rewrite List.Forall_forall in Hall.
      apply Hall. eapply nth_error_In; eassumption.
    + apply (IH i j); [lia | assumption | assumption].
Qed.

(** ** Score calculator *)





(** ** Answer validator *)

Lemma str_in_In (x : string) (xs : list string) : str_in x xs = true <-> In x xs.
Proof.
  unfold str_in. rewrite existsb_exists. split.
  - intros (y & Hy & Heq). apply String.eqb_eq in Heq. now subst.
  - intros Hx. exists x. split; [assumption | apply String.eqb_refl].
Qed.

Lemma set_eqb_spec (xs ys : list string) :
  set_eqb xs ys = true <-> (forall x, In x xs <-> In x ys).
Proof.
  unfold set_eqb. rewrite andb_true_iff, !forallb_forall. split.
  - intros [Hxy Hyx] x. split; intros Hx.
    + now apply str_in_In, Hxy.
    + now apply str_in_In, Hyx.
  - intros Heq. split; intros x Hx; apply str_in_In, Heq, Hx.
Qed.

(** The validator raises only when the correct answers of the question
    cannot be iterated. *)
Lemma check_answer_correctness_total `{PyRuntime} (question : Question.row)
    (selected_answer : option string) (correct : list JValue) :
  py_iter (get_correct_answers question) = Some correct ->
  exists b, check_answer_correctness question selected_answer = Some b.
Proof.
  intros Hiter. unfold check_answer_correctness. rewrite Hiter.
  destruct selected_answer as [sel|]; [|eauto].
  destruct (String.eqb sel "" || String.eqb sel "No Answer"); [eauto|].
  destruct (String.eqb _ "multiple-choice"); [eauto|].
  destruct (String.eqb _ "checkbox"); [destruct (json_loads sel); eauto|].
  destruct (_ || _); eauto.
Qed.


(** The verdict on a checkbox question: never an exception, and [True]
    exactly for a selection with the set of the correct markers. *)
Lemma checkbox_verdict `{PyRuntime} (question : Question.row)
    (selected_answer : option string) :
  Question.question_type question = "checkbox" ->
  exists b, check_answer_correctness question selected_answer = Some b
            /\ (b = true <-> Spec.checkbox_correct question selected_answer).
Proof.
  intros Htype.
  assert (Hiff : forall b, check_answer_correctness question selected_answer = Some b
                           -> (b = true <-> Spec.checkbox_correct question selected_answer)).
  { unfold check_answer_correctness, Spec.checkbox_correct. rewrite Htype.
    destruct selected_answer as [sel|].
    2:{ intros b [= <-]. split; [discriminate|]. intros (? & ? & ? & [=] & _). }
    destruct (String.eqb sel "") eqn:He.
    { intros b [= <-]. apply String.eqb_eq in He. split; [discriminate|].
      intros (? & ? & ? & [= <-] & Hne & _). contradiction. }
    destruct (String.eqb sel "No Answer") eqn:Hn.
    { intros b [= <-]. apply String.eqb_eq in Hn. split; [discriminate|].
      intros (? & ? & ? & [= <-] & _ & Hne & _). contradiction. }
    apply String.eqb_neq in He, Hn. simpl.
    destruct (json_loads sel) as [parsed|] eqn:Hp.
    2:{ intros b [= <-]. split; [discriminate|].
        intros (? & ? & ? & [= <-] & _ & _ & Hl & _). congruence. }
    destruct (py_iter (get_correct_answers question)) as [correct|] eqn:Hc.
    2:{ intros b [= <-]. split; [discriminate|].
        intros (? & ? & ? & _ & _ & _ & _ & [=] & _). }
    intros b [= <-]. rewrite set_eqb_spec. split.
    - intros Hset. exists sel, parsed, correct. repeat split; try assumption;
        apply Hset.
    - intros (sel' & parsed' & correct' & [= <-] & _ & _ & Hl & [= <-] & Hset).
      rewrite Hp in Hl. injection Hl as <-. exact Hset. }
  assert (Htotal : exists b, check_answer_correctness question selected_answer = Some b).
  { unfold check_answer_correctness. rewrite Htype.
    destruct selected_answer as [sel|]; [|eauto].
    destruct (String.eqb sel "" || String.eqb sel "No Answer"); [eauto|]. simpl.
    destruct (json_loads sel); [|eauto].
    destruct (py_iter (get_correct_answers question)); eauto. }
  destruct Htotal as [b Hb]. exists b. split; [exact Hb | now apply Hiff].
Qed.


(** ** Rank bonus awarder *)

Lemma add_bonus_same (b : Q) (a : PartialAnswer.row) :
  same_but_points (PartialAnswer.add_bonus b a) a.
Proof. repeat split. Qed.

Lemma same_but_points_refl (a : PartialAnswer.row) : same_but_points a a.
Proof. repeat split. Qed.

Lemma same_but_points_trans (a b c : PartialAnswer.row) :
  same_but_points a b -> same_but_points b c -> same_but_points a c.
Proof.
  unfold same_but_points.
  intros (? & ? & ? & ? & ? & ? & ?) (? & ? & ? & ? & ? & ? & ?).
  repeat split; congruence.
Qed.

Lemma awards_on_same (ranked : list (nat * PartialAnswer.row)) (a : PartialAnswer.row) :
  same_but_points (awards_on ranked a) a.
Proof.
  revert a. induction ranked as [|r ranked IH]; intros a; simpl.
  - apply same_but_points_refl.
  - eapply same_but_points_trans; [apply IH|].
    destruct (_ =? _); [apply add_bonus_same | apply same_but_points_refl].
Qed.

Lemma awards_on_id (ranked : list (nat * PartialAnswer.row)) (a : PartialAnswer.row) :
  PartialAnswer.id (awards_on ranked a) = PartialAnswer.id a.
Proof. apply awards_on_same. Qed.

(** The loop of the awarder acts on each row separately. *)
Lemma fold_award_map (ranked : list (nat * PartialAnswer.row))
    (table : list PartialAnswer.row) :
  fold_left ScoringService.award ranked table = List.map (awards_on ranked) table.
Proof.
  revert table. induction ranked as [|[idx t] ranked IH]; intros table; simpl.
  - symmetry. apply map_id.
  - rewrite IH. unfold ScoringService.award. rewrite map_map. reflexivity.
Qed.

Lemma rank_of_absent (pk : Z) (rows : list PartialAnswer.row) :
  ~ In pk (List.map PartialAnswer.id rows) -> rank_of pk rows = None.
Proof.
  induction rows as [|a rows IH]; simpl; intros Hnot; [reflexivity|].
  destruct (Z.eqb_spec (PartialAnswer.id a) pk) as [Heq | Hne].
  - exfalso. apply Hnot. now left.
  - rewrite IH; [reflexivity|]. intros Hin. apply Hnot. now right.
Qed.


(** One pass of the awarder on one row: the row at position [k] of the
    ranked list gets the [k]-th bonus, every other row is left as it is. *)
Lemma awards_on_enumerate (rows : list PartialAnswer.row) :
  unique_ids rows ->
  forall (start : nat) (a : PartialAnswer.row),
    awards_on (enumerate start rows) a =
    match rank_of (PartialAnswer.id a) rows with
    | Some k => PartialAnswer.add_bonus
                  (nth (start + k) ScoringService.bonus_points 0%Q) a
    | None => a
    end.
Proof.
  unfold unique_ids, enumerate.
  induction rows as [|t rows IH]; intros Hnd start a; simpl; [reflexivity|].
  simpl in Hnd. apply List.NoDup_cons_iff in Hnd as [Hnot Hnd].
  unfold awards_on in *. simpl.
  rewrite (Z.eqb_sym (PartialAnswer.id t) (PartialAnswer.id a)).
  destruct (Z.eqb_spec (PartialAnswer.id a) (PartialAnswer.id t)) as [Heq | Hne].
  - rewrite (IH Hnd (S start)). simpl PartialAnswer.id.
    rewrite rank_of_absent by (rewrite Heq; exact Hnot).
    now rewrite Nat.add_0_r.
  - rewrite (IH Hnd (S start)).
    destruct (rank_of (PartialAnswer.id a) rows) as [k|]; simpl; [|reflexivity].
    now rewrite Nat.add_succ_r.
Qed.

Lemma unique_ids_filter (p : PartialAnswer.row -> bool) (table : list PartialAnswer.row) :
  unique_ids table -> unique_ids (List.filter p table).
Proof.
  unfold unique_ids. induction table as [|a table IH]; simpl; intros Hnd; [constructor|].
  apply List.NoDup_cons_iff in Hnd as [Hnot Hnd].
  destruct (p a); simpl; [|now apply IH].
  constructor; [|now apply IH].
  intros Hin. apply Hnot. apply in_map_iff in Hin as (b & Hb & Hin).
  apply filter_In in Hin as [Hin _]. rewrite <- Hb. now apply in_map.
Qed.

Lemma unique_ids_perm (l l' : list PartialAnswer.row) :
  Permutation l l' -> unique_ids l -> unique_ids l'.
Proof.
  unfold unique_ids. intros Hp. apply Permutation_NoDup. now apply Permutation_map.
Qed.

Lemma unique_ids_firstn (n : nat) (l : list PartialAnswer.row) :
  unique_ids l -> unique_ids (firstn n l).
Proof.
  unfold unique_ids. intros Hnd.
  rewrite <- (firstn_skipn n l), map_app in Hnd.
  now apply List.NoDup_app_remove_r in Hnd.
Qed.

Lemma unique_ids_ranked (quiz_id question_id : Z) (table : list PartialAnswer.row) :
  unique_ids table ->
  unique_ids (ScoringService.correct_answers_by_time quiz_id question_id table).
Proof.
  intros Hnd. unfold ScoringService.correct_answers_by_time.
  eapply unique_ids_perm; [symmetry; apply sort_by_perm|].
  now apply unique_ids_filter.
Qed.

Lemma row_by_id_In (table : list PartialAnswer.row) (a : PartialAnswer.row) :
  unique_ids table -> In a table -> row_by_id (PartialAnswer.id a) table = Some a.
Proof.
  unfold unique_ids, row_by_id.
  induction table as [|t table IH]; simpl; intros Hnd Hin; [contradiction|].
  apply List.NoDup_cons_iff in Hnd as [Hnot Hnd].
  destruct Hin as [-> | Hin].
  - now rewrite Z.eqb_refl.
  - destruct (Z.eqb_spec (PartialAnswer.id t) (PartialAnswer.id a)) as [Heq | Hne].
    + exfalso. apply Hnot. rewrite Heq. now apply in_map.
    + now apply IH.
Qed.













(** Ids identify rows of a table with unique keys. *)
Lemma unique_ids_inj (table : list PartialAnswer.row) (a b : PartialAnswer.row) :
  unique_ids table -> In a table -> In b table ->
  PartialAnswer.id a = PartialAnswer.id b -> a = b.
Proof.
  intros Hnd Ha Hb Heq.
  pose proof (row_by_id_In table a Hnd Ha) as Ra.
  pose proof (row_by_id_In table b Hnd Hb) as Rb.
  rewrite Heq in Ra. congruence.
Qed.

Lemma strongly_sorted_impl {A : Type} (R R' : A -> A -> Prop) (l : list A) :
  (forall x y, R x y -> R' x y) -> StronglySorted R l -> StronglySorted R' l.
Proof.
  intros Himp. induction 1 as [|a l Hs IH Hall]; constructor; [assumption|].
  eapply List.Forall_impl; [|exact Hall]. intros b. apply Himp.
Qed.

Lemma ranked_in_table (quiz_id question_id : Z) (table : list PartialAnswer.row)
    (a : PartialAnswer.row) :
  In a (ScoringService.correct_answers_by_time quiz_id question_id table)
  <-> In a table /\ correct_for quiz_id question_id a = true.
Proof.
  unfold ScoringService.correct_answers_by_time.
  rewrite sort_by_In. apply filter_In.
Qed.


(** ** Submission endpoint *)

Section SubmissionFacts.
Context `{PyRuntime}.

Lemma complete_quiz_answers (db : DB) (quiz_id : Z) (student : string) (total : Z) :
  partial_answers (Student.complete_quiz db quiz_id student total) = partial_answers db.
Proof using Type.
  unfold Student.complete_quiz. destruct (List.find _ _); reflexivity.
Qed.

(** What a JSON reply says about the request. *)
Lemma attempt_quiz_post_json (db db' : DB) (quiz_id : Z) (form : Student.Submission)
    (ic : bool) (ca : string) (sc : bool) (nq : option Z) (sl : option bool) :
  Student.attempt_quiz_post db quiz_id form = (db', Student.Json ic ca sc nq sl) ->
  exists quiz question,
    get_quiz db quiz_id = Some quiz
    /\ get_question db (Student.question_id form) = Some question
    /\ check_answer_correctness question (Student.selected_answer form) = Some ic
    /\ partial_answers db' = answers_after db quiz_id form quiz question ic
    /\ let total := Z.of_nat (length (questions_of db quiz_id)) in
       let db3 := Student.with_partial_answers db
                    (answers_after db quiz_id form quiz question ic) in
       (sc = true /\ db' = Student.complete_quiz db3 quiz_id (Student.student_name form) total)
       \/ (sc = false /\ db' = db3).
Proof using Type.
  unfold Student.attempt_quiz_post.
  destruct (String.eqb (Student.role form) "admin"); [discriminate|].
  destruct (get_quiz db quiz_id) as [quiz|]; [|discriminate].
  destruct (negb (Quiz.is_active quiz)); [discriminate|].
  destruct (negb (Quiz.is_published quiz)); [discriminate|].
  destruct (Quiz.is_paused quiz); [discriminate|].
  destruct (questions_of db quiz_id) as [|q0 qs] eqn:Hqs; [discriminate|].
  destruct (get_question db (Student.question_id form)) as [question|]; [|discriminate].
  destruct (check_answer_correctness question (Student.selected_answer form))
    as [is_correct|] eqn:Hcheck; [|discriminate].
  destruct (_ <=? _); intros [= <- <- <- <- <- <-];
    exists quiz, question; rewrite ?complete_quiz_answers;
    (split; [reflexivity|]); (split; [reflexivity|]);
    (split; [exact Hcheck|]); (split; [reflexivity|]).
  - left. split; reflexivity.
  - right. split; reflexivity.
Qed.
End SubmissionFacts.


Lemma same_answer_key_same (quiz_id question_id : Z) (student : string)
    (a b : PartialAnswer.row) :
  same_but_points a b ->
  Student.same_answer_key quiz_id question_id student a
  = Student.same_answer_key quiz_id question_id student b.
Proof.
  intros (_ & Hq & Hn & Hs & _). unfold Student.same_answer_key.
  now rewrite Hq, Hn, Hs.
Qed.

Lemma filter_negb_filter {A : Type} (p : A -> bool) (l : list A) :
  List.filter p (List.filter (fun a => negb (p a)) l) = [].
Proof.
  induction l as [|a l IH]; simpl; [reflexivity|].
  destruct (p a) eqn:Hp; simpl; [assumption|]. now rewrite Hp.
Qed.

Lemma filter_idem {A : Type} (p : A -> bool) (l : list A) :
  List.filter p (List.filter p l) = List.filter p l.
Proof.
  induction l as [|a l IH]; simpl; [reflexivity|].
  destruct (p a) eqn:Hp; simpl; [|assumption]. now rewrite Hp, IH.
Qed.


Section ResubmissionFacts.
Context `{PyRuntime}.

Variables (db : DB) (quiz_id : Z) (form : Student.Submission).
Variables (quiz : Quiz.row) (question : Question.row) (is_correct : bool).

Lemma answers_after_map :
  answers_after db quiz_id form quiz question is_correct
  = List.map (awards_on (enumerate 0 (top_after db quiz_id form quiz question is_correct)))
             (answers_before_award db quiz_id form quiz question is_correct).
Proof using Type.
  unfold answers_after, ScoringService.update_question_rank_bonuses.
  now rewrite fold_award_map.
Qed.

Lemma key_submitted_row :
  Student.same_answer_key quiz_id (Student.question_id form) (Student.student_name form)
    (submitted_row db quiz_id form quiz question is_correct) = true.
Proof using Type.
  unfold submitted_row, Student.new_partial, Student.same_answer_key. simpl.
  now rewrite !Z.eqb_refl, String.eqb_refl.
Qed.


End ResubmissionFacts.


(** ** Checkbox scoring on the submission path *)

Lemma next_id_fresh (ids : list Z) : ~ In (next_id ids) ids.
Proof.
  assert (Hmax : forall x, In x ids -> x <= fold_right Z.max 0 ids).
  { induction ids as [|y ids IH]; simpl; intros x Hx; [contradiction|].
    destruct Hx as [-> | Hx]; [lia|]. specialize (IH x Hx). lia. }
  unfold next_id. intros Hin. apply Hmax in Hin. lia.
Qed.

Lemma unique_ids_snoc (table : list PartialAnswer.row) (a : PartialAnswer.row) :
  unique_ids table ->
  PartialAnswer.id a = next_id (List.map PartialAnswer.id table) ->
  unique_ids (table ++ [a]).
Proof.
  unfold unique_ids. intros Hnd Hid. rewrite map_app. simpl.
  apply List.NoDup_app; [assumption | repeat constructor; intros [] |].
  intros x Hx [<- | []]. rewrite Hid in Hx. now apply next_id_fresh in Hx.
Qed.


Lemma speed_multiplier_values (r : Q) :
  speed_multiplier r = 1.5%Q \/ speed_multiplier r = 1.2%Q
  \/ speed_multiplier r = 1.0%Q \/ speed_multiplier r = 0.8%Q.
Proof.
  unfold speed_multiplier.
  destruct (Qle_bool r 0.3); [auto|].
  destruct (Qle_bool r 0.6); [auto|].
  destruct (Qle_bool r 0.9); auto.
Qed.


Section CheckboxFacts.
Context `{PyRuntime}.

Variables (db : DB) (quiz_id : Z) (form : Student.Submission).
Variables (quiz : Quiz.row) (question : Question.row) (is_correct : bool).
Hypothesis db_keys : unique_ids (partial_answers db).

Lemma unique_ids_before_award :
  unique_ids (answers_before_award db quiz_id form quiz question is_correct).
Proof using db_keys.
  unfold answers_before_award. apply unique_ids_snoc; [|reflexivity].
  unfold Student.delete_prior. simpl. now apply unique_ids_filter.
Qed.

Lemma unique_ids_top_after :
  unique_ids (top_after db quiz_id form quiz question is_correct).
Proof using db_keys.
  unfold top_after. apply unique_ids_firstn, unique_ids_ranked,
    unique_ids_before_award.
Qed.

End CheckboxFacts.


(** ** Session results *)






(** What the "quiz complete" block does to the Result table. *)
Lemma complete_quiz_results (db : DB) (quiz_id : Z) (student : string) (total : Z) :
  (exists existing,
      List.find (Student.same_result_key quiz_id student) (results db) = Some existing
      /\ Student.complete_quiz db quiz_id student total = db)
  \/ (List.find (Student.same_result_key quiz_id student) (results db) = None
      /\ exists r,
           results (Student.complete_quiz db quiz_id student total)
           = (results db ++ [r])%list
           /\ Result.quiz_id r = quiz_id
           /\ Result.student r = student
           /\ Result.score r
              = count_Z PartialAnswer.is_correct
                  (List.filter (Student.same_participant quiz_id student)
                     (partial_answers db))
           /\ Result.total r = total
           /\ Result.time_taken r
              = sum_Z (List.map PartialAnswer.time_taken
                         (List.filter (Student.same_participant quiz_id student)
                            (partial_answers db)))
           /\ Result.total_points r
              = sum_Q (List.map PartialAnswer.points
                         (List.filter (Student.same_participant quiz_id student)
                            (partial_answers db)))).
Proof.
  unfold Student.complete_quiz.
  destruct (List.find _ (results db)) as [existing|].
  - left. eauto.
  - right. split; [reflexivity|]. eexists. simpl. repeat split.
Qed.


Section ResultFacts.
Context `{PyRuntime}.

(** A request leaves the Result table alone or runs "quiz complete" on a
    store with the same Result table and questions. *)
Lemma attempt_quiz_post_results (db : DB) (quiz_id : Z) (form : Student.Submission) :
  results (fst (Student.attempt_quiz_post db quiz_id form)) = results db
  \/ exists db3 ic ca nq sl,
       results db3 = results db
       /\ questions db3 = questions db
       /\ Student.attempt_quiz_post db quiz_id form
          = (Student.complete_quiz db3 quiz_id (Student.student_name form)
               (Z.of_nat (length (questions_of db quiz_id))),
             Student.Json ic ca true nq sl).
Proof using Type.
  unfold Student.attempt_quiz_post.
  destruct (String.eqb (Student.role form) "admin"); [now left|].
  destruct (get_quiz db quiz_id) as [quiz|]; [|now left].
  destruct (negb (Quiz.is_active quiz)); [now left|].
  destruct (negb (Quiz.is_published quiz)); [now left|].
  destruct (Quiz.is_paused quiz); [now left|].
  destruct (questions_of db quiz_id) as [|q0 qs] eqn:Hqs; [now left|].
  destruct (get_question db (Student.question_id form)) as [question|]; [|now left].
  destruct (check_answer_correctness question (Student.selected_answer form))
    as [is_correct|]; [|now left].
  destruct (_ <=? _); [|now left].
  right. do 5 eexists. split; [|split; [|reflexivity]]; reflexivity.
Qed.


End ResultFacts.


(** ** Full leaderboard *)

Lemma distinct_In (xs : list string) (x : string) : In x (distinct xs) <-> In x xs.
Proof.
  induction xs as [|y xs IH]; simpl; [reflexivity|].
  rewrite filter_In, IH. split.
  - intros [-> | [Hin _]]; auto.
  - intros [-> | Hin]; [now left|].
    destruct (String.eqb_spec y x) as [-> | Hne]; [now left | right; now split].
Qed.

Lemma distinct_NoDup (xs : list string) : List.NoDup (distinct xs).
Proof.
  induction xs as [|y xs IH]; simpl; constructor.
  - rewrite filter_In. intros [_ Hne]. now rewrite String.eqb_refl in Hne.
  - now apply List.NoDup_filter.
Qed.

Lemma enumerate_snd {A : Type} (start : nat) (l : list A) :
  List.map snd (enumerate start l) = l.
Proof.
  unfold enumerate. revert start. induction l as [|a l IH]; intros start; simpl;
    [reflexivity|]. now rewrite IH.
Qed.

Lemma enumerate_nth {A : Type} (start i : nat) (l : list A) (p : nat * A) :
  nth_error (enumerate start l) i = Some p ->
  fst p = (start + i)%nat /\ nth_error l i = Some (snd p).
Proof.
  unfold enumerate. revert start i. induction l as [|a l IH]; intros start i; simpl.
  - destruct i; discriminate.
  - destruct i as [|i]; simpl.
    + intros [= <-]. simpl. split; [lia | reflexivity].
    + intros Hp. apply IH in Hp as [-> Hn]. split; [lia | assumption].
Qed.

Lemma key_leb_spec (x y : RoutesLeaderboardService.entry) :
  RoutesLeaderboardService.key_leb x y = true <-> Spec.ranks_before x y.
Proof.
  unfold RoutesLeaderboardService.key_leb, Spec.ranks_before.
  destruct (Qcompare_spec (- RoutesLeaderboardService.points x)
                          (- RoutesLeaderboardService.points y)) as [Hp | Hp | Hp].
  - destruct (Z.compare_spec (- RoutesLeaderboardService.correct x)
                             (- RoutesLeaderboardService.correct y)) as [Hc | Hc | Hc].
    + rewrite Z.leb_le. split.
      * intros Ht. right. split; [lra|]. right. split; [lia | assumption].
      * intros [Hlt | [_ [Hlt | [_ Ht]]]]; [lra | lia | assumption].
    + split; [|reflexivity]. intros _. right. split; [lra|]. left. lia.
    + split; [discriminate|]. intros [Hlt | [_ [Hlt | [Heq _]]]]; [lra | lia | lia].
  - split; [|reflexivity]. intros _. left. lra.
  - split; [discriminate|]. intros [Hlt | [Heq _]]; lra.
Qed.

Lemma key_leb_total (x y : RoutesLeaderboardService.entry) :
  RoutesLeaderboardService.key_leb x y = true
  \/ RoutesLeaderboardService.key_leb y x = true.
Proof.
  rewrite !key_leb_spec. unfold Spec.ranks_before.
  destruct (Qlt_le_dec (RoutesLeaderboardService.points y)
                       (RoutesLeaderboardService.points x)) as [Hlt | Hle];
    [left; now left|].
  destruct (Qlt_le_dec (RoutesLeaderboardService.points x)
                       (RoutesLeaderboardService.points y)) as [Hlt | Hle'];
    [right; now left|].
  assert (Heq : (RoutesLeaderboardService.points x == RoutesLeaderboardService.points y)%Q)
    by lra.
  destruct (Z.lt_trichotomy (RoutesLeaderboardService.correct x)
                            (RoutesLeaderboardService.correct y)) as [Hc | [Hc | Hc]].
  - right. right. split; [lra|]. now left.
  - destruct (Z.le_gt_cases (RoutesLeaderboardService.time x)
                            (RoutesLeaderboardService.time y)) as [Ht | Ht].
    + left. right. split; [assumption|]. right. now split.
    + right. right. split; [lra|]. right. split; [now symmetry | lia].
  - left. right. split; [assumption|]. now left.
Qed.

Lemma key_leb_trans (x y z : RoutesLeaderboardService.entry) :
  RoutesLeaderboardService.key_leb x y = true ->
  RoutesLeaderboardService.key_leb y z = true ->
  RoutesLeaderboardService.key_leb x z = true.
Proof.
  rewrite !key_leb_spec. unfold Spec.ranks_before.
  intros [Hxy | [Hxy Hcxy]] [Hyz | [Hyz Hcyz]].
  - left. lra.
  - left. lra.
  - left. lra.
  - right. split; [lra|].
    destruct Hcxy as [Hc1 | [Hc1 Ht1]], Hcyz as [Hc2 | [Hc2 Ht2]].
    + left. lia.
    + left. lia.
    + left. lia.
    + right. split; [congruence | lia].
Qed.

Lemma ranked_payload_fields (start : nat) (l : list RoutesLeaderboardService.entry) :
  List.map RoutesLeaderboardService.fields
    (List.map RoutesLeaderboardService.add_rank (enumerate start l)) = l.
Proof.
  rewrite map_map. simpl. rewrite <- (enumerate_snd start l) at 2.
  reflexivity.
Qed.

Lemma ranked_payload_nth (start i : nat) (l : list RoutesLeaderboardService.entry)
    (e : RoutesLeaderboardService.ranked_entry) :
  nth_error (List.map RoutesLeaderboardService.add_rank (enumerate start l)) i = Some e ->
  RoutesLeaderboardService.rank e = Z.of_nat (start + i)
  /\ nth_error l i = Some (RoutesLeaderboardService.fields e).
Proof.
  rewrite nth_error_map.
  destruct (nth_error (enumerate start l) i) as [p|] eqn:Hp; [|discriminate].
  intros [= <-]. apply enumerate_nth in Hp as [Hf Hs]. simpl.
  now rewrite Hf.
Qed.

(** The builder of routes/leaderboard_service.py does what the
    specification says of the full leaderboard. *)
Lemma routes_build_leaderboard_payload_spec (db : DB) (quiz_id : Z) :
  let payload := RoutesLeaderboardService.build_leaderboard_payload db quiz_id in
  let answers := answers_of_quiz db quiz_id in
  let entries := List.map RoutesLeaderboardService.fields payload in
  (forall quiz, get_quiz db quiz_id = Some quiz ->
                truthy_flag (Quiz.show_leaderboard_global quiz) = false ->
                payload = [])
  /\ (forall quiz,
         get_quiz db quiz_id = Some quiz ->
         truthy_flag (Quiz.show_leaderboard_global quiz) = true ->
         (* one entry per participant *)
         List.NoDup (List.map RoutesLeaderboardService.name entries)
         /\ (forall s, In s (List.map RoutesLeaderboardService.name entries)
                       <-> exists a, In a answers /\ PartialAnswer.student a = s)
         (* holding the sums over that participant's answers *)
         /\ (forall e, In e entries ->
               let rows := group_of (RoutesLeaderboardService.name e) answers in
               RoutesLeaderboardService.points e
               = sum_Q (List.map PartialAnswer.points rows)
               /\ RoutesLeaderboardService.correct e
                  = count_Z PartialAnswer.is_correct rows
               /\ RoutesLeaderboardService.time e
                  = sum_Z (List.map PartialAnswer.time_taken rows))
         (* in the order of the sort key *)
         /\ StronglySorted Spec.ranks_before entries
         (* with the position as rank *)
         /\ (forall i e, nth_error payload i = Some e ->
                         RoutesLeaderboardService.rank e = Z.of_nat i + 1)
         (* so the faster of two tied participants has the smaller rank *)
         /\ (forall i j e1 e2,
               nth_error payload i = Some e1 -> nth_error payload j = Some e2 ->
               let x := RoutesLeaderboardService.fields e1 in
               let y := RoutesLeaderboardService.fields e2 in
               (RoutesLeaderboardService.points x == RoutesLeaderboardService.points y)%Q ->
               RoutesLeaderboardService.correct x = RoutesLeaderboardService.correct y ->
               RoutesLeaderboardService.time x < RoutesLeaderboardService.time y ->
               RoutesLeaderboardService.rank e1 < RoutesLeaderboardService.rank e2)).
Proof.
  intros payload answers entries.
  split.
  { intros quiz Hq Hflag. subst payload.
    unfold RoutesLeaderboardService.build_leaderboard_payload.
    now rewrite Hq, Hflag. }
  intros quiz Hq Hflag.
  set (total := Z.of_nat (length (questions_of db quiz_id))).
  set (groups := List.map (RoutesLeaderboardService.aggregate total answers)
                          (distinct (List.map PartialAnswer.student answers))).
  assert (Hpayload : payload = List.map RoutesLeaderboardService.add_rank
                                 (enumerate 1 (sort_by RoutesLeaderboardService.key_leb groups))).
  { subst payload. unfold RoutesLeaderboardService.build_leaderboard_payload.
    now rewrite Hq, Hflag. }
  assert (Hentries : entries = sort_by RoutesLeaderboardService.key_leb groups).
  { subst entries. rewrite Hpayload. apply ranked_payload_fields. }
  assert (Hperm : Permutation entries groups)
    by (rewrite Hentries; apply sort_by_perm).
  assert (Hnames : List.map RoutesLeaderboardService.name groups
                   = distinct (List.map PartialAnswer.student answers)).
  { subst groups. rewrite map_map. simpl. apply map_id. }
  assert (Hsorted : StronglySorted Spec.ranks_before entries).
  { rewrite Hentries.
    eapply strongly_sorted_impl;
      [|apply sort_by_strongly_sorted; [apply key_leb_total | apply key_leb_trans]].
    intros x y. apply key_leb_spec. }
  assert (Hrank : forall i e, nth_error payload i = Some e ->
                    RoutesLeaderboardService.rank e = Z.of_nat i + 1
                    /\ nth_error entries i = Some (RoutesLeaderboardService.fields e)).
  { intros i e Hi. rewrite Hpayload in Hi. apply ranked_payload_nth in Hi as [Hr Hn].
    rewrite Hentries. split; [rewrite Hr; lia | assumption]. }
  repeat split.
  - eapply Permutation_NoDup;
      [apply Permutation_map, Permutation_sym, Hperm|].
    rewrite Hnames. apply distinct_NoDup.
  - intros Hin.
    apply (Permutation_in _ (Permutation_map RoutesLeaderboardService.name Hperm)) in Hin.
    rewrite Hnames in Hin. apply distinct_In, in_map_iff in Hin as (a & Ha & Hin). eauto.
  - intros (a & Hin & Ha).
    apply (Permutation_in _ (Permutation_map RoutesLeaderboardService.name
                               (Permutation_sym Hperm))).
    rewrite Hnames. apply distinct_In, in_map_iff. eauto.
  - apply (Permutation_in _ Hperm) in H. subst groups.
    apply in_map_iff in H as (s & <- & _). reflexivity.
  - apply (Permutation_in _ Hperm) in H. subst groups.
    apply in_map_iff in H as (s & <- & _). reflexivity.
  - apply (Permutation_in _ Hperm) in H. subst groups.
    apply in_map_iff in H as (s & <- & _). reflexivity.
  - exact Hsorted.
  - intros i e Hi. now apply Hrank.
  - intros i j e1 e2 Hi Hj x y Hp Hc Ht.
    apply Hrank in Hi as [-> Hi]. apply Hrank in Hj as [-> Hj].
    destruct (Nat.lt_trichotomy i j) as [Hlt | [-> | Hgt]]; [lia | |].
    + rewrite Hi in Hj. injection Hj as Heq. subst x y. rewrite Heq in Ht. lia.
    + pose proof (strongly_sorted_nth _ _ Hsorted j i _ _ Hgt Hj Hi) as Hb.
      unfold Spec.ranks_before in Hb. subst x y.
      destruct Hb as [Hb | [_ [Hb | [_ Hb]]]]; [lra | lia | lia].
Qed.

(** The builder of app/services lists the participants in the order of the
    groups of the query, whatever their points. *)
Lemma services_payload_in_query_order (db : DB) (quiz_id : Z) :
  List.map LeaderboardService.student
    (LeaderboardService.build_leaderboard_payload db quiz_id)
  = distinct (List.map PartialAnswer.student (answers_of_quiz db quiz_id)).
Proof.
  unfold LeaderboardService.build_leaderboard_payload.
  rewrite map_map. simpl. apply map_id.
Qed.

(** C1 (divergence).  On the specification's scenario, A and B with 10 points
    and 3 correct answers each, A in 50 seconds and B in 40, the builder of
    app/services, the one the routes import, lists A before B and assigns no
    ranks, and it lists both also when the quiz's leaderboard flag is unset;
    the builder of app/routes ranks B first and returns the empty list for the
    unset flag. *)
Theorem services_leaderboard_unsorted :
  LeaderboardService.build_leaderboard_payload (Examples.tie_db (Some true)) 1
  = [ {| LeaderboardService.student := "alice"; LeaderboardService.points := 10;
         LeaderboardService.correct := 3; LeaderboardService.incorrect := 0;
         LeaderboardService.time := 50; LeaderboardService.total := 3 |};
      {| LeaderboardService.student := "bob"; LeaderboardService.points := 10;
         LeaderboardService.correct := 3; LeaderboardService.incorrect := 0;
         LeaderboardService.time := 40; LeaderboardService.total := 3 |} ]
  /\ List.map (fun e => (RoutesLeaderboardService.rank e,
                         RoutesLeaderboardService.name (RoutesLeaderboardService.fields e)))
       (RoutesLeaderboardService.build_leaderboard_payload (Examples.tie_db (Some true)) 1)
     = [ (1, "bob"); (2, "alice") ]
  /\ length (LeaderboardService.build_leaderboard_payload (Examples.tie_db None) 1) = 2%nat
  /\ RoutesLeaderboardService.build_leaderboard_payload (Examples.tie_db None) 1 = [].
Proof. repeat split; vm_compute; reflexivity. Qed.

(** ** Per-question leaderboard *)

Lemma by_time_then_submitted_spec (a b : PartialAnswer.row) :
  LeaderboardService.by_time_then_submitted a b = true <-> Spec.by_time_then_stamp a b.
Proof.
  unfold LeaderboardService.by_time_then_submitted, Spec.by_time_then_stamp.
  rewrite orb_true_iff, andb_true_iff, Z.ltb_lt, Z.eqb_eq, Z.leb_le. reflexivity.
Qed.

Lemma question_order_sorted (quiz : Quiz.row) (rows : list PartialAnswer.row) :
  StronglySorted (Spec.question_order quiz)
    (if Quiz.has_timer quiz
     then sort_by LeaderboardService.by_time_then_submitted rows
     else sort_by LeaderboardService.by_submitted rows).
Proof.
  unfold Spec.question_order. destruct (Quiz.has_timer quiz).
  - eapply strongly_sorted_impl; [|apply sort_by_strongly_sorted].
    + intros x y. apply by_time_then_submitted_spec.
    + intros x y. rewrite !by_time_then_submitted_spec.
      unfold Spec.by_time_then_stamp. lia.
    + intros x y z. rewrite !by_time_then_submitted_spec.
      unfold Spec.by_time_then_stamp. lia.
  - eapply strongly_sorted_impl; [|apply sort_by_strongly_sorted].
    + intros x y. unfold le_of, LeaderboardService.by_submitted, Spec.by_stamp.
      apply Z.leb_le.
    + intros x y. unfold LeaderboardService.by_submitted. rewrite !Z.leb_le. lia.
    + intros x y z. unfold LeaderboardService.by_submitted. rewrite !Z.leb_le. lia.
Qed.

Lemma question_entries_nth (rows : list PartialAnswer.row) (i : nat)
    (e : LeaderboardService.question_entry) :
  nth_error (List.map LeaderboardService.to_question_entry (enumerate 0 rows)) i = Some e ->
  exists a, nth_error rows i = Some a
            /\ LeaderboardService.rank e = Z.of_nat i + 1
            /\ LeaderboardService.q_student e = PartialAnswer.student a
            /\ LeaderboardService.q_time_taken e = PartialAnswer.time_taken a
            /\ LeaderboardService.q_points e = PartialAnswer.points a.
Proof.
  rewrite nth_error_map.
  destruct (nth_error (enumerate 0 rows) i) as [p|] eqn:Hp; [|discriminate].
  intros [= <-]. apply enumerate_nth in Hp as [Hf Hs].
  exists (snd p). simpl. rewrite Hf. repeat split; assumption.
Qed.

(** The per-question leaderboard of app/routes/leaderboard_service.py, which
    no module imports, has an entry for every answer to the question, correct
    or not, and no cap. *)
Lemma routes_question_leaderboard_lists_all (db : DB) (quiz_id question_id : Z)
    (quiz : Quiz.row) (question : Question.row) :
  get_quiz db quiz_id = Some quiz ->
  get_question db question_id = Some question ->
  truthy_flag (Quiz.show_leaderboard_global quiz) = true ->
  truthy_flag (Question.show_leaderboard question) = true ->
  length (RoutesLeaderboardService.get_question_leaderboard db quiz_id question_id)
  = length (List.filter
              (fun a => (PartialAnswer.quiz_id a =? quiz_id)
                        && (PartialAnswer.question_id a =? question_id))
              (partial_answers db)).
Proof.
  intros Hquiz Hquestion Hg Hq.
  unfold RoutesLeaderboardService.get_question_leaderboard.
  rewrite Hquiz, Hquestion, Hg, Hq. simpl.
  rewrite length_map. unfold enumerate.
  rewrite length_combine, length_seq, Nat.min_id. apply sort_by_length.
Qed.

(** C9, as amended.  The per-question leaderboard the API returns is empty
    when the quiz-global or the per-question flag is unset; otherwise its
    entries are the first ten correct answers of the question, each with its
    position as 1-based rank, in ascending order of time taken and then of
    submission timestamp when the quiz has per-question timing, and in
    ascending order of submission timestamp alone when it has not. *)
Theorem question_leaderboard_order :
  forall (db : DB) (quiz_id question_id : Z) (quiz : Quiz.row) (question : Question.row),
    get_quiz db quiz_id = Some quiz ->
    get_question db question_id = Some question ->
    let board := StudentApi.api_question_leaderboard db quiz_id question_id in
    (truthy_flag (Quiz.show_leaderboard_global quiz) = false
     \/ truthy_flag (Question.show_leaderboard question) = false ->
     board = [])
    /\ (truthy_flag (Quiz.show_leaderboard_global quiz) = true ->
        truthy_flag (Question.show_leaderboard question) = true ->
        exists ordered,
          Permutation ordered
            (List.filter (correct_for quiz_id question_id) (partial_answers db))
          /\ StronglySorted (Spec.question_order quiz) ordered
          /\ length board = Nat.min 10 (length ordered)
          /\ forall i e,
               nth_error board i = Some e ->
               exists a,
                 nth_error ordered i = Some a
                 /\ LeaderboardService.rank e = Z.of_nat i + 1
                 /\ LeaderboardService.q_student e = PartialAnswer.student a
                 /\ LeaderboardService.q_time_taken e = PartialAnswer.time_taken a
                 /\ LeaderboardService.q_points e = PartialAnswer.points a).
Proof.
  intros db quiz_id question_id quiz question Hquiz Hquestion board.
  subst board. unfold StudentApi.api_question_leaderboard, StudentApi.leaderboard_disabled.
  rewrite Hquiz, Hquestion. split.
  - intros [-> | ->]; [reflexivity|]. now rewrite orb_true_r.
  - intros -> ->. simpl.
    unfold LeaderboardService.get_question_leaderboard. rewrite Hquiz.
    set (correct := List.filter (correct_for quiz_id question_id) (partial_answers db)).
    set (ordered := if Quiz.has_timer quiz
                    then sort_by LeaderboardService.by_time_then_submitted correct
                    else sort_by LeaderboardService.by_submitted correct).
    assert (Hrows : LeaderboardService.question_answers quiz db quiz_id question_id
                    = firstn 10 ordered).
    { unfold LeaderboardService.question_answers, ordered. fold correct.
      destruct (Quiz.has_timer quiz); reflexivity. }
    rewrite Hrows. exists ordered. split; [|split; [|split]].
    + unfold ordered. destruct (Quiz.has_timer quiz); apply sort_by_perm.
    + apply question_order_sorted.
    + rewrite length_map. unfold enumerate.
      rewrite length_combine, length_seq, Nat.min_id. apply length_firstn.
    + intros i e Hi. apply question_entries_nth in Hi as (a & Ha & Hrest).
      exists a. split; [|exact Hrest].
      rewrite nth_error_firstn in Ha. destruct (i <? 10)%nat; [assumption | discriminate].
Qed.

(** C9 (counterexample).  In a quiz without per-question timing two correct
    answers are listed in the order of their submission although the second
    one took less time. *)
Lemma question_leaderboard_untimed_order :
  StudentApi.api_question_leaderboard (Examples.tie_db (Some true)) 1 1
  = [ {| LeaderboardService.rank := 1; LeaderboardService.q_student := "alice";
         LeaderboardService.q_time_taken := 20; LeaderboardService.q_points := 4 |};
      {| LeaderboardService.rank := 2; LeaderboardService.q_student := "bob";
         LeaderboardService.q_time_taken := 10; LeaderboardService.q_points := 4 |} ]
  /\ ~ Sorted (fun x y => LeaderboardService.q_time_taken x
                          <= LeaderboardService.q_time_taken y)
         (StudentApi.api_question_leaderboard (Examples.tie_db (Some true)) 1 1).
Proof.
  assert (Heval : StudentApi.api_question_leaderboard (Examples.tie_db (Some true)) 1 1
                  = [ {| LeaderboardService.rank := 1; LeaderboardService.q_student := "alice";
                         LeaderboardService.q_time_taken := 20;
                         LeaderboardService.q_points := 4 |};
                      {| LeaderboardService.rank := 2; LeaderboardService.q_student := "bob";
                         LeaderboardService.q_time_taken := 10;
                         LeaderboardService.q_points := 4 |} ])
    by (vm_compute; reflexivity).
  split; [exact Heval|]. rewrite Heval. intros Hs.
  inversion Hs as [|? ? _ Hhd]; subst. inversion Hhd as [|? ? Hle]; subst.
  simpl in Hle. lia.
Qed.

(** ** Overall timer *)

Lemma py_int_inject (x : Q) (n : Z) : (x == inject_Z n)%Q -> py_int x = n.
Proof.
  unfold Qeq, py_int. simpl. rewrite Z.mul_1_r. intros ->.
  apply Z.quot_mul. discriminate.
Qed.

(** The host view subtracts the paused seconds: with the timer running it
    shows [max(0, duration - int(now - start - paused))], which is the
    specification's value whenever the elapsed time is a whole number of
    seconds. *)
Lemma live_control_excludes_pause (quiz : Quiz.row) (quiz_state : gmap Z Session)
    (session : Session) (minutes : Z) (started now : Q) :
  Quiz.has_timer quiz = true -> Quiz.is_active quiz = true ->
  Quiz.overall_timer quiz = Some minutes -> 0 < minutes ->
  quiz_state !! Quiz.id quiz = Some session ->
  overall_started_at session = Some started -> ~ (started == 0)%Q ->
  let elapsed := (now - started - inject_Z (Quiz.paused_seconds quiz))%Q in
  Timer.live_control quiz quiz_state now
  = (py_int elapsed, Z.max 0 (minutes * 60 - py_int elapsed))
  /\ forall n, (elapsed == inject_Z n)%Q ->
       (inject_Z (snd (Timer.live_control quiz quiz_state now))
        == Timer.expected_remaining (minutes * 60) now started
             (Quiz.paused_seconds quiz))%Q.
Proof.
  intros Ht Ha Hm Hpos Hs Hst Hnz elapsed.
  assert (Heval : Timer.live_control quiz quiz_state now
                  = (py_int elapsed, Z.max 0 (minutes * 60 - py_int elapsed))).
  { unfold Timer.live_control. rewrite Hs, Hm, Ht, Ha, Hst. simpl.
    replace (minutes =? 0) with false by (symmetry; apply Z.eqb_neq; lia).
    replace (0 <? minutes) with true by (symmetry; apply Z.ltb_lt; lia).
    simpl. destruct (Qeq_bool started 0) eqn:Hz; [|reflexivity].
    apply Qeq_bool_iff in Hz. contradiction. }
  split; [exact Heval|]. intros n Hn. rewrite Heval. simpl.
  rewrite (py_int_inject elapsed n Hn). unfold Timer.expected_remaining.
  fold elapsed. rewrite Hn.
  assert (Hsub : (inject_Z (minutes * 60) - inject_Z n == inject_Z (minutes * 60 - n))%Q)
    by (unfold Z.sub; rewrite inject_Z_plus, inject_Z_opp; ring).
  rewrite Hsub.
  destruct (Z.max_spec 0 (minutes * 60 - n)) as [[Hlt ->] | [Hge ->]].
  - rewrite Q.max_r; [reflexivity|].
    change 0%Q with (inject_Z 0). rewrite <- Zle_Qle. lia.
  - rewrite Q.max_l; [reflexivity|].
    change 0%Q with (inject_Z 0). rewrite <- Zle_Qle. lia.
Qed.

(** The participant view reads the timer fields and the start only: what it
    reports does not depend on the paused seconds. *)
Lemma participant_view_ignores_pause (quiz quiz' : Quiz.row)
    (quiz_state : gmap Z Session) (now : Q) :
  Quiz.id quiz' = Quiz.id quiz ->
  Quiz.has_timer quiz' = Quiz.has_timer quiz ->
  Quiz.overall_timer quiz' = Quiz.overall_timer quiz ->
  Timer.attempt_quiz quiz' quiz_state now = Timer.attempt_quiz quiz quiz_state now.
Proof.
  intros Hid Ht Hm. unfold Timer.attempt_quiz. now rewrite Hid, Ht, Hm.
Qed.

(** C2 (divergence).  In the specification's scenario, a 60-second timer,
    30 seconds paused, 50 seconds after the start, the host view reports the
    40 seconds the specification asks for, and the participant view, which
    does not subtract the paused seconds, reports 10. *)
Theorem participant_timer_counts_pause :
  Timer.live_control Examples.timed_quiz Examples.timed_state 1050%Q = (20, 40)
  /\ Timer.attempt_quiz Examples.timed_quiz Examples.timed_state 1050%Q = Some 10
  /\ (Timer.expected_remaining 60 1050 1000 30 == 40)%Q.
Proof. repeat split; vm_compute; reflexivity. Qed.

(** ** Advancing the question *)

(** One "next" handled by app/sockets/quiz_events.py: at or past the last
    index it emits "quiz_finished" and keeps the index, before it moves on by
    one and announces the new index. *)
Lemma quiz_events_next (db : DB) (quiz_id : Z) (quiz_state : gmap Z Session) :
  let n := Z.of_nat (length (questions_of db quiz_id)) in
  let idx := qindex_of quiz_id quiz_state in
  let result := QuizEvents.admin_next_question db quiz_id quiz_state in
  (n - 1 <= idx ->
   snd result = [ {| event := "quiz_finished"; payload := []; room := pretty quiz_id |} ]
   /\ qindex_of quiz_id (fst result) = idx)
  /\ (idx < n - 1 ->
      snd result = [ {| event := "load_next_question";
                        payload := [("qindex", idx + 1); ("quiz_id", quiz_id)];
                        room := pretty quiz_id |} ]
      /\ qindex_of quiz_id (fst result) = idx + 1).
Proof.
  intros n idx result. subst n idx result.
  unfold QuizEvents.admin_next_question, qindex_of.
  destruct (quiz_state !! quiz_id) as [session|] eqn:Hs.
  - destruct (Z.leb_spec (Z.of_nat (length (questions_of db quiz_id)) - 1)
                         (current_qindex session)) as [Hle | Hlt]; simpl.
    + split; [|lia]. intros _. now rewrite Hs.
    + split; [lia|]. intros _. now rewrite lookup_insert_eq.
  - change (current_qindex fresh_session) with 0.
    destruct (Z.leb_spec (Z.of_nat (length (questions_of db quiz_id)) - 1) 0)
      as [Hle | Hlt]; simpl.
    + split; [|lia]. intros _. now rewrite lookup_insert_eq.
    + split; [lia|]. intros _. now rewrite lookup_insert_eq.
Qed.

(** Whatever the host presses, that handler never announces an index outside
    the questions, and the index never leaves them. *)
Lemma quiz_events_index_in_range (db : DB) (quiz_id : Z) (presses : nat) :
  let n := Z.of_nat (length (questions_of db quiz_id)) in
  forall quiz_state : gmap Z Session,
    0 <= qindex_of quiz_id quiz_state < n ->
    let result := QuizEvents.advance_many db quiz_id presses quiz_state in
    0 <= qindex_of quiz_id (fst result) < n
    /\ Forall (fun e => forall q, announced_qindex e = Some q -> 0 <= q < n)
              (snd result).
Proof.
  intros n. induction presses as [|presses IH]; intros quiz_state Hrange; simpl.
  - split; [assumption | constructor].
  - pose proof (quiz_events_next db quiz_id quiz_state) as Hnext. simpl in Hnext.
    fold n in Hnext.
    destruct (QuizEvents.admin_next_question db quiz_id quiz_state)
      as [quiz_state1 emitted] eqn:Hone.
    simpl in Hnext. destruct Hnext as [Hlast Hmove].
    assert (Hstep : 0 <= qindex_of quiz_id quiz_state1 < n
                    /\ Forall (fun e => forall q, announced_qindex e = Some q
                                                  -> 0 <= q < n) emitted).
    { destruct (Z.le_gt_cases (n - 1) (qindex_of quiz_id quiz_state)) as [Hle | Hlt].
      - destruct (Hlast Hle) as [-> ->]. split; [assumption|].
        constructor; [|constructor]. intros q' Hq'. discriminate Hq'.
      - destruct (Hmove ltac:(lia)) as [-> ->]. split; [lia|].
        constructor; [|constructor]. intros q' Hq'.
        injection Hq' as <-. lia. }
    destruct Hstep as [Hrange1 Hemitted].
    specialize (IH quiz_state1 Hrange1).
    destruct (QuizEvents.advance_many db quiz_id presses quiz_state1)
      as [quiz_state2 later].
    simpl in IH |- *. destruct IH as [Hrange2 Hlater].
    split; [assumption|]. apply Forall_app. now split.
Qed.

(** The handler of routes/admin.py moves every live session on by one and
    announces the new index, however many questions the quiz has. *)
Lemma admin_handler_unbounded (quiz_id : Z) (quiz_state : gmap Z Session)
    (session : Session) :
  quiz_state !! quiz_id = Some session ->
  let result := Admin.handle_admin_next_question quiz_id quiz_state in
  qindex_of quiz_id (fst result) = current_qindex session + 1
  /\ List.map announced_qindex (snd result) = [Some (current_qindex session + 1)].
Proof.
  intros Hs. unfold Admin.handle_admin_next_question, qindex_of. rewrite Hs. simpl.
  now rewrite lookup_insert_eq.
Qed.


(** * The theorems at concrete inputs *)

Lemma tie_answers_unique : unique_ids Examples.tie_answers.
Proof.
  unfold unique_ids. simpl.
  repeat (constructor; [simpl; intuition discriminate|]). constructor.
Defined.







(** C9 at question 1 of the tie scenario. *)
Lemma question_leaderboard_order_witness :
  get_quiz (Examples.tie_db (Some true)) 1 = Some (Examples.open_quiz (Some true))
  /\ get_question (Examples.tie_db (Some true)) 1 = Some (Examples.choice_question 1)
  /\ (truthy_flag (Quiz.show_leaderboard_global (Examples.open_quiz (Some true))) = false
      \/ truthy_flag (Question.show_leaderboard (Examples.choice_question 1)) = false ->
      StudentApi.api_question_leaderboard (Examples.tie_db (Some true)) 1 1 = []).
Proof.
  split; [reflexivity|]. split; [reflexivity|].
  exact (proj1 (question_leaderboard_order (Examples.tie_db (Some true)) 1 1
                  (Examples.open_quiz (Some true)) (Examples.choice_question 1)
                  eq_refl eq_refl)).
Defined.




(** * Further properties *)

(** ** Speed scoring *)

Lemma speed_multiplier_antitone (r1 r2 : Q) :
  (r1 <= r2)%Q -> (speed_multiplier r2 <= speed_multiplier r1)%Q.
Proof.
  intros Hle. unfold speed_multiplier.
  destruct (Qle_bool r2 0.3) eqn:H23.
  { apply Qle_bool_iff in H23.
    assert (H13 : Qle_bool r1 0.3 = true) by (apply Qle_bool_iff; lra).
    rewrite H13. lra. }
  destruct (Qle_bool r1 0.3); [destruct (Qle_bool r2 0.6), (Qle_bool r2 0.9); lra|].
  destruct (Qle_bool r2 0.6) eqn:H26.
  { apply Qle_bool_iff in H26.
    assert (H16 : Qle_bool r1 0.6 = true) by (apply Qle_bool_iff; lra).
    rewrite H16. lra. }
  destruct (Qle_bool r1 0.6); [destruct (Qle_bool r2 0.9); lra|].
  destruct (Qle_bool r2 0.9) eqn:H29.
  { apply Qle_bool_iff in H29.
    assert (H19 : Qle_bool r1 0.9 = true) by (apply Qle_bool_iff; lra).
    rewrite H19. lra. }
  destruct (Qle_bool r1 0.9); lra.
Qed.

Lemma speed_multiplier_bounds (r : Q) :
  (0.8 <= speed_multiplier r <= 1.5)%Q.
Proof.
  destruct (speed_multiplier_values r) as [-> | [-> | [-> | ->]]]; lra.
Qed.

Lemma Qmult_le_l_weak (a x y : Q) : (0 <= a)%Q -> (x <= y)%Q -> (a * x <= a * y)%Q.
Proof.
  intros Ha Hxy. rewrite (Qmult_comm a x), (Qmult_comm a y).
  now apply Qmult_le_compat_r.
Qed.

(** X1.  For a question whose base points are not negative, a correct answer
    that took less time never scores less than a slower one, and every
    correct answer scores between 0.8 and 1.5 times the base points; an
    incorrect answer scores 0 whatever the time. *)
Theorem faster_answer_scores_no_less :
  forall (question : Question.row) (quiz : Quiz.row) (t1 t2 : Z),
    (0 <= base_points question)%Q ->
    t1 <= t2 ->
    (calculate_question_points question true t2 quiz
     <= calculate_question_points question true t1 quiz)%Q
    /\ (0.8 * base_points question
        <= calculate_question_points question true t1 quiz
        <= 1.5 * base_points question)%Q
    /\ calculate_question_points question false t1 quiz = 0%Q.
Proof.
  intros question quiz t1 t2 Hbase Ht.
  unfold calculate_question_points. simpl negb. cbv iota.
  split; [|split; [|reflexivity]].
  - destruct (timed _ _) as [limit|] eqn:Htimed; [|lra].
    assert (Hpos : 0 < limit).
    { unfold timed in Htimed. destruct (Question.time_limit question) as [l|];
        [|discriminate].
      destruct (Quiz.has_timer quiz && truthy_int (Some l) && (0 <? l)) eqn:Hc;
        [|discriminate].
      injection Htimed as <-. apply andb_true_iff in Hc as [_ Hc].
      now apply Z.ltb_lt. }
    apply Qmult_le_l_weak; [exact Hbase|]. apply speed_multiplier_antitone.
    unfold Qdiv. apply Qmult_le_compat_r.
    + now rewrite <- Zle_Qle.
    + apply Qinv_le_0_compat. change 0%Q with (inject_Z 0). rewrite <- Zle_Qle. lia.
  - destruct (timed _ _) as [limit|]; [|lra].
    pose proof (speed_multiplier_bounds (inject_Z t1 / inject_Z limit)) as [Hlo Hhi].
    split.
    + rewrite (Qmult_comm 0.8). apply Qmult_le_l_weak; assumption.
    + rewrite (Qmult_comm 1.5). apply Qmult_le_l_weak; assumption.
Qed.

(** ** The bonus an invocation of the awarder hands out *)

Lemma total_points_award_absent (pk : Z) (b : Q) (table : list PartialAnswer.row) :
  ~ In pk (List.map PartialAnswer.id table) ->
  List.map (fun a => if PartialAnswer.id a =? pk then PartialAnswer.add_bonus b a else a)
           table = table.
Proof.
  induction table as [|a table IH]; simpl; intros Hnot; [reflexivity|].
  destruct (Z.eqb_spec (PartialAnswer.id a) pk) as [Heq | Hne].
  - exfalso. apply Hnot. now left.
  - rewrite IH; [reflexivity|]. intros Hin. apply Hnot. now right.
Qed.

Lemma total_points_award (pk : Z) (b : Q) (table : list PartialAnswer.row) :
  unique_ids table ->
  In pk (List.map PartialAnswer.id table) ->
  (total_points_of
     (List.map (fun a => if PartialAnswer.id a =? pk then PartialAnswer.add_bonus b a else a)
               table)
   == total_points_of table + b)%Q.
Proof.
  unfold unique_ids, total_points_of.
  induction table as [|a table IH]; simpl; intros Hnd Hin; [contradiction|].
  apply List.NoDup_cons_iff in Hnd as [Hnot Hnd].
  destruct (Z.eqb_spec (PartialAnswer.id a) pk) as [Heq | Hne].
  - rewrite total_points_award_absent by (rewrite <- Heq; exact Hnot).
    simpl. ring.
  - destruct Hin as [Heq | Hin]; [contradiction|].
    rewrite (IH Hnd Hin). ring.
Qed.

Lemma award_ids (table : list PartialAnswer.row) (r : nat * PartialAnswer.row) :
  List.map PartialAnswer.id (ScoringService.award table r)
  = List.map PartialAnswer.id table.
Proof.
  destruct r as [idx t]. unfold ScoringService.award. rewrite map_map.
  apply map_ext. intros a. now destruct (_ =? _).
Qed.

(** The loop of the awarder adds up the bonuses of the rows it ranks. *)
Lemma fold_award_total (ranked : list (nat * PartialAnswer.row))
    (table : list PartialAnswer.row) :
  unique_ids table ->
  (forall r, In r ranked ->
             In (PartialAnswer.id (snd r)) (List.map PartialAnswer.id table)) ->
  (total_points_of (fold_left ScoringService.award ranked table)
   == total_points_of table
      + sum_Q (List.map (fun r => nth (fst r) ScoringService.bonus_points 0%Q) ranked))%Q.
Proof.
  revert table. induction ranked as [|[idx t] ranked IH]; intros table Hnd Hin.
  - simpl. ring.
  - change (fold_left ScoringService.award ((idx, t) :: ranked) table)
      with (fold_left ScoringService.award ranked (ScoringService.award table (idx, t))).
    rewrite IH.
    + assert (Hone : (total_points_of (ScoringService.award table (idx, t))
                      == total_points_of table
                         + nth idx ScoringService.bonus_points 0%Q)%Q).
      { unfold ScoringService.award. apply total_points_award; [exact Hnd|].
        apply (Hin (idx, t)). now left. }
      rewrite Hone. simpl List.map. unfold sum_Q at 2. simpl fold_right.
      rewrite <- Qplus_assoc. reflexivity.
    + unfold unique_ids. rewrite award_ids. exact Hnd.
    + intros r Hr. rewrite award_ids. apply Hin. now right.
Qed.

(** One invocation of the awarder adds the bonuses of the ranks that exist. *)
Lemma update_question_rank_bonuses_total (quiz_id question_id : Z)
    (table : list PartialAnswer.row) :
  unique_ids table ->
  (total_points_of (ScoringService.update_question_rank_bonuses quiz_id question_id table)
   == total_points_of table
      + bonus_total (length (List.filter (correct_for quiz_id question_id) table)))%Q.
Proof.
  intros Hnd.
  set (ranked := ScoringService.correct_answers_by_time quiz_id question_id table).
  assert (Hlen : length ranked
                 = length (List.filter (correct_for quiz_id question_id) table))
    by (apply sort_by_length).
  unfold ScoringService.update_question_rank_bonuses. fold ranked.
  rewrite fold_award_total; [|exact Hnd|].
  - apply Qplus_comp; [reflexivity|]. rewrite <- Hlen.
    unfold bonus_total, enumerate.
    destruct ranked as [|a [|b [|c rest]]]; simpl; try reflexivity.
    destruct rest; reflexivity.
  - intros r Hr. apply in_map.
    assert (Htop : In (snd r) (firstn 3 ranked)).
    { rewrite <- (enumerate_snd 0 (firstn 3 ranked)). now apply in_map. }
    assert (Hranked : In (snd r) ranked).
    { rewrite <- (firstn_skipn 3 ranked). apply in_or_app. now left. }
    now apply (ranked_in_table quiz_id question_id table) in Hranked.
Qed.


(** X2.  One invocation of the awarder raises the sum of the points stored in
    the table by exactly the bonuses of the ranks that exist: 3 for one
    correct answer to the question, 5 for two, 6 for three or more, and
    nothing when no answer is correct. *)
Theorem rank_bonus_total :
  forall (quiz_id question_id : Z) (table : list PartialAnswer.row),
    unique_ids table ->
    let correct := List.filter (correct_for quiz_id question_id) table in
    (total_points_of (ScoringService.update_question_rank_bonuses quiz_id question_id table)
     == total_points_of table + bonus_total (length correct))%Q
    /\ (correct = [] ->
        ScoringService.update_question_rank_bonuses quiz_id question_id table = table)
    /\ ((3 <= length correct)%nat -> (bonus_total (length correct) == 6)%Q).
Proof.
  intros quiz_id question_id table Hnd correct.
  split; [|split].
  - now apply update_question_rank_bonuses_total.
  - intros Hnone. unfold ScoringService.update_question_rank_bonuses,
      ScoringService.correct_answers_by_time. fold correct. now rewrite Hnone.
  - intros Hthree. unfold bonus_total.
    destruct (length correct) as [|[|[|n]]]; [lia | lia | lia |].
    simpl. destruct n; reflexivity.
Qed.

(** ** Requests the submission endpoint refuses, and the one it fails on *)

(** X3.  A submission that is refused (an admin, a missing, inactive,
    unpublished or paused quiz, a quiz without questions, a missing question)
    changes nothing in the store; in particular an admin is sent to the
    dashboard, a submission to an inactive quiz to the waiting room, and a
    submission to a paused quiz is told that the quiz is paused. *)
Theorem refused_submission_changes_nothing `{PyRuntime} :
  forall (db : DB) (quiz_id : Z) (form : Student.Submission),
    let result := Student.attempt_quiz_post db quiz_id form in
    (match snd result with
     | Student.Json _ _ _ _ _ => True
     | Student.ServerError => True
     | _ => fst result = db
     end)
    /\ (Student.role form = "admin" -> result = (db, Student.RedirectAdminDashboard))
    /\ (forall quiz,
          Student.role form <> "admin" -> get_quiz db quiz_id = Some quiz ->
          (Quiz.is_active quiz = false -> result = (db, Student.RedirectWaitingRoom))
          /\ (Quiz.is_active quiz = true -> Quiz.is_published quiz = true ->
              Quiz.is_paused quiz = true ->
              result = (db, Student.QuizClosed "Quiz is paused."))).
Proof.
  intros db quiz_id form result. subst result.
  unfold Student.attempt_quiz_post. split; [|split].
  - destruct (String.eqb (Student.role form) "admin"); [reflexivity|].
    destruct (get_quiz db quiz_id) as [quiz|]; [|reflexivity].
    destruct (negb (Quiz.is_active quiz)); [reflexivity|].
    destruct (negb (Quiz.is_published quiz)); [reflexivity|].
    destruct (Quiz.is_paused quiz); [reflexivity|].
    destruct (questions_of db quiz_id); [reflexivity|].
    destruct (get_question db (Student.question_id form)); [|reflexivity].
    destruct (check_answer_correctness _ _); [|exact I].
    destruct (_ <=? _); exact I.
  - intros ->. reflexivity.
  - intros quiz Hrole Hquiz. apply String.eqb_neq in Hrole. rewrite Hrole, Hquiz.
    split.
    + intros ->. reflexivity.
    + intros -> -> ->. reflexivity.
Qed.

(** X4.  When the validator raises on a submission that passed the guards,
    the request fails after the deletion was committed: the participant's
    prior answer to the question is gone, no new one is stored, and the
    Result table is as before.  The validator raises only on a question that
    is no checkbox question and whose correct answers cannot be iterated. *)
Theorem validator_exception_loses_prior_answer `{PyRuntime} :
  forall (db : DB) (quiz_id : Z) (form : Student.Submission)
         (quiz : Quiz.row) (question : Question.row),
    passes_guards db quiz_id form quiz question ->
    check_answer_correctness question (Student.selected_answer form) = None ->
    let result := Student.attempt_quiz_post db quiz_id form in
    snd result = Student.ServerError
    /\ answers_of quiz_id (Student.question_id form) (Student.student_name form)
         (partial_answers (fst result)) = []
    /\ List.filter
         (fun a => negb (Student.same_answer_key quiz_id (Student.question_id form)
                           (Student.student_name form) a))
         (partial_answers (fst result))
       = List.filter
           (fun a => negb (Student.same_answer_key quiz_id (Student.question_id form)
                             (Student.student_name form) a))
           (partial_answers db)
    /\ results (fst result) = results db
    /\ Question.question_type question <> "checkbox"
    /\ py_iter (get_correct_answers question) = None.
Proof.
  intros db quiz_id form quiz question
         (Hrole & Hquiz & Ha & Hp & Hpaused & Hqs & Hquestion) Hcheck result.
  assert (Hresult : result = (Student.delete_prior db quiz_id form, Student.ServerError)).
  { subst result. unfold Student.attempt_quiz_post.
    apply String.eqb_neq in Hrole. rewrite Hrole, Hquiz, Ha, Hp, Hpaused. simpl.
    destruct (questions_of db quiz_id); [contradiction|].
    now rewrite Hquestion, Hcheck. }
  rewrite Hresult. simpl fst. simpl snd.
  split; [reflexivity|]. split; [|split; [|split; [reflexivity|]]].
  - unfold answers_of, Student.delete_prior. simpl. apply filter_negb_filter.
  - unfold Student.delete_prior. simpl.
    apply (filter_idem
             (fun a => negb (Student.same_answer_key quiz_id (Student.question_id form)
                               (Student.student_name form) a))).
  - split.
    + intros Htype.
      destruct (checkbox_verdict question (Student.selected_answer form) Htype)
        as (b & Hb & _). congruence.
    + destruct (py_iter (get_correct_answers question)) as [correct|] eqn:Hiter;
        [|reflexivity].
      destruct (check_answer_correctness_total question (Student.selected_answer form)
                  correct Hiter) as [b Hb]. congruence.
Qed.

(** ** What an accepted submission does to the other answers *)

Lemma filter_map_fixed {A : Type} (p : A -> bool) (f : A -> A) (l : list A) :
  (forall a, In a l -> p (f a) = p a) ->
  (forall a, In a l -> p a = true -> f a = a) ->
  List.filter p (List.map f l) = List.filter p l.
Proof.
  induction l as [|a l IH]; simpl; intros Hp Hf; [reflexivity|].
  rewrite (Hp a) by now left.
  destruct (p a) eqn:Hpa.
  - rewrite (Hf a) by (auto; now left). f_equal. apply IH; auto.
  - apply IH; auto.
Qed.


Lemma correct_for_same (quiz_id question_id : Z) (a b : PartialAnswer.row) :
  same_but_points a b -> correct_for quiz_id question_id a = correct_for quiz_id question_id b.
Proof.
  intros (_ & Hq & Hqn & _ & Hc & _). unfold correct_for. now rewrite Hq, Hqn, Hc.
Qed.

(** The awarder leaves every row that is no correct answer to the question
    as it is. *)
Lemma awards_on_fixed (db : DB) (quiz_id : Z) (form : Student.Submission)
    (quiz : Quiz.row) (question : Question.row) (is_correct : bool)
    (a : PartialAnswer.row) :
  unique_ids (partial_answers db) ->
  In a (answers_before_award db quiz_id form quiz question is_correct) ->
  correct_for quiz_id (Student.question_id form) a = false ->
  awards_on (enumerate 0 (top_after db quiz_id form quiz question is_correct)) a = a.
Proof.
  intros Hnd Hin Hwrong.
  rewrite awards_on_enumerate
    by now apply unique_ids_top_after.
  rewrite rank_of_absent; [reflexivity|].
  intros Hid. apply in_map_iff in Hid as (b & Hb & Htop).
  assert (Hranked : In b (ScoringService.correct_answers_by_time quiz_id
                            (Student.question_id form)
                            (answers_before_award db quiz_id form quiz question is_correct))).
  { unfold top_after in Htop.
    rewrite <- (firstn_skipn 3 (ScoringService.correct_answers_by_time _ _ _)).
    apply in_or_app. now left. }
  apply ranked_in_table in Hranked as [Hb_in Hb_correct].
  assert (b = a).
  { apply (unique_ids_inj
             (answers_before_award db quiz_id form quiz question is_correct));
      [now apply unique_ids_before_award | exact Hb_in | exact Hin | exact Hb]. }
  subst b. congruence.
Qed.

(** X5.  An accepted submission leaves every answer that is neither a
    correct answer to the submitted question nor the participant's own prior
    answer to it exactly as it was, points included, and in the stored
    order; quizzes and questions are not written. *)
Theorem submission_leaves_other_answers `{PyRuntime} :
  forall (db db' : DB) (quiz_id : Z) (form : Student.Submission)
         (ic : bool) (ca : string) (sc : bool) (nq : option Z) (sl : option bool),
    unique_ids (partial_answers db) ->
    Student.attempt_quiz_post db quiz_id form = (db', Student.Json ic ca sc nq sl) ->
    let untouched (a : PartialAnswer.row) :=
      negb (correct_for quiz_id (Student.question_id form) a)
      && negb (Student.same_answer_key quiz_id (Student.question_id form)
                 (Student.student_name form) a) in
    List.filter untouched (partial_answers db') = List.filter untouched (partial_answers db)
    /\ quizzes db' = quizzes db
    /\ questions db' = questions db.
Proof.
  intros db db' quiz_id form ic ca sc nq sl Hnd Hpost untouched.
  destruct (attempt_quiz_post_json db db' quiz_id form ic ca sc nq sl Hpost)
    as (quiz & question & Hquiz & Hquestion & Hcheck & Hanswers & Hdb).
  split.
  - rewrite Hanswers, answers_after_map.
    rewrite filter_map_fixed.
    + unfold answers_before_award. rewrite List.filter_app. simpl.
      assert (Hnew : untouched (submitted_row db quiz_id form quiz question ic) = false).
      { unfold untouched. rewrite key_submitted_row. apply andb_false_r. }
      rewrite Hnew, app_nil_r. unfold Student.delete_prior. simpl.
      clear. induction (partial_answers db) as [|a l IH]; simpl; [reflexivity|].
      unfold untouched at 2 4.
      destruct (Student.same_answer_key _ _ _ a) eqn:Hkey; simpl.
      * rewrite andb_false_r. exact IH.
      * unfold untouched at 1. rewrite Hkey. simpl. rewrite andb_true_r.
        destruct (negb (correct_for _ _ a)); [f_equal|]; exact IH.
    + intros a _. unfold untouched.
      rewrite (correct_for_same _ _ _ a (awards_on_same _ a)).
      now rewrite (same_answer_key_same _ _ _ _ a (awards_on_same _ a)).
    + intros a Hin Hun. apply awards_on_fixed; [exact Hnd | exact Hin |].
      unfold untouched in Hun. apply andb_true_iff in Hun as [Hun _].
      now apply negb_true_iff in Hun.
  - simpl in Hdb. destruct Hdb as [[_ ->] | [_ ->]].
    + unfold Student.complete_quiz. destruct (List.find _ _); split; reflexivity.
    + split; reflexivity.
Qed.


(** ** The further properties at concrete inputs *)

(** X1 at answers given after 3 and after 7 of 10 seconds to a 2-point question. *)
Lemma faster_answer_scores_no_less_witness :
  (calculate_question_points Examples.timed_question true 7 Examples.timed_quiz
   <= calculate_question_points Examples.timed_question true 3 Examples.timed_quiz)%Q.
Proof.
  refine (proj1 (faster_answer_scores_no_less Examples.timed_question Examples.timed_quiz
                   3 7 _ _)).
  - vm_compute. discriminate.
  - lia.
Defined.

(** X2 at question 1 of the tie scenario, which has two correct answers. *)
Lemma rank_bonus_total_witness :
  (total_points_of (ScoringService.update_question_rank_bonuses 1 1 Examples.tie_answers)
   == total_points_of Examples.tie_answers + 5)%Q.
Proof.
  exact (proj1 (rank_bonus_total 1 1 Examples.tie_answers tie_answers_unique)).
Defined.

Lemma scalar_guards :
  passes_guards Scenarios.scalar_db 1 (Examples.submission "2" 5 100)
    (Examples.open_quiz (Some true)) Scenarios.scalar_question.
Proof.
  unfold passes_guards. repeat split; try reflexivity; discriminate.
Defined.

(** X4 at a second submission to a question whose correct answers are the
    JSON number 2. *)
Lemma validator_exception_loses_prior_answer_witness :
  answers_of 1 1 "alice" (partial_answers Scenarios.scalar_db)
  = [Examples.answer 1 1 "alice" true 5 1 50]
  /\ snd (@Student.attempt_quiz_post Examples.sample_runtime
            Scenarios.scalar_db 1 (Examples.submission "2" 5 100))
     = Student.ServerError
  /\ answers_of 1 1 "alice"
       (partial_answers
          (fst (@Student.attempt_quiz_post Examples.sample_runtime
                  Scenarios.scalar_db 1 (Examples.submission "2" 5 100))))
     = [].
Proof.
  split; [reflexivity|].
  destruct (@validator_exception_loses_prior_answer Examples.sample_runtime
              Scenarios.scalar_db 1 (Examples.submission "2" 5 100)
              (Examples.open_quiz (Some true)) Scenarios.scalar_question
              scalar_guards eq_refl)
    as (Hreply & Hgone & _).
  split; assumption.
Defined.

Lemma answered_unique : unique_ids (partial_answers Scenarios.answered_db).
Proof.
  unfold unique_ids. simpl.
  repeat (constructor; [simpl; intuition discriminate|]). constructor.
Defined.

(** X5 at alice's answer to question 1: bob's answer to question 2 stays. *)
Lemma submission_leaves_other_answers_witness :
  List.filter
    (fun a => negb (correct_for 1 1 a) && negb (Student.same_answer_key 1 1 "alice" a))
    (partial_answers
       (fst (@Student.attempt_quiz_post Examples.sample_runtime
               Scenarios.answered_db 1 (Examples.submission "1" 5 100))))
  = [Examples.answer 2 2 "bob" false 9 0 60].
Proof.
  exact (proj1 (@submission_leaves_other_answers Examples.sample_runtime
                  Scenarios.answered_db _ 1 (Examples.submission "1" 5 100)
                  _ _ _ _ _ answered_unique eq_refl)).
Defined.


(** ** Leaderboard flag, statistics and integrity check *)

Lemma attempt_quiz_post_catalogue `{PyRuntime} (db : DB) (quiz_id : Z)
    (form : Student.Submission) :
  quizzes (fst (Student.attempt_quiz_post db quiz_id form)) = quizzes db
  /\ questions (fst (Student.attempt_quiz_post db quiz_id form)) = questions db.
Proof.
  unfold Student.attempt_quiz_post.
  destruct (String.eqb (Student.role form) "admin"); [now split|].
  destruct (get_quiz db quiz_id) as [quiz|]; [|now split].
  destruct (negb (Quiz.is_active quiz)); [now split|].
  destruct (negb (Quiz.is_published quiz)); [now split|].
  destruct (Quiz.is_paused quiz); [now split|].
  destruct (questions_of db quiz_id); [now split|].
  destruct (get_question db (Student.question_id form)); [|now split].
  destruct (check_answer_correctness _ _); [|now split].
  destruct (_ <=? _); [|now split].
  unfold Student.complete_quiz. destruct (List.find _ _); now split.
Qed.

(** X7.  The [show_leaderboard] field of the reply to an accepted submission
    is true exactly when the question-leaderboard API, asked right after,
    does not answer with the empty list of a disabled leaderboard. *)
Theorem reply_flag_agrees_with_api `{PyRuntime} :
  forall (db db' : DB) (quiz_id : Z) (form : Student.Submission)
         (ic : bool) (ca : string) (sc : bool) (nq : option Z) (sl : option bool),
    Student.attempt_quiz_post db quiz_id form = (db', Student.Json ic ca sc nq sl) ->
    (sl = Some true
     <-> StudentApi.leaderboard_disabled db' quiz_id (Student.question_id form) = false)
    /\ (sl <> Some true ->
        StudentApi.api_question_leaderboard db' quiz_id (Student.question_id form) = []).
Proof.
  intros db db' quiz_id form ic ca sc nq sl Hpost.
  pose proof (attempt_quiz_post_catalogue db quiz_id form) as [Hquizzes Hquestions].
  rewrite Hpost in Hquizzes, Hquestions. simpl in Hquizzes, Hquestions.
  assert (Hflag : exists quiz question,
             get_quiz db quiz_id = Some quiz
             /\ get_question db (Student.question_id form) = Some question
             /\ sl = Student.should_show_leaderboard quiz question).
  { revert Hpost. unfold Student.attempt_quiz_post.
    destruct (String.eqb (Student.role form) "admin"); [discriminate|].
    destruct (get_quiz db quiz_id) as [quiz|]; [|discriminate].
    destruct (negb (Quiz.is_active quiz)); [discriminate|].
    destruct (negb (Quiz.is_published quiz)); [discriminate|].
    destruct (Quiz.is_paused quiz); [discriminate|].
    destruct (questions_of db quiz_id); [discriminate|].
    destruct (get_question db (Student.question_id form)) as [question|]; [|discriminate].
    destruct (check_answer_correctness _ _); [|discriminate].
    destruct (_ <=? _); intros [= _ _ _ _ _ <-]; now exists quiz, question. }
  destruct Hflag as (quiz & question & Hquiz & Hquestion & ->).
  assert (Hiff : Student.should_show_leaderboard quiz question = Some true
                 <-> StudentApi.leaderboard_disabled db' quiz_id (Student.question_id form)
                     = false).
  { unfold StudentApi.leaderboard_disabled, get_quiz, get_question.
    rewrite Hquizzes, Hquestions. fold (get_quiz db quiz_id).
    fold (get_question db (Student.question_id form)). rewrite Hquiz, Hquestion.
    unfold Student.should_show_leaderboard.
    destruct (truthy_flag (Quiz.show_leaderboard_global quiz)); simpl.
    - destruct (Question.show_leaderboard question) as [[|]|]; simpl;
        split; congruence.
    - split; discriminate. }
  split; [exact Hiff|].
  intros Hoff. unfold StudentApi.api_question_leaderboard.
  destruct (StudentApi.leaderboard_disabled db' quiz_id (Student.question_id form));
    [reflexivity|].
  exfalso. apply Hoff. now apply Hiff.
Qed.

Lemma filter_filter_and {A : Type} (p q : A -> bool) (l : list A) :
  List.filter p (List.filter q l) = List.filter (fun a => q a && p a) l.
Proof.
  induction l as [|a l IH]; simpl; [reflexivity|].
  destruct (q a); simpl; [destruct (p a)|]; now rewrite IH.
Qed.

Lemma group_of_answers (db : DB) (quiz_id : Z) (s : string) :
  group_of s (answers_of_quiz db quiz_id)
  = List.filter (Student.same_participant quiz_id s) (partial_answers db).
Proof. unfold group_of, answers_of_quiz. apply filter_filter_and. Qed.

Lemma filter_partition_length {A : Type} (p : A -> bool) (l : list A) :
  (length (List.filter p l) + length (List.filter (fun a => negb (p a)) l))%nat
  = length l.
Proof.
  induction l as [|a l IH]; simpl; [reflexivity|].
  destruct (p a); simpl; lia.
Qed.

Lemma group_of_nonempty (s : string) (l : list PartialAnswer.row) :
  In s (List.map PartialAnswer.student l) <-> (0 < length (group_of s l))%nat.
Proof.
  unfold group_of. split.
  - intros Hin. apply in_map_iff in Hin as (a & <- & Hin).
    assert (Ha : In a (List.filter
                         (fun a0 => String.eqb (PartialAnswer.student a0)
                                      (PartialAnswer.student a)) l)).
    { apply filter_In. split; [exact Hin|]. apply String.eqb_refl. }
    destruct (List.filter _ l); [contradiction|simpl; lia].
  - intros Hlen.
    destruct (List.filter _ l) as [|a rest] eqn:Hf; [simpl in Hlen; lia|].
    assert (Ha : In a (List.filter
                         (fun a0 => String.eqb (PartialAnswer.student a0) s) l))
      by (rewrite Hf; now left).
    apply filter_In in Ha as [Ha Hs]. apply String.eqb_eq in Hs. subst s.
    now apply in_map.
Qed.

(** X8.  The overall leaderboard of the API and the participant's own
    statistics agree: the leaderboard has exactly one entry for every
    participant with at least one stored answer, and the entry shows the
    participant's correct count, a correct and an incorrect count that add
    up to the number of answers, and the whole part of the total points. *)
Theorem leaderboard_agrees_with_my_stats :
  forall (db : DB) (quiz_id : Z),
    let payload := LeaderboardService.build_leaderboard_payload db quiz_id in
    List.NoDup (List.map LeaderboardService.student payload)
    /\ (forall name,
          In name (List.map LeaderboardService.student payload)
          <-> 0 < StudentStats.total_answered (StudentStats.api_my_stats db quiz_id name))
    /\ (forall e,
          In e payload ->
          let s := StudentStats.api_my_stats db quiz_id (LeaderboardService.student e) in
          LeaderboardService.points e = py_int (StudentStats.total_points s)
          /\ LeaderboardService.correct e = StudentStats.correct_count s
          /\ LeaderboardService.correct e + LeaderboardService.incorrect e
             = StudentStats.total_answered s
          /\ LeaderboardService.total e = Z.of_nat (length (questions_of db quiz_id))).
Proof.
  intros db quiz_id payload.
  assert (Hnames : List.map LeaderboardService.student payload
                   = distinct (List.map PartialAnswer.student (answers_of_quiz db quiz_id))).
  { subst payload. unfold LeaderboardService.build_leaderboard_payload.
    rewrite map_map. simpl. apply map_id. }
  split; [|split].
  - rewrite Hnames. apply distinct_NoDup.
  - intros name. rewrite Hnames, distinct_In, group_of_nonempty, group_of_answers.
    unfold StudentStats.api_my_stats. simpl. lia.
  - intros e He. subst payload. unfold LeaderboardService.build_leaderboard_payload in He.
    apply in_map_iff in He as (s & <- & _). simpl.
    rewrite group_of_answers. unfold count_Z.
    repeat split.
    rewrite <- Nat2Z.inj_add. f_equal. apply filter_partition_length.
Qed.

Lemma indicator_sum (x : string) (names : list string) :
  List.NoDup names -> In x names ->
  sum_Z (List.map (fun s => if String.eqb x s then 1 else 0) names) = 1.
Proof.
  induction names as [|n names IH]; simpl; intros Hnd Hin; [contradiction|].
  apply List.NoDup_cons_iff in Hnd as [Hnot Hnd].
  destruct (String.eqb_spec x n) as [-> | Hne].
  - assert (Hzero : sum_Z (List.map (fun s => if String.eqb n s then 1 else 0) names) = 0).
    { clear IH Hnd Hin. induction names as [|m names IH]; simpl; [reflexivity|].
      destruct (String.eqb_spec n m) as [-> | _].
      - exfalso. apply Hnot. now left.
      - rewrite IH; [reflexivity|]. intros Hin. apply Hnot. now right. }
    unfold sum_Z in *. simpl. rewrite Hzero. reflexivity.
  - destruct Hin as [-> | Hin]; [contradiction|].
    unfold sum_Z in *. simpl. now rewrite IH.
Qed.

Lemma sum_Z_map_add {A : Type} (f g : A -> Z) (l : list A) :
  sum_Z (List.map (fun x => f x + g x) l) = sum_Z (List.map f l) + sum_Z (List.map g l).
Proof.
  unfold sum_Z. induction l as [|x l IH]; simpl; [reflexivity|]. rewrite IH. lia.
Qed.

(** The groups of a [GROUP BY student] partition the rows. *)
Lemma groups_partition (names : list string) (l : list PartialAnswer.row) :
  List.NoDup names ->
  (forall a, In a l -> In (PartialAnswer.student a) names) ->
  sum_Z (List.map (fun s => Z.of_nat (length (group_of s l))) names)
  = Z.of_nat (length l).
Proof.
  intros Hnd. induction l as [|a l IH]; intros Hall.
  - unfold group_of. simpl. induction names as [|n names IHn]; [reflexivity|].
    apply List.NoDup_cons_iff in Hnd as [_ Hnd]. unfold sum_Z in *. simpl.
    now rewrite IHn.
  - rewrite (map_ext _
               (fun s => (if String.eqb (PartialAnswer.student a) s then 1 else 0)
                         + Z.of_nat (length (group_of s l)))).
    + rewrite sum_Z_map_add, IH, indicator_sum.
      * simpl length. lia.
      * exact Hnd.
      * apply Hall. now left.
      * intros b Hb. apply Hall. now right.
    + intros s. unfold group_of. simpl.
      destruct (String.eqb (PartialAnswer.student a) s); simpl length; lia.
Qed.

Lemma count_Z_bounds {A : Type} (p : A -> bool) (l : list A) :
  0 <= count_Z p l <= Z.of_nat (length l).
Proof.
  unfold count_Z. pose proof (filter_partition_length p l). lia.
Qed.

(** X9.  In the participation statistics of a quiz the answered counts of
    the participants add up to the number of answers submitted, every listed
    participant has answered at least once, the participants are those of
    the leaderboard, and completed and in-progress participants are counted
    apart: both counts are non-negative and add up to the total. *)
Theorem participation_stats_partition :
  forall (db : DB) (quiz_id : Z),
    let stats := QuizDataUtils.get_quiz_participation_stats db quiz_id in
    sum_Z (List.map (fun sp => QuizDataUtils.answered (snd sp))
                    (QuizDataUtils.student_progress stats))
    = QuizDataUtils.total_answers_submitted stats
    /\ (forall sp, In sp (QuizDataUtils.student_progress stats) ->
                   1 <= QuizDataUtils.answered (snd sp))
    /\ Permutation
         (List.map fst (QuizDataUtils.student_progress stats))
         (List.map LeaderboardService.student
            (LeaderboardService.build_leaderboard_payload db quiz_id))
    /\ QuizDataUtils.total_students stats
       = Z.of_nat (length (QuizDataUtils.student_progress stats))
    /\ 0 <= QuizDataUtils.completed_students stats
    /\ 0 <= QuizDataUtils.in_progress_students stats
    /\ QuizDataUtils.completed_students stats + QuizDataUtils.in_progress_students stats
       = QuizDataUtils.total_students stats.
Proof.
  intros db quiz_id stats. subst stats.
  unfold QuizDataUtils.get_quiz_participation_stats. simpl.
  set (partials := answers_of_quiz db quiz_id).
  set (students := distinct (List.map PartialAnswer.student partials)).
  split; [|split; [|split; [|split; [|split; [|split]]]]].
  - rewrite map_map. simpl. apply groups_partition.
    + apply distinct_NoDup.
    + intros a Ha. apply distinct_In. now apply in_map.
  - intros sp Hsp. apply in_map_iff in Hsp as (s & <- & Hs). simpl.
    apply distinct_In, group_of_nonempty in Hs. lia.
  - rewrite map_map. simpl. rewrite map_id.
    unfold LeaderboardService.build_leaderboard_payload. rewrite map_map. simpl.
    now rewrite map_id.
  - now rewrite length_map.
  - apply count_Z_bounds.
  - match goal with |- 0 <= _ - count_Z ?p ?l =>
      pose proof (count_Z_bounds p l) as Hb; rewrite length_map in Hb end.
    fold students in Hb. lia.
  - lia.
Qed.

(** ** The integrity check after a submission *)





(** ** The simple leaderboard *)

(** [int] is monotone. *)
Lemma py_int_monotone (x y : Q) : (x <= y)%Q -> py_int x <= py_int y.
Proof.
  destruct x as [a b], y as [c d]. unfold Qle, py_int. simpl. intros Hle.
  assert (Hneg : forall (n : Z) (m : positive),
             n < 0 -> n ÷ Z.pos m = - ((- n) / Z.pos m)).
  { intros n m Hn. rewrite <- Z.quot_div_nonneg by lia.
    rewrite Z.quot_opp_l by lia. lia. }
  destruct (Z_lt_le_dec a 0) as [Ha | Ha], (Z_lt_le_dec c 0) as [Hc | Hc].
  - rewrite (Hneg a b Ha), (Hneg c d Hc). apply -> Z.opp_le_mono.
    apply Z.div_le_lower_bound; [lia|].
    pose proof (Z.mul_div_le (- c) (Z.pos d) ltac:(lia)) as Hfloor.
    nia.
  - transitivity 0.
    + rewrite (Hneg a b Ha).
      pose proof (Z.div_pos (- a) (Z.pos b) ltac:(lia) ltac:(lia)). lia.
    + apply Z.quot_pos; lia.
  - nia.
  - rewrite !Z.quot_div_nonneg by lia.
    apply Z.div_le_lower_bound; [lia|].
    pose proof (Z.mul_div_le a (Z.pos b) ltac:(lia)) as Hfloor.
    nia.
Qed.

Lemma by_score_desc_total (x y : string * Q) :
  LeaderboardData.by_score_desc x y = true \/ LeaderboardData.by_score_desc y x = true.
Proof.
  unfold LeaderboardData.by_score_desc. rewrite !Qle_bool_iff.
  destruct (Qlt_le_dec (snd x) (snd y)) as [Hlt | Hle]; [right | left]; lra.
Qed.

Lemma by_score_desc_trans (x y z : string * Q) :
  LeaderboardData.by_score_desc x y = true -> LeaderboardData.by_score_desc y z = true ->
  LeaderboardData.by_score_desc x z = true.
Proof.
  unfold LeaderboardData.by_score_desc. rewrite !Qle_bool_iff. lra.
Qed.

Lemma strongly_sorted_map {A B : Type} (R : A -> A -> Prop) (R' : B -> B -> Prop)
    (f : A -> B) (l : list A) :
  (forall x y, R x y -> R' (f x) (f y)) ->
  StronglySorted R l -> StronglySorted R' (List.map f l).
Proof.
  intros Hf. induction 1 as [|a l Hs IH Hall]; simpl; constructor; [exact IH|].
  rewrite List.Forall_forall in *. intros y Hy.
  apply in_map_iff in Hy as (x & <- & Hx). auto.
Qed.

(** X11.  The simple leaderboard lists every participant with a stored answer
    once, with the whole part of the participant's total points as score,
    and the scores never increase down the list. *)
Theorem leaderboard_data_sorted :
  forall (db : DB) (quiz_id : Z),
    let data := LeaderboardData.get_leaderboard_data db quiz_id in
    StronglySorted (fun x y => snd y <= snd x) data
    /\ Permutation (List.map fst data)
         (List.map LeaderboardService.student
            (LeaderboardService.build_leaderboard_payload db quiz_id))
    /\ (forall name score,
          In (name, score) data ->
          score = py_int (StudentStats.total_points
                            (StudentStats.api_my_stats db quiz_id name))).
Proof.
  intros db quiz_id data. subst data. unfold LeaderboardData.get_leaderboard_data.
  split; [|split].
  - apply (strongly_sorted_map (le_of LeaderboardData.by_score_desc)).
    + intros x y Hxy. simpl. apply py_int_monotone.
      now apply Qle_bool_iff in Hxy.
    + apply sort_by_strongly_sorted;
        [apply by_score_desc_total | apply by_score_desc_trans].
  - rewrite map_map. simpl.
    rewrite (Permutation_map fst (sort_by_perm LeaderboardData.by_score_desc _)).
    unfold LeaderboardData.score_rows, LeaderboardService.build_leaderboard_payload.
    rewrite !map_map. simpl. reflexivity.
  - intros name score Hin. apply in_map_iff in Hin as ([n q] & [= <- <-] & Hin).
    apply sort_by_In in Hin. unfold LeaderboardData.score_rows in Hin.
    apply in_map_iff in Hin as (s & [= <- <-] & _). simpl.
    now rewrite group_of_answers.
Qed.

(** ** The quiz lifecycle *)

Lemma world_get_quiz_some (w : World.t) (quiz_id : Z) (quiz : QuizFull.row) :
  World.get_quiz w quiz_id = Some quiz ->
  In quiz (World.quizzes w) /\ Quiz.id (QuizFull.base quiz) = quiz_id.
Proof.
  unfold World.get_quiz. intros Hfind. apply find_some in Hfind as [Hin Hid].
  apply Z.eqb_eq in Hid. now split.
Qed.

Lemma replace_quiz_ids (q' : QuizFull.row) (rows : list QuizFull.row) :
  List.map (fun q => Quiz.id (QuizFull.base q)) (World.replace_quiz q' rows)
  = List.map (fun q => Quiz.id (QuizFull.base q)) rows.
Proof.
  induction rows as [|r rows IH]; simpl; [reflexivity|].
  destruct (Z.eqb_spec (Quiz.id (QuizFull.base r)) (Quiz.id (QuizFull.base q'))) as [Heq | Hne];
    simpl; congruence.
Qed.

Lemma replace_quiz_In (q' : QuizFull.row) (rows : list QuizFull.row) (q : QuizFull.row) :
  List.NoDup (List.map (fun q => Quiz.id (QuizFull.base q)) rows) ->
  In q (World.replace_quiz q' rows) ->
  q = q' \/ (In q rows /\ Quiz.id (QuizFull.base q) <> Quiz.id (QuizFull.base q')).
Proof.
  induction rows as [|r rows IH]; simpl; intros Hnd Hin; [contradiction|].
  apply List.NoDup_cons_iff in Hnd as [Hnot Hnd].
  destruct (Z.eqb_spec (Quiz.id (QuizFull.base r)) (Quiz.id (QuizFull.base q'))) as [Heq | Hne].
  - destruct Hin as [<- | Hin]; [now left|]. right. split; [now right|].
    intros Hid. apply Hnot. rewrite Heq, <- Hid.
    now apply (in_map (fun q => Quiz.id (QuizFull.base q))).
  - destruct Hin as [<- | Hin]; [right; split; [now left | exact Hne]|].
    destruct (IH Hnd Hin) as [-> | [Hq Hid]]; [now left|].
    right. split; [now right | exact Hid].
Qed.

(** A request that rewrites one quiz row and the session of that quiz. *)
Lemma invariant_update (w w' : World.t) (quiz quiz' : QuizFull.row) :
  lifecycle_invariant w ->
  In quiz (World.quizzes w) ->
  World.quizzes w' = World.replace_quiz quiz' (World.quizzes w) ->
  Quiz.id (QuizFull.base quiz') = Quiz.id (QuizFull.base quiz) ->
  (Quiz.is_paused (QuizFull.base quiz') = true ->
   Quiz.is_active (QuizFull.base quiz') = true) ->
  (Quiz.is_active (QuizFull.base quiz') = true ->
   is_Some (World.quiz_state w' !! Quiz.id (QuizFull.base quiz))) ->
  (forall k, k <> Quiz.id (QuizFull.base quiz) ->
             World.quiz_state w' !! k = World.quiz_state w !! k) ->
  (forall s, World.quiz_state w' !! Quiz.id (QuizFull.base quiz) = Some s ->
             0 <= current_qindex s) ->
  lifecycle_invariant w'.
Proof.
  intros (Hnd & Hflags & Hidx) Hin Hquizzes Hid Hpaused Hactive Hothers Hsession.
  split; [|split].
  - unfold unique_quiz_ids. rewrite Hquizzes, replace_quiz_ids. exact Hnd.
  - intros q Hq. rewrite Hquizzes in Hq.
    destruct (replace_quiz_In quiz' (World.quizzes w) q Hnd Hq) as [-> | [Hq_in Hq_id]].
    + split; [exact Hpaused|]. rewrite Hid. exact Hactive.
    + destruct (Hflags q Hq_in) as [Hp Ha]. split; [exact Hp|].
      intros Hact. rewrite Hothers by congruence. now apply Ha.
  - intros k s Hk.
    destruct (Z.eq_dec k (Quiz.id (QuizFull.base quiz))) as [-> | Hne].
    + now apply Hsession.
    + rewrite Hothers in Hk by exact Hne. now apply (Hidx k).
Qed.

(** A request that writes sessions only, and drops none. *)
Lemma invariant_state (w w' : World.t) :
  lifecycle_invariant w ->
  World.quizzes w' = World.quizzes w ->
  (forall k, is_Some (World.quiz_state w !! k) -> is_Some (World.quiz_state w' !! k)) ->
  (forall k s, World.quiz_state w' !! k = Some s -> 0 <= current_qindex s) ->
  lifecycle_invariant w'.
Proof.
  intros (Hnd & Hflags & Hidx) Hquizzes Hkeys Hsession.
  split; [|split].
  - unfold unique_quiz_ids. now rewrite Hquizzes.
  - intros q Hq. rewrite Hquizzes in Hq. destruct (Hflags q Hq) as [Hp Ha].
    split; [exact Hp|]. intros Hact. now apply Hkeys, Ha.
  - exact Hsession.
Qed.

Lemma started_session_qindex (quiz : Quiz.row) (now1 now2 : Q) :
  current_qindex (AdminRoutes.started_session quiz now1 now2) = 0.
Proof.
  unfold AdminRoutes.started_session.
  destruct (Quiz.overall_timer quiz) as [minutes|]; [|reflexivity].
  now destruct (truthy_int (Some minutes) && (0 <? minutes)).
Qed.

Lemma nodup_filter_ids (p : QuizFull.row -> bool) (rows : list QuizFull.row) :
  List.NoDup (List.map (fun q => Quiz.id (QuizFull.base q)) rows) ->
  List.NoDup (List.map (fun q => Quiz.id (QuizFull.base q)) (List.filter p rows)).
Proof.
  induction rows as [|r rows IH]; simpl; intros Hnd; [constructor|].
  apply List.NoDup_cons_iff in Hnd as [Hnot Hnd].
  destruct (p r); simpl; [|now apply IH].
  constructor; [|now apply IH].
  intros Hin. apply Hnot. apply in_map_iff in Hin as (q & Hq & Hin).
  apply filter_In in Hin as [Hin _]. rewrite <- Hq.
  now apply (in_map (fun q => Quiz.id (QuizFull.base q))).
Qed.

Lemma lifecycle_step_invariant (w w' : World.t) :
  lifecycle_step w w' -> lifecycle_invariant w -> lifecycle_invariant w'.
Proof.
  intros Hstep Hinv.
  destruct Hstep as
    [ role w quiz_id | role code now1 now2 w quiz_id | role now w quiz_id
    | role now w quiz_id | role w quiz_id | role now1 now2 w quiz_id
    | role w quiz_id | role w quiz_id | now1 now2 now3 w quiz_id
    | w quiz_id | w quiz_id | w quiz_id | w w' Hstate Hnd Hrows ].
  - (* end_questions *)
    unfold AdminRoutes.end_questions, AdminRoutes.require_admin.
    destruct (String.eqb role "admin"); [|exact Hinv].
    destruct (World.get_quiz w quiz_id) as [quiz|] eqn:Hquiz; [|exact Hinv].
    apply world_get_quiz_some in Hquiz as [Hin Hid]. simpl.
    pose proof Hinv as (_ & Hflags & Hidx). destruct (Hflags quiz Hin) as [Hpa Hact].
    eapply (invariant_update w _ quiz _ Hinv Hin); simpl;
      try reflexivity; try discriminate.
    + exact Hpa.
    + exact Hact.
    + intros s Hs. exact (Hidx _ s Hs).
  - (* publish_quiz *)
    unfold AdminRoutes.publish_quiz, AdminRoutes.require_admin.
    destruct (String.eqb role "admin"); [|exact Hinv].
    destruct (World.get_quiz w quiz_id) as [quiz|] eqn:Hquiz; [|exact Hinv].
    destruct (negb (QuizFull.is_locked quiz)); [exact Hinv|].
    destruct (World.question_count w quiz_id =? 0); [exact Hinv|].
    apply world_get_quiz_some in Hquiz as [Hin Hid]. simpl.
    eapply (invariant_update w _ quiz _ Hinv Hin); simpl;
      try reflexivity; try discriminate.
    + intros k Hk. now rewrite lookup_insert_ne.
    + intros s. rewrite lookup_insert_eq. now intros [= <-].
  - (* pause_quiz *)
    unfold AdminRoutes.pause_quiz, AdminRoutes.require_admin.
    destruct (String.eqb role "admin"); [|exact Hinv].
    destruct (World.get_quiz w quiz_id) as [quiz|] eqn:Hquiz; [|exact Hinv].
    destruct (Quiz.is_active (QuizFull.base quiz) && negb (Quiz.is_paused (QuizFull.base quiz)))
      eqn:Hcond; [|exact Hinv].
    apply andb_true_iff in Hcond as [Hact _].
    apply world_get_quiz_some in Hquiz as [Hin Hid]. simpl.
    eapply (invariant_update w _ quiz _ Hinv Hin); simpl;
      try reflexivity; try discriminate.
    + intros _. exact Hact.
    + intros _. pose proof Hinv as (_ & Hflags & _). now apply (Hflags quiz Hin).
    + intros s Hs. destruct Hinv as (_ & _ & Hidx). exact (Hidx _ s Hs).
  - (* resume_quiz *)
    unfold AdminRoutes.resume_quiz, AdminRoutes.require_admin.
    destruct (String.eqb role "admin"); [|exact Hinv].
    destruct (World.get_quiz w quiz_id) as [quiz|] eqn:Hquiz; [|exact Hinv].
    destruct (Quiz.is_active (QuizFull.base quiz) && Quiz.is_paused (QuizFull.base quiz))
      eqn:Hcond; [|exact Hinv].
    destruct (QuizFull.paused_at quiz); [|exact Hinv].
    apply andb_true_iff in Hcond as [Hact _].
    apply world_get_quiz_some in Hquiz as [Hin Hid]. simpl.
    eapply (invariant_update w _ quiz _ Hinv Hin); simpl;
      try reflexivity; try discriminate.
    + intros _. pose proof Hinv as (_ & Hflags & _). now apply (Hflags quiz Hin).
    + intros s Hs. destruct Hinv as (_ & _ & Hidx). exact (Hidx _ s Hs).
  - (* stop_quiz *)
    unfold AdminRoutes.stop_quiz, AdminRoutes.require_admin.
    destruct (String.eqb role "admin"); [|exact Hinv].
    destruct (World.get_quiz w quiz_id) as [quiz|] eqn:Hquiz; [|exact Hinv].
    apply world_get_quiz_some in Hquiz as [Hin Hid]. simpl.
    eapply (invariant_update w _ quiz _ Hinv Hin); simpl;
      try reflexivity; try discriminate.
    + intros k Hk. rewrite lookup_delete_ne by congruence. reflexivity.
    + intros s. rewrite Hid, lookup_delete_eq. discriminate.
  - (* start_quiz *)
    unfold AdminRoutes.start_quiz, AdminRoutes.require_admin.
    destruct (String.eqb role "admin"); [|exact Hinv].
    destruct (World.get_quiz w quiz_id) as [quiz|] eqn:Hquiz; [|exact Hinv].
    destruct (negb (Quiz.is_published (QuizFull.base quiz))); [exact Hinv|].
    destruct (World.question_count w quiz_id =? 0); [exact Hinv|].
    destruct (Quiz.is_active (QuizFull.base quiz)); [exact Hinv|].
    apply world_get_quiz_some in Hquiz as [Hin Hid]. simpl.
    eapply (invariant_update w _ quiz _ Hinv Hin); simpl;
      try reflexivity; try discriminate.
    + intros _. rewrite Hid, lookup_insert_eq. now eexists.
    + intros k Hk. rewrite lookup_insert_ne by congruence. reflexivity.
    + intros s. rewrite Hid, lookup_insert_eq. intros [= <-].
      now rewrite started_session_qindex.
  - (* reset_quiz *)
    unfold AdminRoutes.reset_quiz, AdminRoutes.require_admin.
    destruct (String.eqb role "admin"); [|exact Hinv].
    destruct (World.get_quiz w quiz_id) as [quiz|] eqn:Hquiz; [|exact Hinv].
    apply world_get_quiz_some in Hquiz as [Hin Hid]. simpl.
    eapply (invariant_update w _ quiz _ Hinv Hin); simpl;
      try reflexivity; try discriminate.
    + intros k Hk. rewrite lookup_delete_ne by congruence. reflexivity.
    + intros s. rewrite Hid, lookup_delete_eq. discriminate.
  - (* delete_quiz *)
    unfold AdminRoutes.delete_quiz, AdminRoutes.require_admin.
    destruct (String.eqb role "admin"); [|exact Hinv].
    destruct (World.get_quiz w quiz_id) as [quiz|] eqn:Hquiz; [|exact Hinv].
    simpl. destruct Hinv as (Hnd & Hflags & Hidx).
    split; [|split]; simpl.
    + now apply nodup_filter_ids.
    + intros q Hq. apply filter_In in Hq as [Hq Hne].
      apply negb_true_iff, Z.eqb_neq in Hne.
      destruct (Hflags q Hq) as [Hp Ha]. split; [exact Hp|].
      intros Hact. rewrite lookup_delete_ne by congruence. now apply Ha.
    + intros k s Hk. destruct (Z.eq_dec quiz_id k) as [-> | Hne].
      * rewrite lookup_delete_eq in Hk. discriminate.
      * rewrite lookup_delete_ne in Hk by exact Hne. now apply (Hidx k).
  - (* handle_admin_start_quiz *)
    unfold AdminRoutes.handle_admin_start_quiz.
    destruct (quiz_id =? 0); [exact Hinv|].
    destruct (World.get_quiz w quiz_id) as [quiz|] eqn:Hquiz; [|exact Hinv].
    apply world_get_quiz_some in Hquiz as [Hin Hid]. simpl.
    eapply (invariant_update w _ quiz _ Hinv Hin); simpl;
      try reflexivity; try discriminate.
    + intros _. rewrite Hid, lookup_insert_eq. now eexists.
    + intros k Hk. rewrite lookup_insert_ne by congruence. reflexivity.
    + intros s. rewrite Hid, lookup_insert_eq. intros [= <-].
      now rewrite started_session_qindex.
  - (* admin_next_question of quiz_events.py *)
    pose proof Hinv as (Hnd & Hflags & Hidx).
    apply (invariant_state w); [exact Hinv | reflexivity | |]; simpl;
      unfold QuizEvents.admin_next_question;
      destruct (World.quiz_state w !! quiz_id) as [session|] eqn:Hsession;
      destruct (_ <=? _); simpl.
    + auto.
    + intros k Hk. destruct (Z.eq_dec quiz_id k) as [-> | Hne];
        [rewrite lookup_insert_eq; now eexists | now rewrite lookup_insert_ne].
    + intros k Hk. destruct (Z.eq_dec quiz_id k) as [-> | Hne];
        [rewrite lookup_insert_eq; now eexists | now rewrite lookup_insert_ne].
    + intros k Hk. destruct (Z.eq_dec quiz_id k) as [-> | Hne].
      * rewrite lookup_insert_eq. now eexists.
      * rewrite lookup_insert_ne by exact Hne. rewrite lookup_insert_ne by exact Hne.
        exact Hk.
    + exact Hidx.
    + intros k s. destruct (Z.eq_dec quiz_id k) as [-> | Hne].
      * rewrite lookup_insert_eq. intros [= <-]. simpl.
        specialize (Hidx _ _ Hsession). lia.
      * rewrite lookup_insert_ne by exact Hne. apply Hidx.
    + intros k s. destruct (Z.eq_dec quiz_id k) as [-> | Hne].
      * rewrite lookup_insert_eq. now intros [= <-].
      * rewrite lookup_insert_ne by exact Hne. apply Hidx.
    + intros k s. destruct (Z.eq_dec quiz_id k) as [-> | Hne].
      * rewrite lookup_insert_eq. now intros [= <-].
      * rewrite lookup_insert_ne by exact Hne. rewrite lookup_insert_ne by exact Hne.
        apply Hidx.
  - (* handle_admin_next_question of admin.py *)
    pose proof Hinv as (Hnd & Hflags & Hidx).
    apply (invariant_state w); [exact Hinv | reflexivity | |]; simpl;
      unfold Admin.handle_admin_next_question;
      destruct (World.quiz_state w !! quiz_id) as [session|] eqn:Hsession; simpl.
    + intros k Hk. destruct (Z.eq_dec quiz_id k) as [-> | Hne];
        [rewrite lookup_insert_eq; now eexists | now rewrite lookup_insert_ne].
    + auto.
    + intros k s. destruct (Z.eq_dec quiz_id k) as [-> | Hne].
      * rewrite lookup_insert_eq. intros [= <-]. simpl.
        specialize (Hidx _ _ Hsession). lia.
      * rewrite lookup_insert_ne by exact Hne. apply Hidx.
    + exact Hidx.
  - (* handle_admin_previous_question *)
    pose proof Hinv as (Hnd & Hflags & Hidx).
    apply (invariant_state w); [exact Hinv | reflexivity | |]; simpl;
      unfold AdminRoutes.handle_admin_previous_question;
      destruct (World.quiz_state w !! quiz_id) as [session|] eqn:Hsession; simpl.
    + intros k Hk. destruct (Z.eq_dec quiz_id k) as [-> | Hne];
        [rewrite lookup_insert_eq; now eexists | now rewrite lookup_insert_ne].
    + auto.
    + intros k s. destruct (Z.eq_dec quiz_id k) as [-> | Hne].
      * rewrite lookup_insert_eq. intros [= <-]. simpl. lia.
      * rewrite lookup_insert_ne by exact Hne. apply Hidx.
    + exact Hidx.
  - (* quiz creation, renaming, question authoring *)
    destruct Hinv as (_ & Hflags & Hidx).
    split; [exact Hnd|]. split.
    + intros q' Hq'. destruct (Hrows q' Hq') as [[Ha Hp] | (q & Hq & Hid & Ha & Hp)].
      * split; congruence.
      * destruct (Hflags q Hq) as [Hpa Hact]. rewrite <- Ha, <- Hp, <- Hid, Hstate.
        now split.
    + intros k s. rewrite Hstate. apply Hidx.
Qed.

(** X12.  In every world one run of the server can reach from a start with
    no quiz active and an empty [quiz_state], through the lifecycle routes
    and Socket.IO handlers of the host and the authoring of quizzes and
    questions: a paused quiz is active, every active quiz has a session in
    [quiz_state], and no session is at a negative question index. *)
Theorem lifecycle_invariant_holds :
  forall w : World.t, lifecycle_reachable w -> lifecycle_invariant w.
Proof.
  induction 1 as [w Hnd Hflags Hstate | w w' _ IH Hstep].
  - split; [exact Hnd|]. split.
    + intros q Hq. destruct (Hflags q Hq) as [Ha Hp]. split; congruence.
    + intros k s. rewrite Hstate, lookup_empty. discriminate.
  - now apply (lifecycle_step_invariant w).
Qed.

(** ** What the lifecycle routes mean for the participants *)

Lemma find_replace_quiz (rows : list QuizFull.row) (quiz_id : Z)
    (quiz quiz' : QuizFull.row) :
  List.find (fun q => Quiz.id (QuizFull.base q) =? quiz_id) rows = Some quiz ->
  Quiz.id (QuizFull.base quiz') = Quiz.id (QuizFull.base quiz) ->
  List.find (fun q => Quiz.id (QuizFull.base q) =? quiz_id) (World.replace_quiz quiz' rows)
  = Some quiz'.
Proof.
  intros Hfind Hid.
  assert (Hquiz : Quiz.id (QuizFull.base quiz) = quiz_id).
  { apply find_some in Hfind as [_ Heq]. now apply Z.eqb_eq in Heq. }
  induction rows as [|r rows IH]; simpl in *; [discriminate|].
  destruct (Z.eqb_spec (Quiz.id (QuizFull.base r)) quiz_id) as [Hr | Hr].
  - rewrite Hid, Hquiz. rewrite (proj2 (Z.eqb_eq _ _) Hr). simpl.
    now rewrite Hid, Hquiz, Z.eqb_refl.
  - rewrite Hid, Hquiz. rewrite (proj2 (Z.eqb_neq _ _) Hr). simpl.
    rewrite (proj2 (Z.eqb_neq _ _) Hr). now apply IH.
Qed.

Lemma find_map_base (rows : list QuizFull.row) (quiz_id : Z) :
  List.find (fun q => Quiz.id q =? quiz_id) (List.map QuizFull.base rows)
  = option_map QuizFull.base
      (List.find (fun q => Quiz.id (QuizFull.base q) =? quiz_id) rows).
Proof.
  induction rows as [|r rows IH]; simpl; [reflexivity|].
  now destruct (Quiz.id (QuizFull.base r) =? quiz_id).
Qed.

(** The quiz the student routes find is the base of the row the host's
    routes find. *)
Lemma db_get_quiz (w : World.t) (quiz_id : Z) :
  get_quiz (World.db w) quiz_id = option_map QuizFull.base (World.get_quiz w quiz_id).
Proof. unfold get_quiz, World.get_quiz, World.db. simpl. apply find_map_base. Qed.

Lemma world_get_quiz_replace (w : World.t) (quiz_id : Z) (quiz quiz' : QuizFull.row) :
  World.get_quiz w quiz_id = Some quiz ->
  Quiz.id (QuizFull.base quiz') = Quiz.id (QuizFull.base quiz) ->
  World.get_quiz (World.with_quiz w quiz') quiz_id = Some quiz'.
Proof. unfold World.get_quiz, World.with_quiz. simpl. apply find_replace_quiz. Qed.

Lemma attempt_quiz_post_refused `{PyRuntime} (db : DB) (quiz_id : Z)
    (form : Student.Submission) (quiz : Quiz.row) :
  Student.role form <> "admin" ->
  get_quiz db quiz_id = Some quiz ->
  (Quiz.is_active quiz = false ->
   Student.attempt_quiz_post db quiz_id form = (db, Student.RedirectWaitingRoom))
  /\ (Quiz.is_active quiz = true -> Quiz.is_published quiz = false ->
      Student.attempt_quiz_post db quiz_id form
      = (db, Student.QuizClosed "Quiz not available."))
  /\ (Quiz.is_active quiz = true -> Quiz.is_published quiz = true ->
      Quiz.is_paused quiz = true ->
      Student.attempt_quiz_post db quiz_id form
      = (db, Student.QuizClosed "Quiz is paused.")).
Proof.
  intros Hrole Hquiz. apply String.eqb_neq in Hrole.
  unfold Student.attempt_quiz_post. rewrite Hrole, Hquiz.
  split; [|split].
  - intros ->. reflexivity.
  - intros -> ->. reflexivity.
  - intros -> -> ->. reflexivity.
Qed.

(** X13.  What a participant's submission meets in each state of the
    lifecycle: after publishing, stopping or resetting a quiz it is sent to
    the waiting room; while an active, published quiz is paused it is
    refused with "Quiz is paused."; in all these cases nothing is stored.
    After a successful start the quiz is active, published and not paused,
    and holds no answer from an earlier session. *)
Theorem lifecycle_gates_submissions `{PyRuntime} :
  forall (w : World.t) (quiz_id : Z) (quiz : QuizFull.row) (form : Student.Submission),
    World.get_quiz w quiz_id = Some quiz ->
    Student.role form <> "admin" ->
    let submit (w' : World.t) := Student.attempt_quiz_post (World.db w') quiz_id form in
    (forall code now1 now2,
        QuizFull.is_locked quiz = true ->
        World.question_count w quiz_id <> 0 ->
        let w' := fst (fst (AdminRoutes.publish_quiz "admin" code now1 now2 w quiz_id)) in
        submit w' = (World.db w', Student.RedirectWaitingRoom))
    /\ (forall now,
        Quiz.is_active (QuizFull.base quiz) = true ->
        Quiz.is_published (QuizFull.base quiz) = true ->
        let w' := fst (fst (AdminRoutes.pause_quiz "admin" now w quiz_id)) in
        submit w' = (World.db w', Student.QuizClosed "Quiz is paused."))
    /\ (let w' := fst (fst (AdminRoutes.stop_quiz "admin" w quiz_id)) in
        submit w' = (World.db w', Student.RedirectWaitingRoom))
    /\ (let w' := fst (fst (AdminRoutes.reset_quiz "admin" w quiz_id)) in
        submit w' = (World.db w', Student.RedirectWaitingRoom))
    /\ (forall now1 now2,
        Quiz.is_published (QuizFull.base quiz) = true ->
        World.question_count w quiz_id <> 0 ->
        Quiz.is_active (QuizFull.base quiz) = false ->
        let w' := fst (fst (AdminRoutes.start_quiz "admin" now1 now2 w quiz_id)) in
        exists b,
          get_quiz (World.db w') quiz_id = Some b
          /\ Quiz.is_active b = true /\ Quiz.is_published b = true
          /\ Quiz.is_paused b = false
          /\ answers_of_quiz (World.db w') quiz_id = []).
Proof.
  intros w quiz_id quiz form Hquiz Hrole submit. subst submit. cbv beta.
  split; [|split; [|split; [|split]]].
  - intros code now1 now2 Hlocked Hcount. apply Z.eqb_neq in Hcount.
    unfold AdminRoutes.publish_quiz, AdminRoutes.require_admin.
    simpl String.eqb. cbv iota. rewrite Hquiz, Hlocked, Hcount. simpl negb. cbv iota.
    cbv zeta. simpl fst.
    match goal with |- context [World.with_quiz w ?q'] => set (quiz' := q') end.
    apply (attempt_quiz_post_refused _ quiz_id form (QuizFull.base quiz') Hrole);
      [|reflexivity].
    rewrite db_get_quiz. unfold World.get_quiz. simpl.
    now rewrite (find_replace_quiz _ quiz_id quiz quiz' Hquiz eq_refl).
  - intros now Hactive Hpublished.
    unfold AdminRoutes.pause_quiz, AdminRoutes.require_admin.
    simpl String.eqb. cbv iota. rewrite Hquiz. cbv zeta. rewrite Hactive. simpl andb.
    destruct (Quiz.is_paused (QuizFull.base quiz)) eqn:Hpaused; simpl negb; cbv iota;
      simpl fst.
    + apply (attempt_quiz_post_refused _ quiz_id form (QuizFull.base quiz) Hrole);
        [|assumption..].
      rewrite db_get_quiz. now rewrite Hquiz.
    + match goal with |- context [World.with_quiz w ?q'] => set (quiz' := q') end.
      apply (attempt_quiz_post_refused _ quiz_id form (QuizFull.base quiz') Hrole);
        [|reflexivity|exact Hpublished|reflexivity].
      rewrite db_get_quiz.
      now rewrite (world_get_quiz_replace w quiz_id quiz quiz' Hquiz eq_refl).
  - unfold AdminRoutes.stop_quiz, AdminRoutes.require_admin.
    simpl String.eqb. cbv iota. rewrite Hquiz. cbv zeta. simpl fst.
    match goal with |- context [World.with_quiz w ?q'] => set (quiz' := q') end.
    apply (attempt_quiz_post_refused _ quiz_id form (QuizFull.base quiz') Hrole);
      [|reflexivity].
    rewrite db_get_quiz. unfold World.get_quiz. simpl.
    now rewrite (find_replace_quiz _ quiz_id quiz quiz' Hquiz eq_refl).
  - unfold AdminRoutes.reset_quiz, AdminRoutes.require_admin.
    simpl String.eqb. cbv iota. rewrite Hquiz. cbv zeta. simpl fst.
    match goal with |- context [World.with_quiz ?w1 ?q'] => set (quiz' := q') end.
    apply (attempt_quiz_post_refused _ quiz_id form (QuizFull.base quiz') Hrole);
      [|reflexivity].
    rewrite db_get_quiz. unfold World.get_quiz. simpl.
    now rewrite (find_replace_quiz _ quiz_id quiz quiz' Hquiz eq_refl).
  - intros now1 now2 Hpublished Hcount Hinactive. apply Z.eqb_neq in Hcount.
    unfold AdminRoutes.start_quiz, AdminRoutes.require_admin.
    simpl String.eqb. cbv iota. rewrite Hquiz. cbv zeta.
    rewrite Hpublished, Hcount, Hinactive. simpl negb. cbv iota. simpl fst.
    match goal with |- context [World.with_quiz ?w1 ?q'] => set (quiz' := q') end.
    exists (QuizFull.base quiz'). split; [|split; [|split; [|split]]].
    + rewrite db_get_quiz. unfold World.get_quiz. simpl.
      now rewrite (find_replace_quiz _ quiz_id quiz quiz' Hquiz eq_refl).
    + reflexivity.
    + reflexivity.
    + reflexivity.
    + unfold answers_of_quiz. simpl.
      apply (filter_negb_filter (fun a => PartialAnswer.quiz_id a =? quiz_id)).
Qed.

(** X14.  The Socket.IO handler that starts a quiz has none of the guards of
    the route: for an existing quiz with an integer id other than 0 it always
    deletes the answers of the quiz, makes the quiz active and not paused and
    puts its session at question 0, whoever sends the event and whether or
    not the quiz is published, has questions or is already running.  The
    route does the same when its guards pass, and nothing otherwise. *)
Theorem socket_start_has_no_guards :
  forall (w : World.t) (quiz_id : Z) (quiz : QuizFull.row) (role : string)
         (now1 now2 now3 : Q),
    World.get_quiz w quiz_id = Some quiz ->
    quiz_id <> 0 ->
    let route := AdminRoutes.start_quiz role now1 now2 w quiz_id in
    let socket := AdminRoutes.handle_admin_start_quiz now1 now2 now3 w quiz_id in
    let guards :=
      String.eqb role "admin" && Quiz.is_published (QuizFull.base quiz)
      && negb (World.question_count w quiz_id =? 0)
      && negb (Quiz.is_active (QuizFull.base quiz)) in
    (guards = true -> fst (fst route) = fst (fst socket))
    /\ (guards = false -> fst (fst route) = w /\ snd (fst route) = [])
    /\ (exists quiz',
          World.get_quiz (fst (fst socket)) quiz_id = Some quiz'
          /\ Quiz.is_active (QuizFull.base quiz') = true
          /\ Quiz.is_paused (QuizFull.base quiz') = false
          /\ Quiz.is_published (QuizFull.base quiz')
             = Quiz.is_published (QuizFull.base quiz))
    /\ answers_of_quiz (World.db (fst (fst socket))) quiz_id = []
    /\ qindex_of quiz_id (World.quiz_state (fst (fst socket))) = 0
    /\ snd socket
       = AdminRoutes.AckStarted
           (Z.of_nat (length (answers_of_quiz (World.db w) quiz_id))) quiz_id.
Proof.
  intros w quiz_id quiz role now1 now2 now3 Hquiz Hid route socket guards.
  subst route socket guards.
  unfold AdminRoutes.start_quiz, AdminRoutes.handle_admin_start_quiz,
    AdminRoutes.require_admin.
  apply Z.eqb_neq in Hid. rewrite Hid, Hquiz. cbv zeta.
  unfold AdminRoutes.clear_quiz_session_data. simpl fst. simpl snd.
  split; [|split; [|split; [|split; [|split]]]].
  - intros Hguards. apply andb_true_iff in Hguards as [Hguards Hinactive].
    apply andb_true_iff in Hguards as [Hguards Hcount].
    apply andb_true_iff in Hguards as [Hrole Hpublished].
    apply negb_true_iff in Hinactive, Hcount.
    rewrite Hrole, Hpublished, Hcount, Hinactive. reflexivity.
  - intros Hguards.
    destruct (String.eqb role "admin"); [|now split].
    destruct (Quiz.is_published (QuizFull.base quiz)); simpl; [|now split].
    destruct (World.question_count w quiz_id =? 0); simpl; [now split|].
    destruct (Quiz.is_active (QuizFull.base quiz)); simpl; [now split|].
    discriminate.
  - eexists. split.
    + unfold World.with_quiz_state, World.get_quiz. simpl.
      apply (find_replace_quiz _ quiz_id quiz); [exact Hquiz | reflexivity].
    + split; [reflexivity|]. split; reflexivity.
  - unfold answers_of_quiz. simpl.
    apply (filter_negb_filter (fun a => PartialAnswer.quiz_id a =? quiz_id)).
  - unfold qindex_of. simpl. rewrite lookup_insert_eq. apply started_session_qindex.
  - reflexivity.
Qed.

Lemma results_after_submission `{PyRuntime} (db : DB) (quiz_id : Z)
    (form : Student.Submission) (existing : Result.row) :
  List.find (Student.same_result_key quiz_id (Student.student_name form)) (results db)
  = Some existing ->
  results (fst (Student.attempt_quiz_post db quiz_id form)) = results db.
Proof.
  intros Hfind.
  destruct (attempt_quiz_post_results db quiz_id form)
    as [Hsame | (db3 & ic & ca & nq & sl & Hresults & _ & Hpost)]; [exact Hsame|].
  rewrite Hpost. simpl.
  destruct (complete_quiz_results db3 quiz_id (Student.student_name form)
              (Z.of_nat (length (questions_of db quiz_id))))
    as [(e & _ & ->) | (Hnone & _)]; [exact Hresults|].
  rewrite Hresults in Hnone. congruence.
Qed.

(** X15.  Resetting and restarting a quiz deletes its answers but keeps the
    Result table, and the submission endpoint creates a Result row only when
    there is none: a participant who completed the quiz before the reset
    keeps the Result row of the first session, whatever is submitted in the
    new one. *)
Theorem retake_keeps_first_result `{PyRuntime} :
  forall (w : World.t) (quiz_id : Z) (form : Student.Submission)
         (existing : Result.row) (role : string) (now1 now2 : Q),
    List.find (Student.same_result_key quiz_id (Student.student_name form))
              (World.results w) = Some existing ->
    let w1 := fst (fst (AdminRoutes.reset_quiz role w quiz_id)) in
    let w2 := fst (fst (AdminRoutes.start_quiz role now1 now2 w1 quiz_id)) in
    World.results w2 = World.results w
    /\ results (fst (Student.attempt_quiz_post (World.db w2) quiz_id form))
       = World.results w
    /\ (role = "admin" -> is_Some (World.get_quiz w quiz_id) ->
        answers_of_quiz (World.db w1) quiz_id = []).
Proof.
  intros w quiz_id form existing role now1 now2 Hfind w1 w2.
  assert (H1 : World.results w1 = World.results w).
  { subst w1. unfold AdminRoutes.reset_quiz, AdminRoutes.require_admin.
    destruct (String.eqb role "admin"); [|reflexivity].
    now destruct (World.get_quiz w quiz_id). }
  assert (H2 : World.results w2 = World.results w).
  { rewrite <- H1. subst w2. generalize w1. intros w0.
    unfold AdminRoutes.start_quiz, AdminRoutes.require_admin.
    destruct (String.eqb role "admin"); [|reflexivity].
    destruct (World.get_quiz w0 quiz_id) as [quiz|]; [|reflexivity]. cbv zeta.
    destruct (negb (Quiz.is_published (QuizFull.base quiz))); [reflexivity|].
    destruct (World.question_count w0 quiz_id =? 0); [reflexivity|].
    now destruct (Quiz.is_active (QuizFull.base quiz)). }
  split; [exact H2|]. split.
  - rewrite <- H2. apply (results_after_submission (World.db w2) quiz_id form existing).
    simpl. rewrite H2. exact Hfind.
  - intros -> [quiz Hquiz]. subst w1.
    unfold AdminRoutes.reset_quiz, AdminRoutes.require_admin. simpl String.eqb.
    cbv iota. rewrite Hquiz. unfold answers_of_quiz. simpl.
    apply (filter_negb_filter (fun a => PartialAnswer.quiz_id a =? quiz_id)).
Qed.

(** X16.  Publishing a locked quiz with questions a second time keeps the
    join code of the first publication, whatever code the generator would
    hand out, and counts both publications; a join code the quiz had before
    is kept as well. *)
Theorem republish_keeps_join_code :
  forall (w : World.t) (quiz_id : Z) (quiz : QuizFull.row) (code1 code2 : string)
         (t1 t2 t3 t4 : Q),
    World.get_quiz w quiz_id = Some quiz ->
    QuizFull.is_locked quiz = true ->
    World.question_count w quiz_id <> 0 ->
    code1 <> "" ->
    let w1 := fst (fst (AdminRoutes.publish_quiz "admin" code1 t1 t2 w quiz_id)) in
    let w2 := fst (fst (AdminRoutes.publish_quiz "admin" code2 t3 t4 w1 quiz_id)) in
    exists q1 q2,
      World.get_quiz w1 quiz_id = Some q1
      /\ World.get_quiz w2 quiz_id = Some q2
      /\ QuizFull.join_code q2 = QuizFull.join_code q1
      /\ (truthy_str (QuizFull.join_code quiz) = true ->
          QuizFull.join_code q1 = QuizFull.join_code quiz)
      /\ (truthy_str (QuizFull.join_code quiz) = false ->
          QuizFull.join_code q1 = Some code1)
      /\ QuizFull.publish_count q2
         = Some (match QuizFull.publish_count quiz with Some c => c | None => 0 end + 2).
Proof.
  intros w quiz_id quiz code1 code2 t1 t2 t3 t4 Hquiz Hlocked Hcount Hcode w1 w2.
  apply Z.eqb_neq in Hcount.
  assert (Hw1 : exists q1,
             w1 = World.with_quiz_state (World.with_quiz w q1)
                    (<[Quiz.id (QuizFull.base quiz) := fresh_session]> (World.quiz_state w))
             /\ Quiz.id (QuizFull.base q1) = Quiz.id (QuizFull.base quiz)
             /\ QuizFull.is_locked q1 = true
             /\ QuizFull.join_code q1
                = (if truthy_str (QuizFull.join_code quiz)
                   then QuizFull.join_code quiz else Some code1)
             /\ QuizFull.publish_count q1
                = Some (match QuizFull.publish_count quiz with Some c => c | None => 0 end
                        + 1)).
  { subst w1. unfold AdminRoutes.publish_quiz, AdminRoutes.require_admin.
    simpl String.eqb. cbv iota. rewrite Hquiz, Hlocked, Hcount. simpl negb. cbv iota.
    cbv zeta. simpl fst. eexists. split; [reflexivity|]. simpl.
    repeat split; try exact Hlocked. }
  destruct Hw1 as (q1 & Hw1 & Hid1 & Hlocked1 & Hcode1 & Hcount1).
  assert (Hget1 : World.get_quiz w1 quiz_id = Some q1).
  { rewrite Hw1. unfold World.with_quiz_state, World.get_quiz. simpl.
    apply (find_replace_quiz _ quiz_id quiz); [exact Hquiz | exact Hid1]. }
  assert (Hquestions : World.question_count w1 quiz_id = World.question_count w quiz_id)
    by now rewrite Hw1.
  assert (Htruthy : truthy_str (QuizFull.join_code q1) = true).
  { rewrite Hcode1. destruct (truthy_str (QuizFull.join_code quiz)) eqn:Hold;
      [exact Hold|]. simpl. now apply negb_true_iff, String.eqb_neq. }
  exists q1. subst w2. unfold AdminRoutes.publish_quiz at 1, AdminRoutes.require_admin.
  simpl String.eqb. cbv iota. rewrite Hget1, Hlocked1, Hquestions, Hcount.
  simpl negb. cbv iota. cbv zeta. simpl fst. eexists.
  split; [reflexivity|]. split.
  - unfold World.with_quiz_state, World.get_quiz. simpl.
    apply (find_replace_quiz _ quiz_id q1); [exact Hget1 | reflexivity].
  - simpl. rewrite Htruthy, Hcount1.
    split; [reflexivity|]. split; [|split].
    + intros Hold. now rewrite Hcode1, Hold.
    + intros Hold. now rewrite Hcode1, Hold.
    + f_equal. lia.
Qed.

(** X17.  In a world that satisfies the lifecycle invariant, the host's
    leaderboard page marks the current question as the last one exactly when
    the next "next question" event, handled by app/sockets/quiz_events.py,
    finishes the quiz instead of moving on. *)
Theorem last_question_flag_matches_next :
  forall (w : World.t) (quiz_id : Z),
    lifecycle_invariant w ->
    AdminRoutes.live_leaderboard_is_last w quiz_id = true
    <-> snd (QuizEvents.admin_next_question (World.db w) quiz_id (World.quiz_state w))
        = [ {| event := "quiz_finished"; payload := []; room := pretty quiz_id |} ].
Proof.
  intros w quiz_id (_ & _ & Hidx).
  assert (Hnonneg : 0 <= qindex_of quiz_id (World.quiz_state w)).
  { unfold qindex_of. destruct (World.quiz_state w !! quiz_id) as [s|] eqn:Hs; [|lia].
    exact (Hidx _ _ Hs). }
  destruct (quiz_events_next (World.db w) quiz_id (World.quiz_state w)) as [Hlast Hmore].
  unfold AdminRoutes.live_leaderboard_is_last.
  change (World.question_count w quiz_id)
    with (Z.of_nat (length (questions_of (World.db w) quiz_id))).
  set (n := Z.of_nat (length (questions_of (World.db w) quiz_id))) in *.
  set (idx := qindex_of quiz_id (World.quiz_state w)) in *.
  destruct (Z_le_gt_dec (n - 1) idx) as [Hle | Hgt].
  - destruct (Hlast Hle) as [-> _]. split; [reflexivity|]. intros _.
    destruct (0 <? n); [|reflexivity]. apply Z.leb_le. lia.
  - destruct (Hmore ltac:(lia)) as [-> _]. split; [|discriminate].
    assert (Hpos : (0 <? n) = true) by (apply Z.ltb_lt; lia).
    rewrite Hpos. intros Hflag. apply Z.leb_le in Hflag. lia.
Qed.

(** ** The two views of the overall timer *)

Lemma py_int_proper (x y : Q) : (x == y)%Q -> py_int x = py_int y.
Proof.
  intros Heq. apply Z.le_antisymm; apply py_int_monotone; rewrite Heq; apply Qle_refl.
Qed.

(** X18.  While the overall timer of an active quiz runs, the remaining time
    the participant's page computes is never more than the one the host's
    page computes, both are between 0 and the whole duration once the clock
    has passed the start by the paused seconds, both never increase as the
    clock advances, and they are equal when no pause has been accounted. *)
Theorem participant_timer_never_ahead :
  forall (quiz : Quiz.row) (quiz_state : gmap Z Session) (session : Session)
         (minutes : Z) (started now : Q),
    Quiz.has_timer quiz = true -> Quiz.is_active quiz = true ->
    Quiz.overall_timer quiz = Some minutes -> 0 < minutes ->
    quiz_state !! Quiz.id quiz = Some session ->
    overall_started_at session = Some started -> ~ (started == 0)%Q ->
    0 <= Quiz.paused_seconds quiz ->
    exists participant host,
      Timer.attempt_quiz quiz quiz_state now = Some participant
      /\ snd (Timer.live_control quiz quiz_state now) = host
      /\ 0 <= participant <= host
      /\ ((started + inject_Z (Quiz.paused_seconds quiz) <= now)%Q -> host <= minutes * 60)
      /\ (Quiz.paused_seconds quiz = 0 -> participant = host)
      /\ (forall later,
            (now <= later)%Q ->
            snd (Timer.live_control quiz quiz_state later) <= host
            /\ forall p', Timer.attempt_quiz quiz quiz_state later = Some p' ->
                          p' <= participant).
Proof.
  intros quiz quiz_state session minutes started now Htimer Hactive Hminutes Hpos
         Hsession Hstarted Hnonzero Hpaused.
  assert (Htruthy : truthy_int (Some minutes) = true)
    by (simpl; apply negb_true_iff, Z.eqb_neq; lia).
  assert (Hltb : (0 <? minutes) = true) by now apply Z.ltb_lt.
  assert (Hzero : Qeq_bool started 0 = false).
  { destruct (Qeq_bool started 0) eqn:Heq; [|reflexivity].
    apply Qeq_bool_iff in Heq. contradiction. }
  assert (Hhost : forall t,
             snd (Timer.live_control quiz quiz_state t)
             = Z.max 0 (minutes * 60
                        - py_int (t - started - inject_Z (Quiz.paused_seconds quiz))%Q)).
  { intros t. unfold Timer.live_control.
    rewrite Hsession, Hminutes, Htimer, Hactive, Htruthy, Hltb, Hstarted, Hzero.
    reflexivity. }
  assert (Hpart : forall t,
             Timer.attempt_quiz quiz quiz_state t
             = Some (Z.max 0 (minutes * 60 - py_int (t - started)%Q))).
  { intros t. unfold Timer.attempt_quiz.
    rewrite Hminutes, Htimer, Htruthy, Hsession, Hstarted. reflexivity. }
  assert (Hq : (0 <= inject_Z (Quiz.paused_seconds quiz))%Q).
  { change 0%Q with (inject_Z 0). now rewrite <- Zle_Qle. }
  eexists. eexists. split; [apply Hpart|]. split; [apply Hhost|].
  split; [|split; [|split]].
  - assert (py_int (now - started - inject_Z (Quiz.paused_seconds quiz))%Q
            <= py_int (now - started)%Q) by (apply py_int_monotone; lra).
    lia.
  - intros Hafter.
    assert (py_int 0%Q
            <= py_int (now - started - inject_Z (Quiz.paused_seconds quiz))%Q)
      by (apply py_int_monotone; lra).
    change (py_int 0%Q) with 0 in *. lia.
  - intros Hnone. rewrite Hnone.
    rewrite (py_int_proper (now - started - inject_Z 0)%Q (now - started)%Q);
      [reflexivity|]. change (inject_Z 0) with 0%Q. ring.
  - intros later Hlater. split.
    + rewrite Hhost.
      assert (py_int (now - started - inject_Z (Quiz.paused_seconds quiz))%Q
              <= py_int (later - started - inject_Z (Quiz.paused_seconds quiz))%Q)
        by (apply py_int_monotone; lra).
      lia.
    + intros p'. rewrite Hpart. intros [= <-].
      assert (py_int (now - started)%Q <= py_int (later - started)%Q)
        by (apply py_int_monotone; lra).
      lia.
Qed.

(** ** The waiting room *)

Lemma remove_first_absent (x : string) (xs : list string) :
  ~ In x xs -> WaitingRoom.remove_first x xs = xs.
Proof.
  induction xs as [|y xs IH]; simpl; intros Hnot; [reflexivity|].
  destruct (String.eqb_spec y x) as [-> | Hne].
  - exfalso. apply Hnot. now left.
  - rewrite IH; [reflexivity|]. intros Hin. apply Hnot. now right.
Qed.

Lemma remove_first_snoc (x : string) (xs : list string) :
  ~ In x xs -> WaitingRoom.remove_first x (xs ++ [x]) = xs.
Proof.
  induction xs as [|y xs IH]; simpl; intros Hnot.
  - now rewrite String.eqb_refl.
  - destruct (String.eqb_spec y x) as [-> | Hne].
    + exfalso. apply Hnot. now left.
    + rewrite IH; [reflexivity|]. intros Hin. apply Hnot. now right.
Qed.

Lemma remove_first_In (x y : string) (xs : list string) :
  In y (WaitingRoom.remove_first x xs) -> In y xs.
Proof.
  induction xs as [|z xs IH]; simpl; [auto|].
  destruct (String.eqb z x); [now right|].
  intros [-> | Hin]; [now left | right; now apply IH].
Qed.

Lemma remove_first_nodup (x : string) (xs : list string) :
  List.NoDup xs ->
  List.NoDup (WaitingRoom.remove_first x xs) /\ ~ In x (WaitingRoom.remove_first x xs).
Proof.
  induction xs as [|z xs IH]; simpl; intros Hnd; [split; [constructor | auto]|].
  apply List.NoDup_cons_iff in Hnd as [Hnot Hnd].
  destruct (String.eqb_spec z x) as [-> | Hne]; [now split|].
  destruct (IH Hnd) as [Hnd' Hnot']. split.
  - constructor; [|exact Hnd']. intros Hin. apply Hnot. now apply remove_first_In in Hin.
  - intros [Heq | Hin]; [contradiction | now apply Hnot'].
Qed.

Lemma str_in_spec (x : string) (xs : list string) : str_in x xs = true <-> In x xs.
Proof.
  unfold str_in. rewrite existsb_exists. split.
  - intros (y & Hy & Heq). apply String.eqb_eq in Heq. now subst.
  - intros Hin. exists x. split; [exact Hin | apply String.eqb_refl].
Qed.

(** X19.  Joining a waiting room adds the user at the end of the list unless
    the name is there already, so a list without duplicates stays without
    duplicates and joining twice is the same as joining once; the broadcast
    carries the list after the join and its length; the rooms of other
    quizzes are not touched. *)
Theorem join_waiting_room_once :
  forall (quiz_id username sid : string) (st : WaitingRoom.state),
    List.NoDup (WaitingRoom.waiting quiz_id st) ->
    let result := WaitingRoom.handle_join_waiting_room quiz_id username sid st in
    let room := WaitingRoom.waiting quiz_id (fst result) in
    List.NoDup room
    /\ In username room
    /\ (forall other, other <> username ->
                      In other room <-> In other (WaitingRoom.waiting quiz_id st))
    /\ snd result = [ {| WaitingRoom.users := room;
                         WaitingRoom.count := Z.of_nat (length room);
                         WaitingRoom.to_room := ("waiting_room_" ++ quiz_id)%string |} ]
    /\ (forall sid',
          WaitingRoom.waiting quiz_id
            (fst (WaitingRoom.handle_join_waiting_room quiz_id username sid' (fst result)))
          = room)
    /\ (forall other, other <> quiz_id ->
                      WaitingRoom.waiting other (fst result) = WaitingRoom.waiting other st).
Proof.
  intros quiz_id username sid st Hnd result room. subst room result.
  unfold WaitingRoom.handle_join_waiting_room, WaitingRoom.waiting in *. simpl.
  rewrite lookup_insert_eq. simpl.
  set (room := default [] (WaitingRoom.waiting_rooms st !! quiz_id)) in *.
  destruct (str_in username room) eqn:Hin.
  - apply str_in_spec in Hin as Hmem.
    split; [exact Hnd|]. split; [exact Hmem|]. split; [tauto|].
    split; [reflexivity|]. split.
    + intros sid'. rewrite lookup_insert_eq. simpl. now rewrite Hin.
    + intros other Hother. now rewrite lookup_insert_ne.
  - assert (Hnot : ~ In username room).
    { intros Hmem. apply str_in_spec in Hmem. congruence. }
    split; [|split; [|split; [|split; [|split]]]].
    + apply List.NoDup_app; [exact Hnd | repeat constructor; intros [] |].
      intros x Hx [<- | []]. contradiction.
    + apply in_or_app. right. now left.
    + intros other Hother. rewrite in_app_iff. simpl. split; [|tauto].
      intros [Hold | [Heq | []]]; [exact Hold | congruence].
    + reflexivity.
    + intros sid'. rewrite lookup_insert_eq. simpl.
      assert (Hnow : str_in username (room ++ [username]) = true).
      { apply str_in_spec, in_or_app. right. now left. }
      now rewrite Hnow.
    + intros other Hother. now rewrite lookup_insert_ne.
Qed.

Lemma join_waiting_room_spec (quiz_id username sid : string) (st : WaitingRoom.state) :
  WaitingRoom.waiting quiz_id
    (fst (WaitingRoom.handle_join_waiting_room quiz_id username sid st))
  = if str_in username (WaitingRoom.waiting quiz_id st)
    then WaitingRoom.waiting quiz_id st
    else (WaitingRoom.waiting quiz_id st ++ [username])%list.
Proof.
  unfold WaitingRoom.handle_join_waiting_room, WaitingRoom.waiting. simpl.
  now rewrite lookup_insert_eq.
Qed.

Lemma leave_waiting_room_spec (quiz_id username : string) (st : WaitingRoom.state) :
  let room := WaitingRoom.waiting quiz_id st in
  let result := WaitingRoom.handle_leave_waiting_room quiz_id username st in
  WaitingRoom.waiting quiz_id (fst result) = WaitingRoom.remove_first username room
  /\ (In username room ->
      snd result
      = [WaitingRoom.participants_update quiz_id (WaitingRoom.remove_first username room)])
  /\ (~ In username room -> result = (st, [])).
Proof.
  unfold WaitingRoom.handle_leave_waiting_room, WaitingRoom.waiting.
  destruct (WaitingRoom.waiting_rooms st !! quiz_id) as [room|] eqn:Hroom; simpl.
  - destruct (str_in username room) eqn:Hin; simpl.
    + rewrite lookup_insert_eq. simpl. split; [reflexivity|]. split; [reflexivity|].
      intros Hnot. apply str_in_spec in Hin. contradiction.
    + assert (Hnot : ~ In username room).
      { intros Hmem. apply str_in_spec in Hmem. congruence. }
      rewrite Hroom. simpl. split; [now rewrite remove_first_absent|].
      split; [contradiction|reflexivity].
  - rewrite Hroom. simpl. split; [reflexivity|]. split; [contradiction|reflexivity].
Qed.

(** X20.  Leaving a waiting room whose list has no duplicates removes the
    user from it and keeps everybody else, in order; leaving without being
    listed changes nothing and broadcasts nothing; and a user who joins and
    then leaves again leaves the list as it was. *)
Theorem leave_waiting_room_removes :
  forall (quiz_id username : string) (st : WaitingRoom.state),
    List.NoDup (WaitingRoom.waiting quiz_id st) ->
    let result := WaitingRoom.handle_leave_waiting_room quiz_id username st in
    let room := WaitingRoom.waiting quiz_id (fst result) in
    List.NoDup room
    /\ ~ In username room
    /\ (forall other, other <> username ->
                      In other room <-> In other (WaitingRoom.waiting quiz_id st))
    /\ (~ In username (WaitingRoom.waiting quiz_id st) -> result = (st, []))
    /\ (In username (WaitingRoom.waiting quiz_id st) ->
        snd result = [ {| WaitingRoom.users := room;
                          WaitingRoom.count := Z.of_nat (length room);
                          WaitingRoom.to_room := ("waiting_room_" ++ quiz_id)%string |} ])
    /\ (forall sid,
          ~ In username (WaitingRoom.waiting quiz_id st) ->
          WaitingRoom.waiting quiz_id
            (fst (WaitingRoom.handle_leave_waiting_room quiz_id username
                    (fst (WaitingRoom.handle_join_waiting_room quiz_id username sid st))))
          = WaitingRoom.waiting quiz_id st).
Proof.
  intros quiz_id username st Hnd result room. subst room result.
  destruct (leave_waiting_room_spec quiz_id username st) as (Hroom & Hsent & Hsame).
  rewrite Hroom.
  destruct (remove_first_nodup username _ Hnd) as [Hnd' Hnot'].
  split; [exact Hnd'|]. split; [exact Hnot'|]. split; [|split; [|split]].
  - intros other Hother. split; [apply remove_first_In|].
    generalize (WaitingRoom.waiting quiz_id st). intros l.
    induction l as [|z l IH]; simpl; [auto|].
    destruct (String.eqb_spec z username) as [-> | Hne].
    + intros [Heq | Hold]; [congruence | exact Hold].
    + intros [-> | Hold]; [now left | right; now apply IH].
  - exact Hsame.
  - intros Hin. now rewrite (Hsent Hin).
  - intros sid Hnot.
    destruct (leave_waiting_room_spec quiz_id username
                (fst (WaitingRoom.handle_join_waiting_room quiz_id username sid st)))
      as (-> & _ & _).
    rewrite join_waiting_room_spec.
    assert (Hout : str_in username (WaitingRoom.waiting quiz_id st) = false).
    { destruct (str_in username _) eqn:Hin; [|reflexivity].
      apply str_in_spec in Hin. contradiction. }
    rewrite Hout. now apply remove_first_snoc.
Qed.

(** ** Questions the validator can judge *)


(** ** The properties of the lifecycle, the statistics and the waiting room
    at concrete inputs *)

(** X7 at the first submission to the one-question quiz, whose leaderboard
    is switched on. *)
Lemma reply_flag_agrees_with_api_witness :
  StudentApi.leaderboard_disabled
    (fst (@Student.attempt_quiz_post Examples.sample_runtime
            Examples.one_question_db 1 (Examples.submission "1" 5 100)))
    1 1 = false.
Proof.
  refine (proj1 (proj1 (@reply_flag_agrees_with_api Examples.sample_runtime
                          Examples.one_question_db _ 1 (Examples.submission "1" 5 100)
                          _ _ _ _ _ eq_refl)) eq_refl).
Defined.




Lemma draft_world_initial : lifecycle_reachable Scenarios.draft_world.
Proof.
  apply lifecycle_init.
  - unfold unique_quiz_ids. simpl. repeat constructor. intros [].
  - intros q [<- | []]. split; reflexivity.
  - reflexivity.
Defined.

Lemma running_world_reachable : lifecycle_reachable Scenarios.running_world.
Proof.
  unfold Scenarios.running_world.
  eapply lifecycle_next; [|apply step_start].
  eapply lifecycle_next; [|apply step_publish].
  exact draft_world_initial.
Defined.

(** X12 at the draft after publishing and starting it. *)
Lemma lifecycle_invariant_holds_witness : lifecycle_invariant Scenarios.running_world.
Proof.
  exact (lifecycle_invariant_holds Scenarios.running_world running_world_reachable).
Defined.

Lemma student_is_no_admin : Student.role (Examples.submission "1" 5 100) <> "admin".
Proof. discriminate. Defined.

(** X13 at the draft: after stopping it a submission goes to the waiting
    room. *)
Lemma lifecycle_gates_submissions_witness :
  let w' := fst (fst (AdminRoutes.stop_quiz "admin" Scenarios.draft_world 1)) in
  @Student.attempt_quiz_post Examples.sample_runtime (World.db w') 1
    (Examples.submission "1" 5 100)
  = (World.db w', Student.RedirectWaitingRoom).
Proof.
  exact (proj1 (proj2 (proj2 (@lifecycle_gates_submissions Examples.sample_runtime
                                Scenarios.draft_world 1 Scenarios.draft_quiz
                                (Examples.submission "1" 5 100) eq_refl
                                student_is_no_admin)))).
Defined.

Lemma one_is_not_zero : 1 <> 0.
Proof. discriminate. Defined.

(** X14 at the draft, which is not published: the event of a participant
    starts it and deletes alice's answer. *)
Lemma socket_start_has_no_guards_witness :
  fst (fst (AdminRoutes.start_quiz "student" 1000 1000 Scenarios.draft_world 1))
  = Scenarios.draft_world
  /\ answers_of_quiz
       (World.db (fst (fst (AdminRoutes.handle_admin_start_quiz 1000 1000 1000
                              Scenarios.draft_world 1)))) 1 = [].
Proof.
  destruct (socket_start_has_no_guards Scenarios.draft_world 1 Scenarios.draft_quiz
              "student" 1000 1000 1000 eq_refl one_is_not_zero)
    as (_ & Hroute & _ & Hcleared & _).
  split; [exact (proj1 (Hroute eq_refl)) | exact Hcleared].
Defined.

(** X15 at the draft: alice keeps her first result. *)
Lemma retake_keeps_first_result_witness :
  let w1 := fst (fst (AdminRoutes.reset_quiz "admin" Scenarios.draft_world 1)) in
  let w2 := fst (fst (AdminRoutes.start_quiz "admin" 1000 1000 w1 1)) in
  results (fst (@Student.attempt_quiz_post Examples.sample_runtime (World.db w2) 1
                  (Examples.submission "1" 5 100)))
  = [Scenarios.first_result].
Proof.
  exact (proj1 (proj2 (@retake_keeps_first_result Examples.sample_runtime
                         Scenarios.draft_world 1 (Examples.submission "1" 5 100)
                         Scenarios.first_result "admin" 1000 1000 eq_refl))).
Defined.

Lemma draft_has_questions : World.question_count Scenarios.draft_world 1 <> 0.
Proof. discriminate. Defined.

Lemma code_not_empty : "ABC123" <> "".
Proof. discriminate. Defined.

(** X16 at the draft, published twice. *)
Lemma republish_keeps_join_code_witness :
  let w1 := fst (fst (AdminRoutes.publish_quiz "admin" "ABC123" 900 900
                        Scenarios.draft_world 1)) in
  let w2 := fst (fst (AdminRoutes.publish_quiz "admin" "XYZ789" 950 950 w1 1)) in
  exists q2, World.get_quiz w2 1 = Some q2 /\ QuizFull.join_code q2 = Some "ABC123".
Proof.
  destruct (republish_keeps_join_code Scenarios.draft_world 1 Scenarios.draft_quiz
              "ABC123" "XYZ789" 900 900 950 950 eq_refl eq_refl draft_has_questions
              code_not_empty)
    as (q1 & q2 & _ & Hq2 & Hsame & _ & Hnew & _).
  exists q2. split; [exact Hq2|]. rewrite Hsame. now apply Hnew.
Defined.

Lemma draft_world_invariant : lifecycle_invariant Scenarios.draft_world.
Proof.
  split; [|split].
  - unfold unique_quiz_ids. simpl. repeat constructor. intros [].
  - intros q [<- | []]. split; discriminate.
  - intros k s. simpl. rewrite lookup_empty. discriminate.
Defined.

Lemma running_world_invariant : lifecycle_invariant Scenarios.running_world.
Proof.
  unfold Scenarios.running_world.
  eapply lifecycle_step_invariant; [apply step_start|].
  eapply lifecycle_step_invariant; [apply step_publish|].
  exact draft_world_invariant.
Defined.

(** X17 at the running quiz, which has one question. *)
Lemma last_question_flag_matches_next_witness :
  snd (QuizEvents.admin_next_question (World.db Scenarios.running_world) 1
         (World.quiz_state Scenarios.running_world))
  = [ {| event := "quiz_finished"; payload := []; room := pretty 1 |} ].
Proof.
  apply (last_question_flag_matches_next Scenarios.running_world 1
           running_world_invariant).
  vm_compute. reflexivity.
Defined.

Lemma timed_start_not_zero : ~ (1000 == 0)%Q.
Proof. intros Heq. vm_compute in Heq. discriminate. Defined.

Lemma no_pause_yet : 0 <= Quiz.paused_seconds Examples.timed_quiz.
Proof. vm_compute. discriminate. Defined.

(** X18 at the specification's timer scenario, 50 seconds after the start. *)
Lemma participant_timer_never_ahead_witness :
  exists participant host,
    Timer.attempt_quiz Examples.timed_quiz Examples.timed_state 1050%Q = Some participant
    /\ snd (Timer.live_control Examples.timed_quiz Examples.timed_state 1050%Q) = host
    /\ 0 <= participant <= host.
Proof.
  destruct (participant_timer_never_ahead Examples.timed_quiz Examples.timed_state
              {| current_qindex := 0; started_at := Some 1000%Q;
                 overall_timer := Some 60; overall_started_at := Some 1000%Q |}
              1 1000 1050 eq_refl eq_refl eq_refl eq_refl eq_refl eq_refl
              timed_start_not_zero no_pause_yet)
    as (participant & host & Hp & Hh & Hle & _).
  exists participant, host. repeat split; try assumption; apply Hle.
Defined.

Lemma no_rooms_nodup : List.NoDup (WaitingRoom.waiting "1" Scenarios.no_rooms).
Proof. unfold WaitingRoom.waiting. simpl. rewrite lookup_empty. constructor. Defined.

(** X19 at alice joining the waiting room of quiz 1 first. *)
Lemma join_waiting_room_once_witness :
  In "alice"
     (WaitingRoom.waiting "1"
        (fst (WaitingRoom.handle_join_waiting_room "1" "alice" "sid-1"
                Scenarios.no_rooms))).
Proof.
  exact (proj1 (proj2 (join_waiting_room_once "1" "alice" "sid-1" Scenarios.no_rooms
                         no_rooms_nodup))).
Defined.

(** X20 at alice leaving a waiting room she never joined. *)
Lemma leave_waiting_room_removes_witness :
  ~ In "alice"
      (WaitingRoom.waiting "1"
         (fst (WaitingRoom.handle_leave_waiting_room "1" "alice" Scenarios.no_rooms))).
Proof.
  exact (proj1 (proj2 (leave_waiting_room_removes "1" "alice" Scenarios.no_rooms
                         no_rooms_nodup))).
Defined.



(** ** Joining a quiz *)

Lemma find_unique {A : Type} (p : A -> bool) (l : list A) (x : A) :
  In x l -> p x = true -> (forall y, In y l -> p y = true -> y = x) ->
  List.find p l = Some x.
Proof.
  induction l as [|a l IH]; simpl; intros Hin Hp Huniq; [contradiction|].
  destruct (p a) eqn:Hpa.
  - f_equal. apply Huniq; [now left | exact Hpa].
  - destruct Hin as [-> | Hin]; [congruence|]. apply IH; auto.
Qed.

Lemma find_nowhere {A : Type} (p : A -> bool) (l : list A) :
  (forall y, In y l -> p y = false) -> List.find p l = None.
Proof.
  induction l as [|a l IH]; simpl; intros Hall; [reflexivity|].
  rewrite (Hall a) by now left. apply IH. auto.
Qed.

Lemma quiz_ids_inj (rows : list QuizFull.row) (a b : QuizFull.row) :
  List.NoDup (List.map (fun q => Quiz.id (QuizFull.base q)) rows) ->
  In a rows -> In b rows ->
  Quiz.id (QuizFull.base a) = Quiz.id (QuizFull.base b) -> a = b.
Proof.
  induction rows as [|q rows IH]; simpl; intros Hnd Ha Hb Heq; [contradiction|].
  apply List.NoDup_cons_iff in Hnd as [Hnot Hnd].
  destruct Ha as [-> | Ha], Hb as [-> | Hb].
  - reflexivity.
  - exfalso. apply Hnot. rewrite Heq.
    now apply (in_map (fun q => Quiz.id (QuizFull.base q))).
  - exfalso. apply Hnot. rewrite <- Heq.
    now apply (in_map (fun q => Quiz.id (QuizFull.base q))).
  - now apply IH.
Qed.

Lemma world_get_quiz_In (w : World.t) (quiz : QuizFull.row) :
  unique_quiz_ids w -> In quiz (World.quizzes w) ->
  World.get_quiz w (Quiz.id (QuizFull.base quiz)) = Some quiz.
Proof.
  intros Hnd Hin. unfold World.get_quiz. apply find_unique.
  - exact Hin.
  - apply Z.eqb_refl.
  - intros q Hq Hid. apply Z.eqb_eq in Hid.
    now apply (quiz_ids_inj (World.quizzes w)).
Qed.

(** X22.  A join code entered on the join page or opened as a join link of
    the student routes is accepted only when its quiz is published and
    already active, and the waiting room then forwards to the quiz, which
    does not send the participant back; for a published quiz that the host
    has not started, these two routes refuse the code, while the public join
    link leads a logged-in participant to the waiting room, which is shown,
    and to which a submission is redirected. *)
Theorem join_code_needs_started_quiz `{PyRuntime} :
  forall (py_upper : string -> string) (w : World.t) (quiz : QuizFull.row)
         (code : string) (form : Student.Submission),
    unique_quiz_ids w ->
    In quiz (World.quizzes w) ->
    QuizFull.join_code quiz = Some (py_upper code) ->
    (forall q, In q (World.quizzes w) ->
               QuizFull.join_code q = Some (py_upper code) -> q = quiz) ->
    Student.role form <> "admin" ->
    Quiz.is_published (QuizFull.base quiz) = true ->
    let role := Student.role form in
    let quiz_id := Quiz.id (QuizFull.base quiz) in
    (Quiz.is_active (QuizFull.base quiz) = false ->
     Joining.join_by_link py_upper role w code
     = Joining.RenderQuizClosed "Quiz not found or not active."
     /\ (forall typed, py_upper (py_strip typed) = py_upper code ->
                       Joining.join_by_code py_upper role w typed
                       = Joining.RenderJoinForm (Some "error"))
     /\ Joining.join_quiz_public py_upper role true w code
        = Joining.RedirectWaitingRoom quiz_id
     /\ Joining.waiting_room role w quiz_id = Joining.RenderWaitingRoom quiz_id
     /\ Student.attempt_quiz_post (World.db w) quiz_id form
        = (World.db w, Student.RedirectWaitingRoom))
    /\ (Quiz.is_active (QuizFull.base quiz) = true ->
        Joining.join_by_link py_upper role w code = Joining.RedirectWaitingRoom quiz_id
        /\ (forall typed, py_upper (py_strip typed) = py_upper code ->
                          Joining.join_by_code py_upper role w typed
                          = Joining.RedirectWaitingRoom quiz_id)
        /\ Joining.waiting_room role w quiz_id = Joining.RedirectAttemptQuiz quiz_id
        /\ snd (Student.attempt_quiz_post (World.db w) quiz_id form)
           <> Student.RedirectWaitingRoom).
Proof.
  intros py_upper w quiz code form Hnd Hin Hcode Huniq Hrole Hpublished role quiz_id.
  subst role quiz_id.
  assert (Hrole' : String.eqb (Student.role form) "admin" = false)
    by now apply String.eqb_neq.
  assert (Hmine : Joining.code_is (py_upper code) quiz = true).
  { unfold Joining.code_is. rewrite Hcode. apply String.eqb_refl. }
  assert (Hothers : forall q, In q (World.quizzes w) ->
                              Joining.code_is (py_upper code) q = true -> q = quiz).
  { intros q Hq Hc. apply Huniq; [exact Hq|]. unfold Joining.code_is in Hc.
    destruct (QuizFull.join_code q) as [c|]; [|discriminate].
    apply String.eqb_eq in Hc. now subst. }
  assert (Hget : World.get_quiz w (Quiz.id (QuizFull.base quiz)) = Some quiz)
    by now apply world_get_quiz_In.
  assert (Hdb : get_quiz (World.db w) (Quiz.id (QuizFull.base quiz))
                = Some (QuizFull.base quiz))
    by now rewrite db_get_quiz, Hget.
  assert (Hpublic : Joining.published_quiz_with_code w (py_upper code) = Some quiz).
  { unfold Joining.published_quiz_with_code. apply find_unique; [exact Hin | |].
    - now rewrite Hmine, Hpublished.
    - intros q Hq Hp. apply andb_true_iff in Hp as [Hc _]. now apply Hothers. }
  split.
  - intros Hinactive.
    assert (Hnone : Joining.active_quiz_with_code w (py_upper code) = None).
    { unfold Joining.active_quiz_with_code. apply find_nowhere. intros q Hq.
      destruct (Joining.code_is (py_upper code) q) eqn:Hc; [|reflexivity].
      rewrite (Hothers q Hq Hc), Hinactive. reflexivity. }
    split; [|split; [|split; [|split]]].
    + unfold Joining.join_by_link. now rewrite Hrole', Hnone.
    + intros typed Htyped. unfold Joining.join_by_code.
      now rewrite Hrole', Htyped, Hnone.
    + unfold Joining.join_quiz_public. now rewrite Hpublic, Hrole'.
    + unfold Joining.waiting_room. now rewrite Hrole', Hget, Hinactive.
    + now apply (attempt_quiz_post_refused (World.db w) _ form (QuizFull.base quiz)).
  - intros Hactive.
    assert (Hsome : Joining.active_quiz_with_code w (py_upper code) = Some quiz).
    { unfold Joining.active_quiz_with_code. apply find_unique; [exact Hin | |].
      - now rewrite Hmine, Hactive, Hpublished.
      - intros q Hq Hp. apply andb_true_iff in Hp as [Hp _].
        apply andb_true_iff in Hp as [Hc _]. now apply Hothers. }
    split; [|split; [|split]].
    + unfold Joining.join_by_link. now rewrite Hrole', Hsome.
    + intros typed Htyped. unfold Joining.join_by_code.
      now rewrite Hrole', Htyped, Hsome.
    + unfold Joining.waiting_room. now rewrite Hrole', Hget, Hactive.
    + unfold Student.attempt_quiz_post. rewrite Hrole', Hdb, Hactive, Hpublished.
      simpl negb. cbv iota.
      destruct (Quiz.is_paused (QuizFull.base quiz)); [simpl; discriminate|].
      destruct (questions_of (World.db w) (Quiz.id (QuizFull.base quiz)));
        [simpl; discriminate|].
      destruct (get_question (World.db w) (Student.question_id form));
        [|simpl; discriminate].
      destruct (check_answer_correctness _ _); [|simpl; discriminate].
      destruct (_ <=? _); simpl; discriminate.
Qed.

(** ** The per-question leaderboard of app/routes/leaderboard_service.py *)

Lemma correct_first_then_time_total (a b : PartialAnswer.row) :
  RoutesLeaderboardService.correct_first_then_time a b = true
  \/ RoutesLeaderboardService.correct_first_then_time b a = true.
Proof.
  unfold RoutesLeaderboardService.correct_first_then_time.
  destruct (PartialAnswer.is_correct a), (PartialAnswer.is_correct b); auto;
    rewrite !Z.leb_le; lia.
Qed.

Lemma correct_first_then_time_trans (a b c : PartialAnswer.row) :
  RoutesLeaderboardService.correct_first_then_time a b = true ->
  RoutesLeaderboardService.correct_first_then_time b c = true ->
  RoutesLeaderboardService.correct_first_then_time a c = true.
Proof.
  unfold RoutesLeaderboardService.correct_first_then_time.
  destruct (PartialAnswer.is_correct a), (PartialAnswer.is_correct b),
    (PartialAnswer.is_correct c); auto; try discriminate;
    rewrite !Z.leb_le; lia.
Qed.

(** X23.  With both leaderboard flags set, the per-question leaderboard of
    app/routes/leaderboard_service.py has one entry for every stored answer
    to the question, correct or not; every correct answer stands before
    every incorrect one, answers with the same verdict stand in ascending
    order of time taken, and the rank of an entry is its position, counted
    from 1. *)
Theorem routes_question_leaderboard_order :
  forall (db : DB) (quiz_id question_id : Z) (quiz : Quiz.row) (question : Question.row),
    get_quiz db quiz_id = Some quiz ->
    get_question db question_id = Some question ->
    truthy_flag (Quiz.show_leaderboard_global quiz) = true ->
    truthy_flag (Question.show_leaderboard question) = true ->
    let board := RoutesLeaderboardService.get_question_leaderboard db quiz_id question_id in
    let answers :=
      List.filter (fun a => (PartialAnswer.quiz_id a =? quiz_id)
                            && (PartialAnswer.question_id a =? question_id))
                  (partial_answers db) in
    Permutation
      (List.map (fun e => (RoutesLeaderboardService.q_name e,
                           RoutesLeaderboardService.q_is_correct e,
                           RoutesLeaderboardService.q_time_taken e)) board)
      (List.map (fun a => (PartialAnswer.student a, PartialAnswer.is_correct a,
                           PartialAnswer.time_taken a)) answers)
    /\ (forall i e, nth_error board i = Some e ->
                    RoutesLeaderboardService.q_rank e = Z.of_nat i + 1)
    /\ (forall i j e1 e2,
          (i < j)%nat -> nth_error board i = Some e1 -> nth_error board j = Some e2 ->
          (RoutesLeaderboardService.q_is_correct e2 = true ->
           RoutesLeaderboardService.q_is_correct e1 = true)
          /\ (RoutesLeaderboardService.q_is_correct e1
              = RoutesLeaderboardService.q_is_correct e2 ->
              RoutesLeaderboardService.q_time_taken e1
              <= RoutesLeaderboardService.q_time_taken e2)).
Proof.
  intros db quiz_id question_id quiz question Hquiz Hquestion Hglobal Hshow board answers.
  subst board. unfold RoutesLeaderboardService.get_question_leaderboard.
  rewrite Hquiz, Hglobal, Hquestion, Hshow. simpl negb. cbv iota. fold answers.
  set (ordered := sort_by RoutesLeaderboardService.correct_first_then_time answers).
  assert (Hsorted : StronglySorted (le_of RoutesLeaderboardService.correct_first_then_time)
                      ordered).
  { apply sort_by_strongly_sorted;
      [apply correct_first_then_time_total | apply correct_first_then_time_trans]. }
  assert (Hnth : forall i e,
             nth_error
               (List.map
                  (fun ia : nat * PartialAnswer.row =>
                     {| RoutesLeaderboardService.q_rank := Z.of_nat (fst ia);
                        RoutesLeaderboardService.q_name := PartialAnswer.student (snd ia);
                        RoutesLeaderboardService.q_is_correct :=
                          PartialAnswer.is_correct (snd ia);
                        RoutesLeaderboardService.q_time_taken :=
                          PartialAnswer.time_taken (snd ia);
                        RoutesLeaderboardService.q_points := PartialAnswer.points (snd ia);
                        RoutesLeaderboardService.q_submitted_at :=
                          PartialAnswer.submitted_at (snd ia) |})
                  (enumerate 1 ordered)) i = Some e ->
             exists a, nth_error ordered i = Some a
                       /\ RoutesLeaderboardService.q_rank e = Z.of_nat i + 1
                       /\ RoutesLeaderboardService.q_is_correct e = PartialAnswer.is_correct a
                       /\ RoutesLeaderboardService.q_time_taken e
                          = PartialAnswer.time_taken a).
  { intros i e He. rewrite nth_error_map in He.
    destruct (nth_error (enumerate 1 ordered) i) as [p|] eqn:Hp; [|discriminate].
    injection He as <-. apply enumerate_nth in Hp as [Hf Hs].
    exists (snd p). simpl. rewrite Hf. repeat split; [exact Hs | lia]. }
  split; [|split].
  - rewrite map_map. simpl.
    rewrite <- (map_map snd (fun a => (PartialAnswer.student a, PartialAnswer.is_correct a,
                                       PartialAnswer.time_taken a))).
    rewrite enumerate_snd. apply Permutation_map. apply sort_by_perm.
  - intros i e He. destruct (Hnth i e He) as (a & _ & Hrank & _). exact Hrank.
  - intros i j e1 e2 Hij H1 H2.
    destruct (Hnth i e1 H1) as (a & Ha & _ & Hc1 & Ht1).
    destruct (Hnth j e2 H2) as (b & Hb & _ & Hc2 & Ht2).
    pose proof (strongly_sorted_nth _ ordered Hsorted i j a b Hij Ha Hb) as Hab.
    unfold le_of, RoutesLeaderboardService.correct_first_then_time in Hab.
    rewrite Hc1, Hc2, Ht1, Ht2.
    destruct (PartialAnswer.is_correct a), (PartialAnswer.is_correct b);
      try discriminate; split; auto; try discriminate; intros _; now apply Z.leb_le.
Qed.

Lemma published_world_keys :
  unique_quiz_ids
    (fst (fst (AdminRoutes.publish_quiz "admin" "ABC123" 900 900
                 Scenarios.draft_world 1))).
Proof. unfold unique_quiz_ids. simpl. repeat constructor. intros []. Defined.

(** X22 at the draft after publishing it: its code is refused until the host
    starts the quiz. *)
Lemma join_code_needs_started_quiz_witness :
  let w := fst (fst (AdminRoutes.publish_quiz "admin" "ABC123" 900 900
                       Scenarios.draft_world 1)) in
  Joining.join_by_link (fun s => s) "student" w "ABC123"
  = Joining.RenderQuizClosed "Quiz not found or not active."
  /\ Joining.join_quiz_public (fun s => s) "student" true w "ABC123"
     = Joining.RedirectWaitingRoom 1.
Proof.
  set (w := fst (fst (AdminRoutes.publish_quiz "admin" "ABC123" 900 900
                        Scenarios.draft_world 1))).
  assert (Hin : In (hd Scenarios.draft_quiz (World.quizzes w)) (World.quizzes w))
    by (left; reflexivity).
  assert (Huniq : forall q, In q (World.quizzes w) ->
                            QuizFull.join_code q = Some "ABC123" ->
                            q = hd Scenarios.draft_quiz (World.quizzes w)).
  { intros q [<- | []] _. reflexivity. }
  destruct (proj1 (@join_code_needs_started_quiz Examples.sample_runtime (fun s => s)
                     w (hd Scenarios.draft_quiz (World.quizzes w)) "ABC123"
                     (Examples.submission "1" 5 100) published_world_keys Hin eq_refl
                     Huniq student_is_no_admin eq_refl) eq_refl)
    as (Hlink & _ & Hpublic & _).
  split; [exact Hlink | exact Hpublic].
Defined.

(** X23 at question 1 of the tie scenario. *)
Lemma routes_question_leaderboard_order_witness :
  Permutation
    (List.map (fun e => (RoutesLeaderboardService.q_name e,
                         RoutesLeaderboardService.q_is_correct e,
                         RoutesLeaderboardService.q_time_taken e))
       (RoutesLeaderboardService.get_question_leaderboard
          (Examples.tie_db (Some true)) 1 1))
    [("alice", true, 20); ("bob", true, 10)].
Proof.
  exact (proj1 (routes_question_leaderboard_order (Examples.tie_db (Some true)) 1 1
                  (Examples.open_quiz (Some true)) (Examples.choice_question 1)
                  eq_refl eq_refl eq_refl eq_refl)).
Defined.

(** ** Clearing the data of one participant *)



